(** * autoPlant: countdown parser, wait normalizer, scheduler and executors

    A shallow embedding of [autoMowan.py] and [autoPlant.py].

    - Python [str] values are lists of Unicode code points ([text]).
    - Python [int] values are [Z]; readings of [time.time()] are [Q]
      (every finite float is a rational).  Where the code adds whole
      seconds to a reading of the clock, subtracts two readings or compares
      them, the rationals stand for the floats: such sums and differences
      are exact in binary64 as long as they stay in the binade of the
      readings.  Where the code turns a float product or quotient into an
      [int], the rounding of binary64 is written out ([Float64]).
    - A call that may raise returns a [Res]; code running against the page
      and the clock lives in the monad [M], which threads the outside world,
      collects the observable events and stops at the first exception. *)

From Stdlib Require Import List ZArith NArith QArith Qminmax Bool Lia Lqa String Ascii.
Import ListNotations.

Set Implicit Arguments.

(** ** Results of calls that may raise *)

Inductive Res (A : Type) : Type :=
| Ok (a : A)
| Raised.
Arguments Raised {A}.

Definition text := list N.

(** Code points of an ASCII literal. *)
Definition lit (s : string) : text :=
  List.map N_of_ascii (list_ascii_of_string s).

Definition colon : N := 58%N.

(** [str.isspace]: the characters removed by [str.strip()]. *)
Definition is_space (c : N) : bool :=
  ((9 <=? c) && (c <=? 13) || (28 <=? c) && (c <=? 32)
   || (c =? 133) || (c =? 160) || (c =? 5760)
   || (8192 <=? c) && (c <=? 8202)
   || (c =? 8232) || (c =? 8233) || (c =? 8239) || (c =? 8287)
   || (c =? 12288))%N.

Fixpoint lstrip (t : text) : text :=
  match t with
  | [] => []
  | c :: t' => if is_space c then lstrip t' else t
  end.

Fixpoint rstrip (t : text) : text :=
  match t with
  | [] => []
  | c :: t' =>
      match rstrip t' with
      | [] => if is_space c then [] else [c]
      | r => c :: r
      end
  end.

Definition strip (t : text) : text := rstrip (lstrip t).

(** ** autoMowan.py: the countdown parser *)

Module Parser.
Section WithDigits.

(** The decimal value of a code point of Unicode category Nd, the class
    matched by [\d] and converted by [int]; the table belongs to the
    interpreter's Unicode database. *)
Variable digit_value : N -> option Z.

Definition is_digit (c : N) : bool :=
  match digit_value c with Some _ => true | None => false end.

(** [int(s)] for the strings this parser converts.  Only runs of decimal
    digits are covered: any other string is reported as [ValueError]. *)
Fixpoint int_digits (acc : Z) (s : text) : Res Z :=
  match s with
  | [] => Ok acc
  | c :: s' =>
      match digit_value c with
      | Some d => int_digits (acc * 10 + d) s'
      | None => Raised
      end
  end.

(** [sys.get_int_max_str_digits()] as the interpreter starts: [int] raises
    [ValueError] on a string of more digits, leading zeros counted. *)
Definition INT_MAX_STR_DIGITS : nat := 4300.

Definition py_int (s : text) : Res Z :=
  match s with
  | [] => Raised
  | _ =>
      if (INT_MAX_STR_DIGITS <? List.length s)%nat then Raised
      else int_digits 0 s
  end.

(** [":(\d{2}):(\d{2})"] at the head of [t]: the two captured groups. *)
Definition match_tail (t : text) : option (text * text) :=
  match t with
  | c0 :: m1 :: m2 :: c1 :: s1 :: s2 :: _ =>
      if (c0 =? colon)%N && is_digit m1 && is_digit m2
         && (c1 =? colon)%N && is_digit s1 && is_digit s2
      then Some ([m1; m2], [s1; s2])
      else None
  | _ => None
  end.

(** [COUNTDOWN_RE] anchored at the head of [t].  [\d{1,2}] is greedy: two
    digits are tried first, one digit after backtracking. *)
Definition match_here (t : text) : option (text * text * text) :=
  match t with
  | h1 :: rest =>
      if is_digit h1 then
        let two :=
          match rest with
          | h2 :: rest2 =>
              if is_digit h2 then
                match match_tail rest2 with
                | Some (m, s) => Some ([h1; h2], m, s)
                | None => None
                end
              else None
          | [] => None
          end in
        match two with
        | Some g => Some g
        | None =>
            match match_tail rest with
            | Some (m, s) => Some ([h1], m, s)
            | None => None
            end
        end
      else None
  | [] => None
  end.

(** [COUNTDOWN_RE.search(t)]: the groups of the leftmost match. *)
Fixpoint countdown_search (t : text) : option (text * text * text) :=
  match match_here t with
  | Some g => Some g
  | None =>
      match t with
      | [] => None
      | _ :: t' => countdown_search t'
      end
  end.

(** [re.findall(r"\d+", t)]: the maximal digit runs, left to right.
    [cur] holds the run being read, last digit first. *)
Fixpoint findall_from (cur : text) (t : text) : list text :=
  match t with
  | [] => match cur with [] => [] | _ => [rev cur] end
  | c :: t' =>
      if is_digit c then findall_from (c :: cur) t'
      else
        match cur with
        | [] => findall_from [] t'
        | _ => rev cur :: findall_from [] t'
        end
  end.

Definition findall_digits (t : text) : list text := findall_from [] t.

(** [h * 3600 + m * 60 + s] after [h, m, s = map(int, ...)] on three strings. *)
Definition hms (a b c : text) : Res Z :=
  match py_int a, py_int b, py_int c with
  | Ok h, Ok m, Ok s => Ok (h * 3600 + m * 60 + s)%Z
  | _, _, _ => Raised
  end.

Definition parse_countdown_text (text0 : option text) : Res (option Z) :=
  match text0 with
  | None | Some [] => Ok None
  | Some t0 =>
      let t := strip t0 in
      match countdown_search t with
      | Some (a, b, c) =>
          match hms a b c with Ok v => Ok (Some v) | Raised => Raised end
      | None =>
          match findall_digits t with
          | a :: b :: c :: _ =>
              match hms a b c with Ok v => Ok (Some v) | Raised => Raised end
          | _ => Ok None
          end
      end
  end.

End WithDigits.
End Parser.

(** ** The monad of page and clock code *)

Section Monad.
Variables W E : Type.

(** A computation takes the world, and gives its result or the exception it
    stopped at, the world it leaves and the events it produced. *)
Definition M (A : Type) : Type := W -> Res A * W * list E.

Definition ret {A} (a : A) : M A := fun w => (Ok a, w, []).

Definition bind {A B} (m : M A) (f : A -> M B) : M B :=
  fun w =>
    match m w with
    | (Ok a, w1, e1) =>
        match f a w1 with
        | (r, w2, e2) => (r, w2, e1 ++ e2)
        end
    | (Raised, w1, e1) => (Raised, w1, e1)
    end.

Definition raise {A} : M A := fun w => (Raised, w, []).

(** [try: m except Exception: ...], the outcome handed to the handler. *)
Definition try_ {A} (m : M A) : M (Res A) :=
  fun w => match m w with (r, w1, e1) => (Ok r, w1, e1) end.

Definition emit (e : E) : M unit := fun w => (Ok tt, w, [e]).

(** A call into the outside world that may raise, and one that does not. *)
Definition call {A} (op : W -> Res A * W) : M A :=
  fun w => match op w with (r, w1) => (r, w1, []) end.

Definition call_ok {A} (op : W -> A * W) : M A :=
  fun w => match op w with (a, w1) => (Ok a, w1, []) end.

Definition act (op : W -> W) : M unit := fun w => (Ok tt, op w, []).

(** [log(msg)] prints a line, which is not among the events. *)
Definition log (msg : string) : M unit := ret tt.

(** [for i in range(n): body(i)], counting from [i]. *)
Fixpoint for_range_from (i : nat) (n : nat) (body : nat -> M unit) : M unit :=
  match n with
  | O => ret tt
  | S k => bind (body i) (fun _ => for_range_from (S i) k body)
  end.

Definition for_range (n : nat) (body : nat -> M unit) : M unit :=
  for_range_from 0 n body.

Definition result {A} (x : Res A * W * list E) : Res A := fst (fst x).
Definition world {A} (x : Res A * W * list E) : W := snd (fst x).
Definition events {A} (x : Res A * W * list E) : list E := snd x.

End Monad.

Arguments ret {W E A} a.
Arguments raise {W E A}.
Arguments emit {W E} e.
Arguments log {W E} msg.
Arguments call {W E A} op.
Arguments call_ok {W E A} op.
Arguments act {W E} op.

Declare Scope monad_scope.
Delimit Scope monad_scope with monad.
Notation "x <- m ;; k" := (bind m (fun x => k))
  (at level 61, m at next level, right associativity) : monad_scope.
Notation "m ;;; k" := (bind m (fun _ => k))
  (at level 61, right associativity) : monad_scope.
Notation "' p <- m ;; k" := (bind m (fun x => match x with p => k end))
  (at level 61, p pattern, m at next level, right associativity) : monad_scope.

Local Open Scope monad_scope.

(** ** autoMowan.py: executors, wait normalizer and scheduler *)

Module Mowan.

Inductive Task : Type := Clean | Brick.

(** The events of a run. *)
Inductive Event : Type :=
| Slept (d : Q)            (* time.sleep(d) *)
| Waited (ms : Z)          (* page.wait_for_timeout(ms) *)
| Session (t : Task)       (* a session of the task was started *)
| Probe (t : Task)         (* a countdown was fetched outside a session *)
| ClickFirst (ok : bool).  (* items.first.click(), and whether it succeeded *)

(** The tunables read from the environment when the module is loaded. *)
Record Config : Type := {
  STATUS_RECHECK_INTERVAL_SEC : Z;
  DEFAULT_NEXT_INTERVAL_SEC : Z;
  BRICK_DEFAULT_INTERVAL_SEC : Z;
  BRICK_RECHECK_INTERVAL_SEC : Z
}.

Definition default_config : Config := {|
  STATUS_RECHECK_INTERVAL_SEC := 3600;
  DEFAULT_NEXT_INTERVAL_SEC := 2 * 3600;
  BRICK_DEFAULT_INTERVAL_SEC := 24 * 3600;
  BRICK_RECHECK_INTERVAL_SEC := 6 * 3600
|}.

Definition ITEM_CLICK_INTERVAL_MS : Z := 200.
Definition MIN_WAIT_AFTER_CHECK_SEC : Z := 30.

Definition SEL_DROP_ITEMS : string := "#beachArea > *".
Definition SEL_STATUS_COUNTDOWN : string := "#beachStatus .countdown".
Definition SEL_BRICK_STATUS_COUNTDOWN : string := "#brickStatus .countdown".

(** A sleep of up to 9 * 10^9 seconds ends within the reach of the
    monotonic clock, which counts nanoseconds in 63 bits from the start of
    the machine, when the machine has been up for less than seven years. *)
Definition SLEEP_SAFE_SEC : Z := 9000000000.

(** The clock and the scripted browser, as the code calls them.  Every
    operation is taken to return or to raise. *)
Class Host (W : Type) : Type := {
  (* time.time(), and time.sleep(d) for a length that the interpreter and
     the operating system accept *)
  time_time : W -> Q * W;
  time_sleep : Q -> W -> W;
  (* the longest sleep the operating system accepts at that moment (a
     longer one is an OSError: its end is beyond the monotonic clock); it
     is taken to be of 9 * 10^9 seconds at least *)
  sleep_limit : W -> Q;
  sleep_limit_safe : forall w, inject_Z SLEEP_SAFE_SEC <= sleep_limit w;
  (* datetime.now(TZ): the wall clock of the time zone, in microseconds
     since 0001-01-01 00:00:00 *)
  datetime_now : W -> Z * W;
  (* sync_playwright() with open_page_session(p); browser.close() *)
  open_page_session : W -> Res unit * W;
  browser_close : W -> Res unit * W;
  (* run_loop(page, max_runtime_sec=CLEAN_SESSION_SEC): the clicking loop of
     a cleaning session, made of click_clean_button and click_drops *)
  run_loop : W -> Res unit * W;
  (* wait_for_brick_factory_ready(page) and click_brick_factory(page) *)
  wait_for_brick_factory_ready : W -> Res bool * W;
  click_brick_factory : W -> Res Z * W;
  (* page.wait_for_load_state("networkidle"), page.wait_for_timeout(ms) *)
  wait_for_load_state : W -> Res unit * W;
  wait_for_timeout : Z -> W -> W;
  (* locator(sel): count(), wait_for(state="attached"), inner_text() *)
  locator_count : string -> W -> Res Z * W;
  locator_wait_for : string -> W -> Res unit * W;
  locator_inner_text : string -> W -> Res text * W;
  (* locator(sel).first: inner_text(), scroll_into_view_if_needed(), click() *)
  first_inner_text : string -> W -> Res text * W;
  first_scroll_into_view : string -> W -> Res unit * W;
  first_click : string -> W -> Res unit * W
}.

Record SchedState : Type := {
  next_clean_at : Q;
  next_brick_at : Q
}.

(** [timedelta] holds at most 999999999 days, and [datetime] ends with the
    year 9999, whose last day is day 3652059 counted from 0001-01-01 as
    day 1. *)
Definition MAX_DELTA_DAYS : Z := 999999999.
Definition MAXORDINAL : Z := 3652059.
Definition US_PER_DAY : Z := 86400 * 1000000.

(** Whether [datetime.now(TZ) + timedelta(seconds=s)] can be formed, for an
    [int] [s] and the wall clock [now_us]: otherwise [timedelta] or the
    addition raises [OverflowError]. *)
Definition eta_in_range (now_us s : Z) : bool :=
  (Z.abs (s / 86400) <=? MAX_DELTA_DAYS)%Z
  && (0 <=? now_us + s * 1000000)%Z
  && (now_us + s * 1000000 <? MAXORDINAL * US_PER_DAY)%Z.

(** [time.sleep] takes at most 2^63 nanoseconds. *)
Definition SLEEP_MAX_NS : Z := 2 ^ 63.

Definition sleep_in_range (d : Q) : bool :=
  Qle_bool 0 d && Qle_bool (d * 1000000000) (inject_Z SLEEP_MAX_NS).

Section WithHost.

Variable digit_value : N -> option Z.
Variable cfg : Config.
Context {W : Type} {host : Host W}.

Local Abbreviation M := (M W Event).

(** Whether [time.sleep(d)] sleeps in the world [w]: a negative length is a
    [ValueError], one of more than 2^63 nanoseconds an [OverflowError],
    and one beyond what the operating system accepts an [OSError]. *)
Definition sleep_accepted (d : Q) (w : W) : bool :=
  sleep_in_range d && Qle_bool d (sleep_limit w).

Definition sleep (d : Q) : M unit :=
  fun w =>
    if sleep_accepted d w then (emit (Slept d) ;;; act (time_sleep d)) w
    else raise w.

Definition page_wait_for_timeout (ms : Z) : M unit :=
  emit (Waited ms) ;;; act (wait_for_timeout ms).

(** One round of the [for] loop of [click_drops]. *)
Definition click_drops_item (count : Z) (i : nat) : M unit :=
  let el := SEL_DROP_ITEMS in
  (* txt = el.inner_text(timeout=500), '' when that raises *)
  r <- try_ (call (first_inner_text el)) ;;
  let txt := match r with Ok t => t | Raised => [] end in
  _ <- try_ (
    _ <- try_ (call (first_scroll_into_view el)) ;;
    c <- try_ (call (first_click el)) ;;
    match c with
    | Ok _ =>
        emit (ClickFirst true) ;;;
        (* the log line and the sleep are still inside the try *)
        s <- try_ (log "[click item] success" ;;; sleep 1) ;;
        match s with Ok _ => ret tt | Raised => log "[click item] err" end
    | Raised => emit (ClickFirst false) ;;; log "[click item] timeout or err"
    end) ;;
  page_wait_for_timeout ITEM_CLICK_INTERVAL_MS.

Definition click_drops : M unit :=
  let items := SEL_DROP_ITEMS in
  _ <- try_ (call wait_for_load_state) ;;
  page_wait_for_timeout 200 ;;;
  r <- try_ (call (locator_count items)) ;;
  let count := match r with Ok c => c | Raised => 0%Z end in
  if (count <=? 0)%Z then ret tt
  else for_range (Z.to_nat count) (click_drops_item count).

Definition read_countdown_at (sel : string) : M (option Z) :=
  r <- try_ (
    call (locator_wait_for sel) ;;;
    text0 <- call (locator_inner_text sel) ;;
    match Parser.parse_countdown_text digit_value (Some text0) with
    | Ok seconds => log "[status] countdown" ;;; ret seconds
    | Raised => raise
    end) ;;
  match r with
  | Ok seconds => ret seconds
  | Raised => log "[status] countdown read err" ;;; ret None
  end.

Definition read_countdown_seconds : M (option Z) :=
  read_countdown_at SEL_STATUS_COUNTDOWN.

Definition read_brick_countdown_seconds : M (option Z) :=
  read_countdown_at SEL_BRICK_STATUS_COUNTDOWN.

Definition _normalize_wait (seconds : option Z) (reason : string) (fallback : Z)
  : M Z :=
  seconds <- match seconds with
             | None => log "[schedule] countdown missing, fallback" ;;; ret fallback
             | Some s => ret s
             end ;;
  let seconds := Z.max seconds MIN_WAIT_AFTER_CHECK_SEC in
  (* eta = datetime.now(TZ) + timedelta(seconds=seconds) *)
  now_us <- call_ok datetime_now ;;
  if eta_in_range now_us seconds then
    log "[schedule] wait, next target at" ;;;
    ret seconds
  else raise.

Definition normalize_wait_seconds (seconds : option Z) (reason : string) : M Z :=
  _normalize_wait seconds reason (DEFAULT_NEXT_INTERVAL_SEC cfg).

Definition fetch_countdown_wait (reason : string) : M Z :=
  emit (Probe Clean) ;;;
  call open_page_session ;;;
  seconds <- read_countdown_seconds ;;
  call browser_close ;;;
  normalize_wait_seconds seconds reason.

Definition fetch_brick_countdown_wait (reason : string) : M Z :=
  emit (Probe Brick) ;;;
  call open_page_session ;;;
  seconds <- read_brick_countdown_seconds ;;
  call browser_close ;;;
  _normalize_wait seconds reason (BRICK_DEFAULT_INTERVAL_SEC cfg).

(** The [with] block of [run_cleaning_session]: the page visit and its two
    readings, [(next_seconds, brick_seconds)]. *)
Definition cleaning_session_page : M (option Z * option Z) :=
  emit (Session Clean) ;;;
  call open_page_session ;;;
  log "cleaning session starts" ;;;
  call run_loop ;;;
  next_seconds <- read_countdown_seconds ;;
  brick_seconds <- read_brick_countdown_seconds ;;
  call browser_close ;;;
  log "cleaning session done" ;;;
  ret (next_seconds, brick_seconds).

Definition run_cleaning_session : M (Z * option Z) :=
  '(next_seconds, brick_seconds) <- cleaning_session_page ;;
  brick_wait <- match brick_seconds with
                | Some _ =>
                    w <- _normalize_wait brick_seconds "sync brick countdown"
                           (BRICK_DEFAULT_INTERVAL_SEC cfg) ;;
                    ret (Some w)
                | None => ret None
                end ;;
  clean_wait <- normalize_wait_seconds next_seconds "post-clean countdown" ;;
  ret (clean_wait, brick_wait).

(** The [with] block of [run_brick_session]: [(next_seconds, clean_seconds)]. *)
Definition brick_session_page : M (option Z * option Z) :=
  emit (Session Brick) ;;;
  call open_page_session ;;;
  log "brick workshop check" ;;;
  ready <- call wait_for_brick_factory_ready ;;
  (if ready : bool then _ <- call click_brick_factory ;; ret tt
   else log "[brick] locked, skip") ;;;
  next_seconds <- read_brick_countdown_seconds ;;
  clean_seconds <- read_countdown_seconds ;;
  call browser_close ;;;
  log "brick session done" ;;;
  ret (next_seconds, clean_seconds).

Definition run_brick_session : M (Z * option Z) :=
  '(next_seconds, clean_seconds) <- brick_session_page ;;
  clean_wait <- match clean_seconds with
                | Some _ =>
                    w <- normalize_wait_seconds clean_seconds "sync clean countdown" ;;
                    ret (Some w)
                | None => ret None
                end ;;
  brick_wait <- _normalize_wait next_seconds "post-brick countdown"
                  (BRICK_DEFAULT_INTERVAL_SEC cfg) ;;
  ret (brick_wait, clean_wait).

Definition now : M Q := call_ok time_time.

(** The statements before [while True] in [scheduler_loop]. *)
Definition scheduler_init : M SchedState :=
  log "init" ;;;
  clean_wait <- fetch_countdown_wait "initial cleaning countdown" ;;
  brick_wait <- fetch_brick_countdown_wait "initial brick countdown" ;;
  t1 <- now ;;
  t2 <- now ;;
  ret {| next_clean_at := t1 + inject_Z clean_wait;
         next_brick_at := t2 + inject_Z brick_wait |}.

(** The branch [if remaining <= 0] of the loop: run the session of [task]
    and recompute the due times. *)
Definition run_due (task : Task) (st : SchedState) : M SchedState :=
  match task with
  | Clean =>
      '(clean_wait, maybe_brick) <- run_cleaning_session ;;
      t <- now ;;
      let next_clean_at' := t + inject_Z clean_wait in
      match maybe_brick with
      | Some b =>
          t' <- now ;;
          ret {| next_clean_at := next_clean_at';
                 next_brick_at := t' + inject_Z b |}
      | None =>
          ret {| next_clean_at := next_clean_at';
                 next_brick_at := next_brick_at st |}
      end
  | Brick =>
      '(brick_wait, maybe_clean) <- run_brick_session ;;
      t <- now ;;
      let next_brick_at' := t + inject_Z brick_wait in
      match maybe_clean with
      | Some c =>
          t' <- now ;;
          ret {| next_clean_at := t' + inject_Z c;
                 next_brick_at := next_brick_at' |}
      | None =>
          ret {| next_clean_at := next_clean_at st;
                 next_brick_at := next_brick_at' |}
      end
  end.

Definition recheck_interval_of (task : Task) : Z :=
  match task with
  | Clean => STATUS_RECHECK_INTERVAL_SEC cfg
  | Brick => BRICK_RECHECK_INTERVAL_SEC cfg
  end.

(** The rest of the loop body, for a task that is not due yet. *)
Definition wait_for_due (task : Task) (remaining : Q) (st : SchedState)
  : M SchedState :=
  let recheck_interval := recheck_interval_of task in
  if negb (Qle_bool remaining (inject_Z recheck_interval)) then
    log "[scheduler] sleep then recheck" ;;;
    sleep (inject_Z recheck_interval) ;;;
    match task with
    | Clean =>
        clean_wait <- fetch_countdown_wait "hourly recheck" ;;
        t <- now ;;
        ret {| next_clean_at := t + inject_Z clean_wait;
               next_brick_at := next_brick_at st |}
    | Brick =>
        brick_wait <- fetch_brick_countdown_wait "brick recheck" ;;
        t <- now ;;
        ret {| next_clean_at := next_clean_at st;
               next_brick_at := t + inject_Z brick_wait |}
    end
  else
    log "[scheduler] waiting for the next window" ;;;
    sleep (Qmax remaining 1) ;;;
    ret st.

(** The task the loop picks: the earlier due time, cleaning on a tie. *)
Definition pick (st : SchedState) : Task :=
  if Qle_bool (next_clean_at st) (next_brick_at st) then Clean else Brick.

Definition due_at (task : Task) (st : SchedState) : Q :=
  match task with
  | Clean => next_clean_at st
  | Brick => next_brick_at st
  end.

(** One round of [while True]. *)
Definition scheduler_body (st : SchedState) : M SchedState :=
  t <- now ;;
  let task := pick st in
  let remaining := due_at task st - t in
  if Qle_bool remaining 0 then run_due task st
  else wait_for_due task remaining st.

(** [n] rounds of the loop from [st]. *)
Fixpoint scheduler_rounds (n : nat) (st : SchedState) : M SchedState :=
  match n with
  | O => ret st
  | S k => st' <- scheduler_body st ;; scheduler_rounds k st'
  end.

Definition scheduler_loop (n : nat) : M SchedState :=
  st <- scheduler_init ;; scheduler_rounds n st.

End WithHost.
End Mowan.

(** ** autoPlant.py: harvest executor and wake-up time *)

(** [int(x)] of a float: truncation towards zero. *)
Definition int_of_Q (q : Q) : Z := Z.quot (Qnum q) (Z.pos (Qden q)).

(** ** Rounding to binary64 *)

Module Float64.

(** The integer nearest to [n / d], the even one of two nearest; [d > 0]. *)
Definition rne (n d : Z) : Z :=
  let q := (n / d)%Z in
  let r := (n mod d)%Z in
  if (2 * r <? d)%Z then q
  else if (d <? 2 * r)%Z then (q + 1)%Z
  else if Z.even q then q else (q + 1)%Z.

(** [n / (d * 2^e)] as a fraction of integers. *)
Definition scaled (n d e : Z) : Z * Z :=
  if (0 <=? e)%Z then (n, d * 2 ^ e)%Z else (n * 2 ^ (- e), d)%Z.

(** The integer part of the binary logarithm of [n / d]; [n, d > 0]. *)
Definition floor_log2 (n d : Z) : Z :=
  let e0 := (Z.log2 n - Z.log2 d)%Z in
  let '(a, b) := scaled n d e0 in
  if (b <=? a)%Z then e0 else (e0 - 1)%Z.

(** The double nearest to [n / d], for [n, d > 0]: 53 bits, the exponent
    of the last bit no lower than -1074; [None] when it would be 2^1024 or
    more, the overflow. *)
Definition round_pos (n d : Z) : option Q :=
  let e := Z.max (floor_log2 n d - 52) (-1074) in
  let '(a, b) := scaled n d e in
  let m := rne a b in
  if (0 <=? e)%Z then
    if (2 ^ 1024 <=? m * 2 ^ e)%Z then None
    else Some (inject_Z (m * 2 ^ e))
  else Some (Qmake m (Z.to_pos (2 ^ (- e)))).

(** The double nearest to the rational [q], which is what a correctly
    rounded operation returns for the exact result [q]. *)
Definition round (q : Q) : option Q :=
  match Qnum q with
  | Z0 => Some 0
  | Zpos n => round_pos (Zpos n) (Zpos (Qden q))
  | Zneg n => option_map Qopp (round_pos (Zpos n) (Zpos (Qden q)))
  end.

End Float64.

Module Plant.

Inductive Event : Type :=
| Waited (ms : Z)                  (* page.wait_for_timeout(ms) *)
| Click (sel : text) (ok : bool).  (* page.locator(sel).click(), and its outcome *)

Definition SEL_PLOTS_PLANTED : string := ".p-plot.planted".

Definition SAFETY_BUFFER_SEC : Z := -5.
Definition MIN_WAKE_INTERVAL_SEC : Z := 10.
Definition FALLBACK_INTERVAL_SEC : Z := 300.

(** The clock and the scripted browser of the farm page. *)
Class Host (W : Type) : Type := {
  time_time : W -> Q * W;
  (* launch, new_context, new_page, open_target, wait_for_selector *)
  open_farm_page : W -> Res unit * W;
  browser_close : W -> Res unit * W;
  wait_for_load_state : W -> Res unit * W;
  wait_for_timeout : Z -> W -> W;
  (* page.locator(sel).count() and page.locator(sel).nth(i).get_attribute(name) *)
  locator_count : string -> W -> Res Z * W;
  nth_get_attribute : string -> nat -> string -> W -> Res (option text) * W;
  (* page.locator(sel).click(timeout=4000) *)
  locator_click : text -> W -> Res unit * W;
  (* page.eval_on_selector_all(SEL_PLOTS_PLANTED, ...): the harvest times *)
  eval_harvest_times : W -> Res (list Z) * W;
  (* plant_on_all_empty_slots(page): the number of plots planted *)
  plant_on_all_empty_slots : W -> Res Z * W
}.

Section WithHost.

(** [int(s)] on an attribute value, [Raised] for [ValueError]. *)
Variable py_int : text -> Res Z.
Context {W : Type} {host : Host W}.

Local Abbreviation M := (M W Event).

Definition quote : N := 34%N.

(** [plot_key_selector(el)] for [el = planted.nth(i)]. *)
Definition plot_key_selector (i : nat) : M text :=
  a <- call (nth_get_attribute SEL_PLOTS_PLANTED i "data-land") ;;
  let land := match a with Some t => t | None => [] end in
  b <- call (nth_get_attribute SEL_PLOTS_PLANTED i "data-plot") ;;
  let idx := match b with Some t => t | None => [] end in
  ret (lit ".p-plot[data-land=" ++ [quote] ++ land ++ [quote]
       ++ lit "][data-plot=" ++ [quote] ++ idx ++ [quote] ++ lit "]").

(** [is_mature(el)] for [el = planted.nth(i)]. *)
Definition is_mature (i : nat) : M bool :=
  r <- try_ (
    t <- call (nth_get_attribute SEL_PLOTS_PLANTED i "data-harvest-time") ;;
    match t with
    | None | Some [] => ret false
    | Some s =>
        match py_int s with
        | Ok v => t1 <- call_ok time_time ;; ret (v <=? int_of_Q t1)%Z
        | Raised => raise
        end
    end) ;;
  match r with
  | Ok b => ret b
  | Raised => ret false
  end.

(** The first [for] loop of [harvest_mature_plots], from index [i] for [n]
    rounds; [acc] is [mature_selectors]. *)
Fixpoint collect_mature (i n : nat) (acc : list text) : M (list text) :=
  match n with
  | O => ret acc
  | S k =>
      m <- is_mature i ;;
      if m : bool then
        sel <- plot_key_selector i ;;
        collect_mature (S i) k (acc ++ [sel])
      else collect_mature (S i) k acc
  end.

(** The second [for] loop of [harvest_mature_plots]. *)
Fixpoint click_selectors (sels : list text) : M unit :=
  match sels with
  | [] => ret tt
  | sel :: rest =>
      r <- try_ (call (locator_click sel)) ;;
      match r with
      | Ok _ => emit (Click sel true) ;;; log "[harvest] confirm accept"
      | Raised => emit (Click sel false) ;;; log "[harvest] exception"
      end ;;;
      emit (Waited 200) ;;; act (wait_for_timeout 200) ;;;
      click_selectors rest
  end.

Definition harvest_mature_plots : M Z :=
  n <- call (locator_count SEL_PLOTS_PLANTED) ;;
  mature_selectors <- collect_mature 0 (Z.to_nat n) [] ;;
  match mature_selectors with
  | [] => log "[harvest] nothing mature" ;;; ret 0%Z
  | _ =>
      log "[harvest] mature plots" ;;;
      click_selectors mature_selectors ;;;
      call wait_for_load_state ;;;
      emit (Waited 400) ;;; act (wait_for_timeout 400) ;;;
      ret (Z.of_nat (List.length mature_selectors))
  end.

(** [min(future) if future else 0]. *)
Definition min_or_zero (future : list Z) : Z :=
  match future with
  | [] => 0%Z
  | t :: rest => fold_left Z.min rest t
  end.

Definition get_next_harvest_ts : M Z :=
  t <- call_ok time_time ;;
  let now := int_of_Q t in
  r <- try_ (call eval_harvest_times) ;;
  times <- match r with
           | Ok ts => ret ts
           | Raised => log "[plan] reading plots failed" ;;; ret []
           end ;;
  let future := filter (fun t => (t >? now)%Z) times in
  ret (min_or_zero future).

(** The scheduling block of [run_once]: [delay_ms] from [next_ts] and
    [now_ms]. *)
Definition delay_ms_of (next_ts now_ms : Z) : Z :=
  if negb (next_ts =? 0)%Z && (next_ts * 1000 >? now_ms)%Z then
    let delay_ms := (next_ts * 1000 - now_ms - SAFETY_BUFFER_SEC * 1000)%Z in
    Z.max delay_ms (MIN_WAKE_INTERVAL_SEC * 1000)
  else (FALLBACK_INTERVAL_SEC * 1000)%Z.

(** The [with] block of [run_once]: [(harvested, planted, next_ts)]. *)
Definition run_once_page : M (Z * Z * Z) :=
  call open_farm_page ;;;
  harvested <- harvest_mature_plots ;;
  planted <- call plant_on_all_empty_slots ;;
  next_ts <- get_next_harvest_ts ;;
  call browser_close ;;;
  ret (harvested, planted, next_ts).

(** [int(t * 1000)] for the float [t]: the product is rounded, and beyond
    the largest double it is infinite, which [int] refuses with
    [OverflowError]. *)
Definition now_ms_of (t : Q) : Res Z :=
  match Float64.round (t * 1000) with
  | Some x => Ok (int_of_Q x)
  | None => Raised
  end.

(** [int(delay_ms / 1000)]: the quotient of two [int]s is the double
    nearest to it, [OverflowError] when there is none. *)
Definition wait_sec_of (delay_ms : Z) : Res Z :=
  match Float64.round (Qmake delay_ms 1000) with
  | Some x => Ok (int_of_Q x)
  | None => Raised
  end.

Definition run_once : M Z :=
  '(harvested, planted, next_ts) <- run_once_page ;;
  t <- call_ok time_time ;;
  match now_ms_of t with
  | Raised => raise
  | Ok now_ms =>
      let delay_ms := delay_ms_of next_ts now_ms in
      (* next_run_epoch = time.time() + delay_ms / 1000.0, which is only
         printed; float(delay_ms) is an OverflowError beyond the doubles *)
      _ <- call_ok time_time ;;
      match Float64.round (inject_Z delay_ms) with
      | None => raise
      | Some _ =>
          match wait_sec_of delay_ms with
          | Raised => raise
          | Ok wait_sec =>
              log "[summary]" ;;;
              log "[scheduler] next run" ;;;
              ret wait_sec
          end
      end
  end.

End WithHost.
End Plant.

(** ** Concrete instances, for running the definitions *)

(** The ASCII block of the digit table. *)
Definition ascii_digit_value (c : N) : option Z :=
  if ((48 <=? c) && (c <=? 57))%N then Some (Z.of_N c - 48)%Z else None.

(** [int] restricted to ASCII digit strings. *)
Definition ascii_int (s : text) : Res Z := Parser.py_int ascii_digit_value s.

Module SimMowan.

(** A drop on the beach: its label, and whether a click on it goes through. *)
Record Drop : Type := {
  label : nat;
  clickable : bool
}.

(** A simulated page and clock.  A click that goes through removes the
    drop; one that times out leaves the list as it is. *)
Record World : Type := {
  clock : Q;
  drops : list Drop;
  targeted : list nat;          (* labels of the drops clicked at, in order *)
  clean_text : option text;     (* text of the cleaning countdown, if shown *)
  brick_text : option text;
  session_length : Q            (* time taken by run_loop *)
}.

Definition tick (d : Q) (w : World) : World :=
  {| clock := clock w + d; drops := drops w; targeted := targeted w;
     clean_text := clean_text w; brick_text := brick_text w;
     session_length := session_length w |}.

Definition countdown_of (sel : string) (w : World) : option text :=
  if String.eqb sel Mowan.SEL_STATUS_COUNTDOWN then clean_text w
  else if String.eqb sel Mowan.SEL_BRICK_STATUS_COUNTDOWN then brick_text w
  else None.

Definition click_head (w : World) : Res unit * World :=
  match drops w with
  | [] => (Raised, w)
  | d :: rest =>
      let w' := {| clock := clock w;
                   drops := if clickable d then rest else drops w;
                   targeted := targeted w ++ [label d];
                   clean_text := clean_text w; brick_text := brick_text w;
                   session_length := session_length w |} in
      (if clickable d then Ok tt else Raised, w')
  end.

(** Noon of 2025-11-04 on the wall clock. *)
Definition wall_clock_us : Z := (739558 * 86400 + 12 * 3600) * 1000000.

#[global] Instance sim_host : Mowan.Host World := {|
  Mowan.time_time := fun w => (clock w, w);
  Mowan.time_sleep := tick;
  Mowan.sleep_limit := fun _ => 9223372036;
  Mowan.sleep_limit_safe := fun _ => ltac:(vm_compute; discriminate);
  Mowan.datetime_now := fun w => (wall_clock_us, w);
  Mowan.open_page_session := fun w => (Ok tt, w);
  Mowan.browser_close := fun w => (Ok tt, w);
  Mowan.run_loop := fun w => (Ok tt, tick (session_length w) w);
  Mowan.wait_for_brick_factory_ready := fun w => (Ok true, w);
  Mowan.click_brick_factory := fun w => (Ok 50%Z, w);
  Mowan.wait_for_load_state := fun w => (Ok tt, w);
  Mowan.wait_for_timeout := fun ms w => tick (inject_Z ms / 1000) w;
  Mowan.locator_count := fun _ w => (Ok (Z.of_nat (List.length (drops w))), w);
  Mowan.locator_wait_for := fun sel w =>
    (match countdown_of sel w with Some _ => Ok tt | None => Raised end, w);
  Mowan.locator_inner_text := fun sel w =>
    (match countdown_of sel w with Some t => Ok t | None => Raised end, w);
  Mowan.first_inner_text := fun _ w =>
    (match drops w with [] => Raised | _ :: _ => Ok (lit "drop") end, w);
  Mowan.first_scroll_into_view := fun _ w =>
    (match drops w with [] => Raised | _ :: _ => Ok tt end, w);
  Mowan.first_click := fun _ w => click_head w
|}.

Definition world0 (t : Q) (ds : list Drop) (c b : option text) : World :=
  {| clock := t; drops := ds; targeted := [];
     clean_text := c; brick_text := b; session_length := 600 |}.

(** Two drops, the first of which cannot be clicked. *)
Definition stuck_page : World :=
  world0 0 [ {| label := 1; clickable := false |};
             {| label := 2; clickable := true |} ] None None.

(** An empty beach at time 1000, showing both countdowns. *)
Definition quiet_page : World :=
  world0 1000 [] (Some (lit "00:10:00")) (Some (lit "05:00:00")).

(** Cleaning is due at 1100, the brick workshop at 1200. *)
Definition state0 : Mowan.SchedState :=
  {| Mowan.next_clean_at := 1100; Mowan.next_brick_at := 1200 |}.

End SimMowan.

(** ** Vocabulary of the statements about the parser *)

Module ParserSpec.
Section WithDigits.

Variable digit_value : N -> option Z.

Local Abbreviation is_digit := (Parser.is_digit digit_value).

(** The number written by a string of decimal digits. *)
Definition decimal (ds : text) : Z :=
  fold_left
    (fun acc c => (acc * 10 + match digit_value c with Some d => d | None => 0 end)%Z)
    ds 0%Z.

Definition hms_value (hh mm ss : text) : Z :=
  (decimal hh * 3600 + decimal mm * 60 + decimal ss)%Z.

Definition all_digits (ds : text) : Prop :=
  Forall (fun c => is_digit c = true) ds.

Definition no_digits (ds : text) : Prop :=
  Forall (fun c => is_digit c = false) ds.

Definition two_digits (x : text) : Prop :=
  exists a b, x = [a; b] /\ is_digit a = true /\ is_digit b = true.

Definition hour_digits (x : text) : Prop :=
  (exists a, x = [a] /\ is_digit a = true) \/ two_digits x.

(** [hh:mm:ss] stands in [t] between [pre] and [post], with one or two
    digits of hours and two digits of minutes and of seconds. *)
Definition occurs (t pre hh mm ss post : text) : Prop :=
  t = pre ++ hh ++ colon :: mm ++ colon :: ss ++ post
  /\ hour_digits hh /\ two_digits mm /\ two_digits ss.

Definition has_strict (t : text) : Prop :=
  exists pre hh mm ss post, occurs t pre hh mm ss post.

(** The occurrence that starts first in [t]. *)
Definition first_occurrence (t pre hh mm ss post : text) : Prop :=
  occurs t pre hh mm ss post
  /\ forall pre' hh' mm' ss' post',
       occurs t pre' hh' mm' ss' post' -> (List.length pre <= List.length pre')%nat.

(** Whether [t] is empty or starts with a character that is no digit. *)
Definition run_ends (t : text) : Prop :=
  match t with
  | [] => True
  | c :: _ => is_digit c = false
  end.

(** [r1], [r2], [r3] are the first three maximal runs of digits of [t]. *)
Definition first_three_runs (t r1 r2 r3 : text) : Prop :=
  exists n0 n1 n2 rest,
    t = n0 ++ r1 ++ n1 ++ r2 ++ n2 ++ r3 ++ rest
    /\ no_digits n0 /\ no_digits n1 /\ no_digits n2
    /\ n1 <> [] /\ n2 <> []
    /\ all_digits r1 /\ all_digits r2 /\ all_digits r3
    /\ r1 <> [] /\ r2 <> [] /\ r3 <> []
    /\ run_ends rest.

(** The number of maximal runs of digits in [t]; [prev] tells whether the
    character before [t] was a digit. *)
Fixpoint count_runs (prev : bool) (t : text) : nat :=
  match t with
  | [] => O
  | c :: t' =>
      ((if is_digit c && negb prev then 1 else 0) + count_runs (is_digit c) t')%nat
  end.

Definition digit_runs (t : text) : nat := count_runs false t.

End WithDigits.

(** A run of digits short enough for [int]: of 4300 digits at most. *)
Definition fits (r : text) : Prop :=
  (List.length r <= Parser.INT_MAX_STR_DIGITS)%nat.

End ParserSpec.

(** Texts used as examples: ["剩余 01:02:03 请稍候"], ["3 时 05 分 10 秒"]
    and ["加载中"]. *)
Definition example_strict : text :=
  [21097; 20313; 32]%N ++ lit "01:02:03" ++ [32; 35831; 31245; 20505]%N.

Definition example_loose : text :=
  lit "3 " ++ [26102]%N ++ lit " 05 " ++ [20998]%N ++ lit " 10 " ++ [31186]%N.

Definition example_loading : text := [21152; 36733; 20013]%N.

(** The digit 1 written 4301 times, then [" 2 3"]. *)
Definition example_long_run : text := repeat 49%N 4301 ++ lit " 2 3".

(** ** Vocabulary of the statements about events *)

(** A computation whose first event is [e]. *)
Definition starts_with {W E A : Type} (e : E) (m : M W E A) : Prop :=
  forall w, exists rest, events (m w) = e :: rest.

(** A computation all of whose events satisfy [P], in every world. *)
Definition all_events {W E A : Type} (P : E -> Prop) (m : M W E A) : Prop :=
  forall w, Forall P (events (m w)).

(** ** Vocabulary of the statements about the scheduler *)

Module SchedSpec.

Definition sibling (task : Mowan.Task) : Mowan.Task :=
  match task with
  | Mowan.Clean => Mowan.Brick
  | Mowan.Brick => Mowan.Clean
  end.

(** The event is no sleep, or a sleep of a second or more. *)
Definition no_short_sleep (e : Mowan.Event) : Prop :=
  match e with
  | Mowan.Slept d => 1 <= d
  | _ => True
  end.

(** Every sleep among the events lasts a second or more. *)
Definition sleeps_at_least_1 (evs : list Mowan.Event) : Prop :=
  Forall no_short_sleep evs.

(** The clicks at the first drop among the events, with their outcomes. *)
Fixpoint clicks (evs : list Mowan.Event) : list bool :=
  match evs with
  | [] => []
  | Mowan.ClickFirst ok :: rest => ok :: clicks rest
  | _ :: rest => clicks rest
  end.

(** The pauses on the page among the events, in milliseconds. *)
Fixpoint pauses (evs : list Mowan.Event) : list Z :=
  match evs with
  | [] => []
  | Mowan.Waited ms :: rest => ms :: pauses rest
  | _ :: rest => pauses rest
  end.

(** The events of one round of the drain, by the outcome of its click: a
    click that went through is followed by a sleep of a second; the round
    ends with its pause. *)
Definition round_events (ok : bool) : list Mowan.Event :=
  if ok then
    [Mowan.ClickFirst true; Mowan.Slept 1;
     Mowan.Waited Mowan.ITEM_CLICK_INTERVAL_MS]
  else [Mowan.ClickFirst false; Mowan.Waited Mowan.ITEM_CLICK_INTERVAL_MS].

(** The state with the due time of one task replaced. *)
Definition set_due (task : Mowan.Task) (q : Q) (st : Mowan.SchedState)
  : Mowan.SchedState :=
  match task with
  | Mowan.Clean =>
      {| Mowan.next_clean_at := q; Mowan.next_brick_at := Mowan.next_brick_at st |}
  | Mowan.Brick =>
      {| Mowan.next_clean_at := Mowan.next_clean_at st; Mowan.next_brick_at := q |}
  end.

Section WithHost.

Variable digit_value : N -> option Z.
Variable cfg : Mowan.Config.
Context {W : Type} {host : Mowan.Host W}.

(** The page visit of a task's session and its pair of readings: the
    task's own countdown and the sibling's. *)
Definition session_page (task : Mowan.Task)
  : M W Mowan.Event (option Z * option Z) :=
  match task with
  | Mowan.Clean => Mowan.cleaning_session_page digit_value
  | Mowan.Brick => Mowan.brick_session_page digit_value
  end.

(** The interval used for a task whose countdown could not be read. *)
Definition default_interval_of (task : Mowan.Task) : Z :=
  match task with
  | Mowan.Clean => Mowan.DEFAULT_NEXT_INTERVAL_SEC cfg
  | Mowan.Brick => Mowan.BRICK_DEFAULT_INTERVAL_SEC cfg
  end.

(** The session of a task: the page visit, then the waits made of its two
    readings. *)
Definition session (task : Mowan.Task) : M W Mowan.Event (Z * option Z) :=
  match task with
  | Mowan.Clean => Mowan.run_cleaning_session digit_value cfg
  | Mowan.Brick => Mowan.run_brick_session digit_value cfg
  end.

(** The Run step after a session that returned the waits [(own, sib)] and
    left the world [w1]: the clock is read for the task's own due time, and
    once more for the sibling's when the session gave a wait for it. *)
Definition after_session (task : Mowan.Task) (st : Mowan.SchedState)
           (own : Z) (sib : option Z) (w1 : W) : Mowan.SchedState * W :=
  let (t, w2) := Mowan.time_time w1 in
  match sib with
  | Some b =>
      let (t', w3) := Mowan.time_time w2 in
      (set_due (sibling task) (t' + inject_Z b)
         (set_due task (t + inject_Z own) st), w3)
  | None => (set_due task (t + inject_Z own) st, w2)
  end.

(** The world in which [click_drops] starts its rounds: after the wait for
    the network, the settling pause and the reading of the number of
    drops. *)
Definition count_world (w : W) : W :=
  let w1 := snd (Mowan.wait_for_load_state w) in
  let w2 := Mowan.wait_for_timeout 200 w1 in
  snd (Mowan.locator_count Mowan.SEL_DROP_ITEMS w2).

(** One round of the drain in the world [w]: the text of the first drop is
    read, the drop is scrolled to and clicked at; the result tells whether
    the click went through, and gives the world after the round. *)
Definition drop_round (w : W) : bool * W :=
  let w0 := snd (Mowan.first_inner_text Mowan.SEL_DROP_ITEMS w) in
  let w1 := snd (Mowan.first_scroll_into_view Mowan.SEL_DROP_ITEMS w0) in
  match Mowan.first_click Mowan.SEL_DROP_ITEMS w1 with
  | (Ok _, w2) =>
      (true, Mowan.wait_for_timeout Mowan.ITEM_CLICK_INTERVAL_MS
               (Mowan.time_sleep 1 w2))
  | (Raised, w2) =>
      (false, Mowan.wait_for_timeout Mowan.ITEM_CLICK_INTERVAL_MS w2)
  end.

Fixpoint drop_rounds (n : nat) (w : W) : list bool * W :=
  match n with
  | O => ([], w)
  | S k =>
      let (ok, w1) := drop_round w in
      let (oks, w2) := drop_rounds k w1 in
      (ok :: oks, w2)
  end.

(** [time.sleep(d)] returns no sooner than [d] seconds after the clock was
    last read. *)
Definition sleep_advances_clock : Prop :=
  forall (w : W) (d : Q),
    0 <= d ->
    fst (Mowan.time_time w) + d
    <= fst (Mowan.time_time (Mowan.time_sleep d (snd (Mowan.time_time w)))).

(** The number of drops [click_drops] reads before its loop, 0 when the
    reading raises. *)
Definition count_read (w : W) : Z :=
  let w1 := snd (Mowan.wait_for_load_state w) in
  let w2 := Mowan.wait_for_timeout 200 w1 in
  match fst (Mowan.locator_count Mowan.SEL_DROP_ITEMS w2) with
  | Ok c => c
  | Raised => 0%Z
  end.

End WithHost.
End SchedSpec.

(** A configuration whose brick recheck interval is 0, and a page whose
    brick countdown is the shorter one. *)
Module SimBusy.

Definition config : Mowan.Config := {|
  Mowan.STATUS_RECHECK_INTERVAL_SEC := 3600;
  Mowan.DEFAULT_NEXT_INTERVAL_SEC := 2 * 3600;
  Mowan.BRICK_DEFAULT_INTERVAL_SEC := 24 * 3600;
  Mowan.BRICK_RECHECK_INTERVAL_SEC := 0
|}.

Definition page : SimMowan.World :=
  SimMowan.world0 1000 [] (Some (lit "05:00:00")) (Some (lit "00:10:00")).

End SimBusy.

(** ** Vocabulary of the statements about the farm page *)

Module PlantSpec.

(** A planted entry as the page shows it: its three attributes. *)
Record Entry : Type := {
  harvest_time : option text;   (* data-harvest-time *)
  land : option text;           (* data-land *)
  plot : option text            (* data-plot *)
}.

(** The selectors clicked at among the events, in order. *)
Fixpoint clicked (evs : list Plant.Event) : list text :=
  match evs with
  | [] => []
  | Plant.Click sel _ :: rest => sel :: clicked rest
  | _ :: rest => clicked rest
  end.

Definition or_empty (a : option text) : text :=
  match a with Some t => t | None => [] end.

(** The selector that names an entry by its land and plot. *)
Definition selector_of (e : Entry) : text :=
  lit ".p-plot[data-land=" ++ [Plant.quote] ++ or_empty (land e) ++ [Plant.quote]
  ++ lit "][data-plot=" ++ [Plant.quote] ++ or_empty (plot e) ++ [Plant.quote]
  ++ lit "]".

(** The events of the clicking loop: for each selector its click, with the
    outcome, and the pause of 200 ms after it. *)
Fixpoint click_events (sels : list text) (oks : list bool) : list Plant.Event :=
  match sels, oks with
  | sel :: sels', ok :: oks' =>
      Plant.Click sel ok :: Plant.Waited 200 :: click_events sels' oks'
  | _, _ => []
  end.

(** The current time in whole seconds, rounded up, from milliseconds. *)
Definition seconds_up (ms : Z) : Z := (- ((- ms) / 1000))%Z.

Section WithHost.

Variable py_int : text -> Res Z.
Context {W : Type} {host : Plant.Host W}.

(** An entry is ready at the whole second [now]: its ready time is
    present, is a number, and is at or before [now]. *)
Definition ready (now : Z) (e : Entry) : bool :=
  match harvest_time e with
  | Some (c :: s) =>
      match py_int (c :: s) with
      | Ok v => (v <=? now)%Z
      | Raised => false
      end
  | _ => false
  end.

(** The clicks at the selectors [sels], one after the other, from the
    world [w]: whether each click went through, and the world after the
    last pause.  A click that raises does not stop the next one. *)
Fixpoint click_all (sels : list text) (w : W) : list bool * W :=
  match sels with
  | [] => ([], w)
  | sel :: rest =>
      let (r, w1) := Plant.locator_click sel w in
      let (oks, w2) := click_all rest (Plant.wait_for_timeout 200 w1) in
      (match r with Ok _ => true | Raised => false end :: oks, w2)
  end.

(** In the world [w] the page shows the planted entries [entries] and the
    clock reads [t]; reading either leaves the world as it is. *)
Definition shows (w : W) (entries : list Entry) (t : Q) : Prop :=
  Plant.locator_count Plant.SEL_PLOTS_PLANTED w
  = (Ok (Z.of_nat (List.length entries)), w)
  /\ Plant.time_time w = (t, w)
  /\ forall i e,
       nth_error entries i = Some e ->
       Plant.nth_get_attribute Plant.SEL_PLOTS_PLANTED i "data-harvest-time" w
       = (Ok (harvest_time e), w)
       /\ Plant.nth_get_attribute Plant.SEL_PLOTS_PLANTED i "data-land" w
          = (Ok (land e), w)
       /\ Plant.nth_get_attribute Plant.SEL_PLOTS_PLANTED i "data-plot" w
          = (Ok (plot e), w).

End WithHost.
End PlantSpec.

(** ** A simulated farm page *)

Module SimPlant.

Record World : Type := {
  clock : Q;
  plots : list PlantSpec.Entry;
  click_works : text -> bool    (* whether a click on the selector goes through *)
}.

Definition attribute (name : string) (p : PlantSpec.Entry) : option text :=
  if String.eqb name "data-harvest-time" then PlantSpec.harvest_time p
  else if String.eqb name "data-land" then PlantSpec.land p
  else if String.eqb name "data-plot" then PlantSpec.plot p
  else None.

(** [Number(e.getAttribute('data-harvest-time') || '0')]. *)
Definition harvest_time_number (p : PlantSpec.Entry) : Z :=
  match PlantSpec.harvest_time p with
  | Some s => match ascii_int s with Ok v => v | Raised => 0%Z end
  | None => 0%Z
  end.

#[global] Instance sim_host : Plant.Host World := {|
  Plant.time_time := fun w => (clock w, w);
  Plant.open_farm_page := fun w => (Ok tt, w);
  Plant.browser_close := fun w => (Ok tt, w);
  Plant.wait_for_load_state := fun w => (Ok tt, w);
  Plant.wait_for_timeout := fun _ w => w;
  Plant.locator_count := fun _ w => (Ok (Z.of_nat (List.length (plots w))), w);
  Plant.nth_get_attribute := fun _ i name w =>
    (match nth_error (plots w) i with
     | Some p => Ok (attribute name p)
     | None => Raised
     end, w);
  Plant.locator_click := fun sel w =>
    (if click_works w sel then Ok tt else Raised, w);
  Plant.eval_harvest_times := fun w =>
    (Ok (List.map harvest_time_number (plots w)), w);
  Plant.plant_on_all_empty_slots := fun w => (Ok 0%Z, w)
|}.

Definition plot_of (t land idx : string) : PlantSpec.Entry :=
  {| PlantSpec.harvest_time := Some (lit t);
     PlantSpec.land := Some (lit land);
     PlantSpec.plot := Some (lit idx) |}.

(** Half a second past 1000: two plots are ready (900 and 1000), one ripens
    at 2000, one has no ready time; and no click goes through. *)
Definition farm0 : World :=
  {| clock := 2001 # 2;
     plots := [ plot_of "900" "1" "1";
                plot_of "2000" "1" "2";
                {| PlantSpec.harvest_time := None;
                   PlantSpec.land := Some (lit "1");
                   PlantSpec.plot := Some (lit "3") |};
                plot_of "1000" "1" "4" ];
     click_works := fun _ => false |}.

(** The farm at 4 s, with one plot that ripens at 2^54 s. *)
Definition far_farm : World :=
  {| clock := 4;
     plots := [ plot_of "18014398509481984" "1" "1" ];
     click_works := fun _ => true |}.

End SimPlant.

(** ** Vocabulary of further statements *)

(** A computation that returns, in every world. *)
Definition returns {W E A : Type} (m : M W E A) : Prop :=
  forall w, exists a, result (m w) = Ok a.

(** A computation that returns a value satisfying [P], in every world. *)
Definition yields {W E A : Type} (P : A -> Prop) (m : M W E A) : Prop :=
  forall w, exists a, result (m w) = Ok a /\ P a.

Module SchedMore.
Section WithHost.

Variable digit_value : N -> option Z.
Variable cfg : Mowan.Config.
Context {W : Type} {host : Mowan.Host W}.

(** The probe the loop makes for a task after a recheck sleep. *)
Definition recheck_probe (task : Mowan.Task) : M W Mowan.Event Z :=
  match task with
  | Mowan.Clean => Mowan.fetch_countdown_wait digit_value cfg "hourly recheck"
  | Mowan.Brick => Mowan.fetch_brick_countdown_wait digit_value cfg "brick recheck"
  end.

(** No operation of a page session raises. *)
Definition sessions_work : Prop :=
  (forall w : W, fst (Mowan.open_page_session w) = Ok tt)
  /\ (forall w : W, fst (Mowan.browser_close w) = Ok tt)
  /\ (forall w : W, fst (Mowan.run_loop w) = Ok tt)
  /\ (forall w : W, exists b, fst (Mowan.wait_for_brick_factory_ready w) = Ok b)
  /\ (forall w : W, exists n, fst (Mowan.click_brick_factory w) = Ok n).

(** A reading that some state of the page gives for the countdown at
    [sel]. *)
Definition readable (sel : string) (seconds : option Z) : Prop :=
  exists w : W,
    result (Mowan.read_countdown_at digit_value sel w) = Ok seconds.

(** The wait made of any reading of a countdown, or of a default interval
    when there is none, ends on a date that [datetime] can hold, at
    whatever moment the wall clock is read. *)
Definition waits_are_dates : Prop :=
  forall (sel : string) (seconds : option Z) (fallback : Z) (w : W),
    readable sel seconds ->
    fallback = Mowan.DEFAULT_NEXT_INTERVAL_SEC cfg
    \/ fallback = Mowan.BRICK_DEFAULT_INTERVAL_SEC cfg ->
    Mowan.eta_in_range (fst (Mowan.datetime_now w))
      (Z.max (match seconds with Some s => s | None => fallback end)
         Mowan.MIN_WAIT_AFTER_CHECK_SEC) = true.

End WithHost.
End SchedMore.

Module PlantMore.

(** A key that holds no double quote. *)
Definition no_quote (t : text) : Prop := ~ In Plant.quote t.

Section WithHost.
Context {W : Type} {host : Plant.Host W}.

(** What [plot_key_selector] reads for the planted plot [i]: the attribute
    [data-land], and after it the attribute [data-plot]. *)
Definition land_read (i : nat) (w : W) : Res (option text) :=
  fst (Plant.nth_get_attribute Plant.SEL_PLOTS_PLANTED i "data-land" w).

Definition plot_read (i : nat) (w : W) : Res (option text) :=
  fst (Plant.nth_get_attribute Plant.SEL_PLOTS_PLANTED i "data-plot"
         (snd (Plant.nth_get_attribute Plant.SEL_PLOTS_PLANTED i "data-land" w))).

End WithHost.

(** A page on which two entries carry the same keys. *)
Definition twin_farm : SimPlant.World :=
  {| SimPlant.clock := 0;
     SimPlant.plots := [ SimPlant.plot_of "900" "1" "1";
                         SimPlant.plot_of "2000" "1" "1" ];
     SimPlant.click_works := fun _ => true |}.

End PlantMore.

(** ** Both files: the cookie *)

Module Cookie.

(** What [ensure_cookie_value] reads: the environment variables, and the
    cookie file at [COOKIE_FILE_PATH]: absent, or the result of reading it
    as text. *)
Record Environment : Type := {
  getenv : string -> option text;
  cookie_file : option (Res text)
}.

Inductive Outcome : Type :=
| Value (v : text)     (* the cookie returned *)
| NoCookie             (* RuntimeError: no cookie found *)
| ReadError.           (* the file could not be read *)

(** [a or b] for strings that may be [None]. *)
Definition py_or (a : option text) (b : text) : text :=
  match a with
  | Some (c :: t) => c :: t
  | _ => b
  end.

(** [primary] is ["MOWAN_COOKIE"] in autoMowan.py and ["PLANT_COOKIE"] in
    autoPlant.py. *)
Definition ensure_cookie_value (primary : string) (env : Environment) : Outcome :=
  let env_cookie :=
    strip (py_or (getenv env primary) (py_or (getenv env "SIQI_COOKIE") [])) in
  match env_cookie with
  | _ :: _ => Value env_cookie
  | [] =>
      match cookie_file env with
      | Some (Ok content) =>
          let value := strip content in
          match value with
          | _ :: _ => Value value
          | [] => NoCookie
          end
      | Some Raised => ReadError
      | None => NoCookie
      end
  end.

(** The environment with the variable [name] set to [v]. *)
Definition setenv (name : string) (v : text) (env : Environment) : Environment :=
  {| getenv := fun n => if String.eqb n name then Some v else getenv env n;
     cookie_file := cookie_file env |}.

(** Neither end of the text is white space. *)
Definition trimmed (v : text) : Prop :=
  match v with
  | [] => True
  | c :: _ => is_space c = false /\ is_space (List.last v c) = false
  end.

End Cookie.

(** ** Both files: opening the page with backoff *)

Module Nav.

Inductive Event : Type :=
| Goto (ok : bool)     (* page.goto(URL, ...), and whether it returned *)
| Slept (d : Q).       (* time.sleep(d) *)

Class Host (W : Type) : Type := {
  page_goto : W -> Res unit * W;
  time_sleep : Q -> W -> W
}.

(** [min(backoff * 1.8, 10)]. *)
Definition next_backoff (backoff : Q) : Q := Qmin (backoff * (9 # 5)) 10.

Section WithHost.
Context {W : Type} {host : Host W}.

Definition sleep (d : Q) : M W Event unit :=
  if Qle_bool 0 d then emit (Slept d) ;;; act (time_sleep d) else raise.

(** [fuel] rounds of the [while True] of [open_target], from the wait
    [backoff]; the result tells whether the page was reached. *)
Fixpoint open_target_from (fuel : nat) (backoff : Q) : M W Event bool :=
  match fuel with
  | O => ret false
  | S k =>
      r <- try_ (call page_goto) ;;
      match r with
      | Ok _ => emit (Goto true) ;;; ret true
      | Raised =>
          emit (Goto false) ;;;
          log "[open] load failed, retry" ;;;
          sleep backoff ;;;
          open_target_from k (next_backoff backoff)
      end
  end.

Definition open_target (fuel : nat) : M W Event bool :=
  open_target_from fuel 1.

End WithHost.

(** The events of [k] failed loads from the wait [backoff]. *)
Fixpoint retries (k : nat) (backoff : Q) : list Event :=
  match k with
  | O => []
  | S k' => Goto false :: Slept backoff :: retries k' (next_backoff backoff)
  end.

Fixpoint sleeps (evs : list Event) : list Q :=
  match evs with
  | [] => []
  | Slept d :: rest => d :: sleeps rest
  | _ :: rest => sleeps rest
  end.

(** The waits 1, 1.8, 3.24, 5.832 and then 10 for ever. *)
Definition backoff_table (k : nat) : list Q :=
  firstn k ([1; 9 # 5; 81 # 25; 729 # 125] ++ repeat 10 (k - 4)).

End Nav.

(** ** autoMowan.py: the brick workshop *)

Module Factory.

Inductive Event : Type :=
| Slept (d : Q)             (* time.sleep(d) *)
| Waited (ms : Z)           (* page.wait_for_timeout(ms) *)
| Polled (ready : bool)     (* factory.evaluate(...), False when it raised *)
| ClickFactory (ok : bool). (* factory.click(), and whether it succeeded *)

(** How [factory.wait_for(state="attached", ...)] ends. *)
Inductive WaitOutcome : Type :=
| Attached
| TimedOut       (* PlaywrightTimeoutError *)
| Failed.        (* any other exception *)

Class Host (W : Type) : Type := {
  time_time : W -> Q * W;
  time_sleep : Q -> W -> W;
  factory_wait_for : Z -> W -> WaitOutcome * W;
  factory_evaluate : W -> Res bool * W;
  factory_click : W -> Res unit * W;
  wait_for_timeout : Z -> W -> W
}.

Section WithHost.

(** [BRICK_CLICK_INTERVAL_MS], 150 unless the environment says otherwise. *)
Variable BRICK_CLICK_INTERVAL_MS : Z.
Context {W : Type} {host : Host W}.

Local Abbreviation M := (M W Event).

Definition sleep (d : Q) : M unit :=
  if Qle_bool 0 d then emit (Slept d) ;;; act (time_sleep d) else raise.

(** [fuel] rounds of the [while] loop of [wait_for_brick_factory_ready];
    [None] when the rounds are used up. *)
Fixpoint poll_ready (fuel : nat) (deadline : Q) : M (option bool) :=
  match fuel with
  | O => ret None
  | S k =>
      t <- call_ok time_time ;;
      if negb (Qle_bool deadline t) then
        r <- try_ (call factory_evaluate) ;;
        let ready := match r with Ok b => b | Raised => false end in
        emit (Polled ready) ;;;
        if ready then ret (Some true)
        else sleep 1 ;;; poll_ready k deadline
      else
        log "[brick] factory still locked after waiting" ;;;
        ret (Some false)
  end.

Definition wait_for_brick_factory_ready (fuel : nat) (timeout_sec : Z)
  : M (option bool) :=
  o <- call_ok (factory_wait_for (timeout_sec * 1000)) ;;
  match o with
  | TimedOut => log "[brick] factory element missing" ;;; ret (Some false)
  | Failed => raise
  | Attached =>
      t <- call_ok time_time ;;
      let deadline := t + inject_Z timeout_sec in
      poll_ready fuel deadline
  end.

(** The [for] loop of [click_brick_factory], [n] rounds to go, with
    [success] clicks so far. *)
Fixpoint click_rounds (n : nat) (success : Z) : M Z :=
  match n with
  | O => ret success
  | S k =>
      r <- try_ (call factory_click) ;;
      match r with
      | Ok _ =>
          emit (ClickFactory true) ;;;
          log "[brick] click" ;;;
          emit (Waited BRICK_CLICK_INTERVAL_MS) ;;;
          act (wait_for_timeout BRICK_CLICK_INTERVAL_MS) ;;;
          click_rounds k (success + 1)
      | Raised =>
          (* both handlers log and break *)
          emit (ClickFactory false) ;;;
          log "[brick] click timeout or unexpected" ;;;
          ret success
      end
  end.

Definition click_brick_factory (clicks : Z) : M Z :=
  success <- click_rounds (Z.to_nat clicks) 0 ;;
  log "[brick] done" ;;;
  ret success.

End WithHost.

Fixpoint clicks (evs : list Event) : list bool :=
  match evs with
  | [] => []
  | ClickFactory ok :: rest => ok :: clicks rest
  | _ :: rest => clicks rest
  end.

Fixpoint pauses (evs : list Event) : list Z :=
  match evs with
  | [] => []
  | Waited ms :: rest => ms :: pauses rest
  | _ :: rest => pauses rest
  end.

Fixpoint sleeps (evs : list Event) : list Q :=
  match evs with
  | [] => []
  | Slept d :: rest => d :: sleeps rest
  | _ :: rest => sleeps rest
  end.

Fixpoint polls (evs : list Event) : list bool :=
  match evs with
  | [] => []
  | Polled b :: rest => b :: polls rest
  | _ :: rest => polls rest
  end.

(** The events of [k] polls that found the workshop locked. *)
Fixpoint idle_polls (k : nat) : list Event :=
  match k with
  | O => []
  | S k' => Polled false :: Slept 1 :: idle_polls k'
  end.

Section Clock.
Context {W : Type} {host : Host W}.

(** The clock [clock] is what [time.time()] reads; no reading and no poll
    sets it back, and a sleep moves it on by its length at least. *)
Definition clock_runs (clock : W -> Q) : Prop :=
  (forall w, fst (time_time w) = clock w /\ clock w <= clock (snd (time_time w)))
  /\ (forall w, clock w <= clock (snd (factory_evaluate w)))
  /\ (forall w d, clock w + d <= clock (time_sleep d w)).

End Clock.

(** A simulated workshop: the clock, the time from which the workshop is
    unlocked, and the number of clicks it still accepts. *)
Record Sim : Type := {
  sim_clock : Q;
  unlocked_from : Q;
  clicks_left : nat
}.

#[global] Instance sim_factory : Host Sim := {|
  time_time := fun w => (sim_clock w, w);
  time_sleep := fun d w =>
    {| sim_clock := sim_clock w + d; unlocked_from := unlocked_from w;
       clicks_left := clicks_left w |};
  factory_wait_for := fun _ w => (Attached, w);
  factory_evaluate := fun w => (Ok (Qle_bool (unlocked_from w) (sim_clock w)), w);
  factory_click := fun w =>
    match clicks_left w with
    | O => (Raised, w)
    | S k => (Ok tt, {| sim_clock := sim_clock w;
                        unlocked_from := unlocked_from w;
                        clicks_left := k |})
    end;
  wait_for_timeout := fun _ w => w
|}.

End Factory.

(** ** autoMowan.py: the cleaning button *)

Module Button.

Inductive Event : Type :=
| ClickButton (ok : bool).   (* btn.click(timeout=3000), and its outcome *)

Class Host (W : Type) : Type := {
  btn_count : W -> Res Z * W;
  btn_is_visible : W -> Res bool * W;
  btn_get_attribute : string -> W -> Res (option text) * W;
  btn_scroll_into_view : W -> Res unit * W;
  btn_click : W -> Res unit * W
}.

(** [a != "true"] for an attribute value that may be [None]. *)
Definition is_true_text (a : option text) : bool :=
  match a with
  | Some t => if list_eq_dec N.eq_dec t (lit "true") then true else false
  | None => false
  end.

Definition is_none {A} (a : option A) : bool :=
  match a with None => true | Some _ => false end.

Section WithHost.
Context {W : Type} {host : Host W}.

Definition click_clean_button : M W Event unit :=
  n <- call btn_count ;;
  if (n =? 0)%Z then ret tt
  else
    r <- try_ (
      visible <- call btn_is_visible ;;
      if negb visible then ret tt
      else
        disabled_attr <- call (btn_get_attribute "disabled") ;;
        aria_disabled <- call (btn_get_attribute "aria-disabled") ;;
        if is_none disabled_attr && negb (is_true_text aria_disabled) then
          _ <- try_ (call btn_scroll_into_view) ;;
          c <- try_ (call btn_click) ;;
          match c with
          | Ok _ => emit (ClickButton true)
          | Raised => emit (ClickButton false) ;;; log "[click clean] failed"
          end
        else ret tt) ;;
    match r with
    | Ok _ => ret tt
    | Raised => log "[btn state] err"
    end.

(** In the world [w] the button reads as: [count] matches, visible or not,
    and the two attributes; reading leaves the world as it is. *)
Definition reads (w : W) (count : Z) (visible : bool)
           (disabled aria : option text) : Prop :=
  btn_count w = (Ok count, w)
  /\ btn_is_visible w = (Ok visible, w)
  /\ btn_get_attribute "disabled" w = (Ok disabled, w)
  /\ btn_get_attribute "aria-disabled" w = (Ok aria, w).

End WithHost.

(** The button may be clicked: it is there, visible, and carries neither
    marker of being disabled. *)
Definition enabled (count : Z) (visible : bool) (disabled aria : option text)
  : bool :=
  negb (count =? 0)%Z && visible && is_none disabled && negb (is_true_text aria).

(** A simulated button. *)
Record Sim : Type := {
  sim_count : Z;
  sim_visible : bool;
  sim_disabled : option text;
  sim_aria : option text
}.

#[global] Instance sim_button : Host Sim := {|
  btn_count := fun w => (Ok (sim_count w), w);
  btn_is_visible := fun w => (Ok (sim_visible w), w);
  btn_get_attribute := fun name w =>
    (Ok (if String.eqb name "disabled" then sim_disabled w
         else if String.eqb name "aria-disabled" then sim_aria w
         else None), w);
  btn_scroll_into_view := fun w => (Ok tt, w);
  btn_click := fun w => (Raised, w)
|}.

End Button.

(** ** autoPlant.py: seeds and planting *)

Module Planting.

Inductive Event : Type :=
| Waited (ms : Z)                     (* page.wait_for_timeout(ms) *)
| ClickSeed (ok : bool)               (* seed_loc.click(), and its outcome *)
| ClickPlot (sel : text) (ok : bool). (* page.locator(sel).click(), and its outcome *)

Inductive Kind : Type := Preferred | Fallback.

(** ["西红柿"], ["🍅"] and ["萝卜"], ["🥕"]. *)
Definition SEED_PREFERRED_TEXTS : list text :=
  [[35199; 32418; 26623]; [127813]]%N.
Definition SEED_FALLBACK_TEXTS : list text :=
  [[33821; 21340]; [129365]]%N.

(** How [page.wait_for_selector(SEL_SEEDS_ROOT, ...)] ends. *)
Inductive WaitOutcome : Type :=
| Visible
| TimedOut       (* PlaywrightTimeoutError *)
| Failed.        (* any other exception *)

Class Host (W : Type) : Type := {
  (* the unlocked seed cards with the text t: count(), and on the first of
     them scroll_into_view_if_needed() and click() *)
  seed_count : text -> W -> Res Z * W;
  seed_scroll_into_view : text -> W -> Res unit * W;
  seed_click : text -> W -> Res unit * W;
  (* the empty plots: count() and nth(i).get_attribute(name) *)
  empty_count : W -> Res Z * W;
  empty_nth_get_attribute : nat -> string -> W -> Res (option text) * W;
  wait_for_seeds_root : W -> WaitOutcome * W;
  (* page.locator(sel): evaluate(classList.contains('planted')), click() *)
  plot_is_planted : text -> W -> Res bool * W;
  plot_click : text -> W -> Res unit * W;
  wait_for_load_state : W -> Res unit * W;
  wait_for_timeout : Z -> W -> W
}.

Section WithHost.
Context {W : Type} {host : Host W}.

Local Abbreviation M := (M W Event).

Definition page_wait_for_timeout (ms : Z) : M unit :=
  emit (Waited ms) ;;; act (wait_for_timeout ms).

Definition is_planted_selector (plot_selector : text) : M bool :=
  r <- try_ (call (plot_is_planted plot_selector)) ;;
  match r with
  | Ok b => ret b
  | Raised => ret false
  end.

(** [plot_key_selector(el)] for [el = empty.nth(i)]. *)
Definition plot_key_selector (i : nat) : M text :=
  a <- call (empty_nth_get_attribute i "data-land") ;;
  b <- call (empty_nth_get_attribute i "data-plot") ;;
  ret (PlantSpec.selector_of
         {| PlantSpec.harvest_time := None;
            PlantSpec.land := a; PlantSpec.plot := b |}).

(** One of the two [for] loops of [pick_seed_locator]: the first text with
    an unlocked card. *)
Fixpoint first_unlocked (texts : list text) : M (option text) :=
  match texts with
  | [] => ret None
  | t :: rest =>
      n <- call (seed_count t) ;;
      if (n >? 0)%Z then ret (Some t) else first_unlocked rest
  end.

Definition pick_seed_locator : M (option (Kind * text)) :=
  p <- first_unlocked SEED_PREFERRED_TEXTS ;;
  match p with
  | Some t => ret (Some (Preferred, t))
  | None =>
      f <- first_unlocked SEED_FALLBACK_TEXTS ;;
      match f with
      | Some t => ret (Some (Fallback, t))
      | None => ret None
      end
  end.

(** The loop that fills [empty_keys]. *)
Fixpoint collect_keys (i n : nat) (acc : list text) : M (list text) :=
  match n with
  | O => ret acc
  | S k =>
      sel <- plot_key_selector i ;;
      collect_keys (S i) k (acc ++ [sel])
  end.

(** The loop over [empty_keys], with [planted_ok] so far. *)
Fixpoint plant_each (keys : list text) (planted_ok : Z) : M Z :=
  match keys with
  | [] => ret planted_ok
  | sel :: rest =>
      p <- is_planted_selector sel ;;
      if p : bool then
        (* continue: the pause at the end of the round is skipped *)
        log "[plant] already planted, skip" ;;; plant_each rest planted_ok
      else
        c <- try_ (call (plot_click sel)) ;;
        match c with
        | Ok _ =>
            emit (ClickPlot sel true) ;;;
            page_wait_for_timeout 150 ;;;
            log "[plant] done" ;;;
            page_wait_for_timeout 150 ;;;
            plant_each rest (planted_ok + 1)
        | Raised =>
            emit (ClickPlot sel false) ;;;
            log "[plant] not planted" ;;;
            page_wait_for_timeout 150 ;;;
            plant_each rest planted_ok
        end
  end.

Definition plant_on_all_empty_slots : M Z :=
  cnt <- call empty_count ;;
  if (cnt <=? 0)%Z then log "[plant] no empty plot" ;;; ret 0%Z
  else
    empty_keys <- collect_keys 0 (Z.to_nat cnt) [] ;;
    seed <- pick_seed_locator ;;
    match seed with
    | None => log "no seed available" ;;; ret 0%Z
    | Some (which, t) =>
        o <- call_ok wait_for_seeds_root ;;
        match o with
        | Failed => raise
        | _ =>
            _ <- try_ (call (seed_scroll_into_view t)) ;;
            c <- try_ (call (seed_click t)) ;;
            match c with
            | Raised =>
                emit (ClickSeed false) ;;;
                log "[plant] seed click failed" ;;; ret 0%Z
            | Ok _ =>
                emit (ClickSeed true) ;;;
                log "[plant] planting mode" ;;;
                planted_ok <- plant_each empty_keys 0 ;;
                call wait_for_load_state ;;;
                page_wait_for_timeout 300 ;;;
                ret planted_ok
            end
        end
    end.

End WithHost.

(** The plot clicks among the events, with their outcomes. *)
Fixpoint plot_clicks (evs : list Event) : list (text * bool) :=
  match evs with
  | [] => []
  | ClickPlot sel ok :: rest => (sel, ok) :: plot_clicks rest
  | _ :: rest => plot_clicks rest
  end.

Fixpoint seed_clicks (evs : list Event) : list bool :=
  match evs with
  | [] => []
  | ClickSeed ok :: rest => ok :: seed_clicks rest
  | _ :: rest => seed_clicks rest
  end.

(** [l1] is [l2] with some elements left out. *)
Inductive subseq {A : Type} : list A -> list A -> Prop :=
| subseq_nil : subseq [] []
| subseq_skip (x : A) (l1 l2 : list A) : subseq l1 l2 -> subseq l1 (x :: l2)
| subseq_take (x : A) (l1 l2 : list A) : subseq l1 l2 -> subseq (x :: l1) (x :: l2).

(** The number of plot clicks that went through. *)
Definition planted (evs : list Event) : nat :=
  List.length (List.filter snd (plot_clicks evs)).

Section Static.
Context {W : Type} {host : Host W}.

(** In the world [w] the seed with text [t] has [cnt t] unlocked cards;
    counting leaves the world as it is. *)
Definition seeds_read (w : W) (cnt : text -> Z) : Prop :=
  forall t, seed_count t w = (Ok (cnt t), w).

End Static.

(** A simulated seed shelf, on which only the counts matter. *)
Record Sim : Type := { unlocked : text -> Z }.

#[global] Instance sim_seeds : Host Sim := {|
  seed_count := fun t w => (Ok (unlocked w t), w);
  seed_scroll_into_view := fun _ w => (Ok tt, w);
  seed_click := fun _ w => (Ok tt, w);
  empty_count := fun w => (Ok 0%Z, w);
  empty_nth_get_attribute := fun _ _ w => (Raised, w);
  wait_for_seeds_root := fun w => (Visible, w);
  plot_is_planted := fun _ w => (Ok false, w);
  plot_click := fun _ w => (Ok tt, w);
  wait_for_load_state := fun w => (Ok tt, w);
  wait_for_timeout := fun _ w => w
|}.

(** Only carrots are unlocked. *)
Definition carrots_only : Sim :=
  {| unlocked := fun t =>
       if list_eq_dec N.eq_dec t [33821; 21340]%N then 2%Z else 0%Z |}.

End Planting.

(** ** autoPlant.py: the two loops *)

Module Loops.

Inductive Event : Type :=
| Page (e : Plant.Event)   (* an event of run_once *)
| Slept (d : Z).           (* time.sleep(d) *)

Definition FIXED_INTERVAL_SEC : Z := 180.

(** The longest sleep in whole seconds: 9223372036 * 10^9 < 2^63. *)
Definition SLEEP_MAX_SEC : Z := 9223372036.

(** [time.sleep(d)] for a length that the interpreter and the operating
    system accept, and the longest sleep in whole seconds that the
    operating system accepts at that moment (a longer one is an [OSError]:
    its end is beyond the monotonic clock); it is taken to be of
    9 * 10^9 seconds at least, as on a machine up for less than seven
    years. *)
Class Sleeper (W : Type) : Type := {
  time_sleep : Z -> W -> W;
  sleep_limit : W -> Z;
  sleep_limit_safe : forall w, (Mowan.SLEEP_SAFE_SEC <= sleep_limit w)%Z
}.

Section WithHost.

Variable py_int : text -> Res Z.
Context {W : Type} {host : Plant.Host W} {sleeper : Sleeper W}.

(** A computation of the page, with its events marked as such. *)
Definition lift {A} (m : M W Plant.Event A) : M W Event A :=
  fun w => match m w with (r, w1, e) => (r, w1, List.map Page e) end.

Local Abbreviation M := (M W Event).

(** Whether [time.sleep(d)] sleeps in the world [w], for an [int]:
    [ValueError] for a negative length, [OverflowError] for one whose
    nanoseconds do not fit 63 bits, [OSError] for one beyond what the
    operating system accepts. *)
Definition sleep_accepted (d : Z) (w : W) : bool :=
  ((0 <=? d) && (d <=? SLEEP_MAX_SEC) && (d <=? sleep_limit w))%Z.

Definition sleep (d : Z) : M unit :=
  fun w =>
    if sleep_accepted d w then (emit (Slept d) ;;; act (time_sleep d)) w
    else raise w.

(** One round of the [while True] of [loop_smart]. *)
Definition loop_smart_round : M unit :=
  r <- try_ (lift (Plant.run_once py_int)) ;;
  wait_sec <- match r with
              | Ok v => ret v
              | Raised => log "[loop] run_once raised" ;;; ret 60%Z
              end ;;
  sleep wait_sec.

(** The wait of a round in the world [w]: what [run_once] returned, or 60
    when it raised. *)
Definition round_wait (w : W) : Z :=
  match result (Plant.run_once py_int w) with
  | Ok v => v
  | Raised => 60%Z
  end.

Fixpoint loop_smart (n : nat) : M unit :=
  match n with
  | O => ret tt
  | S k => loop_smart_round ;;; loop_smart k
  end.

(** One round of the [while True] of [loop_fixed]. *)
Definition loop_fixed_round (interval : Z) : M unit :=
  r <- try_ (lift (Plant.run_once py_int)) ;;
  match r with
  | Ok _ => ret tt
  | Raised => log "[loop-fixed] raised"
  end ;;;
  sleep interval.

Fixpoint loop_fixed_rounds (n : nat) (interval : Z) : M unit :=
  match n with
  | O => ret tt
  | S k => loop_fixed_round interval ;;; loop_fixed_rounds k interval
  end.

Definition loop_fixed (n : nat) : M unit :=
  let interval := Z.max 5 FIXED_INTERVAL_SEC in
  loop_fixed_rounds n interval.

End WithHost.

Fixpoint sleeps (evs : list Event) : list Z :=
  match evs with
  | [] => []
  | Slept d :: rest => d :: sleeps rest
  | _ :: rest => sleeps rest
  end.

End Loops.

(** ** autoMowan.py: the clicking loop of a session *)

Module Watch.

(** The events of the three executors called in the loop, and the pause of
    the loop itself. *)
Inductive Event (E : Type) : Type :=
| Inner (e : E)
| Waited (ms : Z).     (* page.wait_for_timeout(ms) *)

Arguments Inner {E} e.
Arguments Waited {E} ms.

Definition CHECK_INTERVAL_MS : Z := 3000.

Class Host (W : Type) : Type := {
  time_time : W -> Q * W;
  wait_for_timeout : Z -> W -> W;
  (* page.url.startswith(URL) *)
  url_on_target : W -> bool * W
}.

Section WithHost.

Variable E : Type.
Context {W : Type} {host : Host W}.

(** [click_clean_button(page)], [click_drops(page)] and [open_target(page)],
    as computations over the same page. *)
Variables click_clean_button click_drops open_target : M W E unit.

Definition lift {A} (m : M W E A) : M W (Event E) A :=
  fun w => match m w with (r, w1, e) => (r, w1, List.map Inner e) end.

(** The body of the [while True], up to the test of the runtime limit. *)
Definition round_body : M W (Event E) unit :=
  lift click_clean_button ;;;
  lift click_drops ;;;
  emit (Waited CHECK_INTERVAL_MS) ;;;
  act (wait_for_timeout CHECK_INTERVAL_MS) ;;;
  on_target <- call_ok url_on_target ;;
  if on_target : bool then ret tt
  else log "[watchdog] url changed, navigating back..." ;;; lift open_target.

(** [fuel] rounds of the loop; [true] when the loop was left by [break],
    [false] when the rounds are used up. *)
Fixpoint run_rounds (fuel : nat) (start : Q) (max_runtime_sec : option Z)
  : M W (Event E) bool :=
  match fuel with
  | O => ret false
  | S k =>
      round_body ;;;
      match max_runtime_sec with
      | Some m =>
          if (m =? 0)%Z then run_rounds k start max_runtime_sec
          else
            t <- call_ok time_time ;;
            if Qle_bool (inject_Z m) (t - start) then
              log "[run_loop] reach session runtime limit, exiting loop" ;;;
              ret true
            else run_rounds k start max_runtime_sec
      | None => run_rounds k start max_runtime_sec
      end
  end.

Definition run_loop (fuel : nat) (max_runtime_sec : option Z)
  : M W (Event E) bool :=
  start <- call_ok time_time ;;
  run_rounds fuel start max_runtime_sec.

(** The clock [clock] is what [time.time()] reads; reading it or the
    address of the page does not set it back, and a pause moves it on by
    its length at least. *)
Definition clock_runs (clock : W -> Q) : Prop :=
  (forall w, fst (time_time w) = clock w /\ clock w <= clock (snd (time_time w)))
  /\ (forall w, clock w <= clock (snd (url_on_target w)))
  /\ (forall w ms, clock w + inject_Z ms / 1000 <= clock (wait_for_timeout ms w)).

(** The computation [m] does not set the clock back. *)
Definition keeps_clock (clock : W -> Q) (m : M W E unit) : Prop :=
  forall w, clock w <= clock (world (m w)).

End WithHost.

(** The pauses of the loop among the events. *)
Fixpoint waits {E} (evs : list (Event E)) : list Z :=
  match evs with
  | [] => []
  | Waited ms :: rest => ms :: waits rest
  | Inner _ :: rest => waits rest
  end.

(** A simulated page that stays on the target; only the clock moves. *)
Record Sim : Type := { sim_clock : Q }.

#[global] Instance sim_watch : Host Sim := {|
  time_time := fun w => (sim_clock w, w);
  wait_for_timeout := fun ms w => {| sim_clock := sim_clock w + inject_Z ms / 1000 |};
  url_on_target := fun w => (true, w)
|}.

(** An executor that finds nothing to do. *)
Definition idle : M Sim unit unit := ret tt.

End Watch.

(** ** Concrete inputs, for running the further definitions *)

Module Scenes.

(** A configuration whose cleaning recheck interval is negative. *)
Definition hasty_config : Mowan.Config := {|
  Mowan.STATUS_RECHECK_INTERVAL_SEC := -1;
  Mowan.DEFAULT_NEXT_INTERVAL_SEC := 2 * 3600;
  Mowan.BRICK_DEFAULT_INTERVAL_SEC := 24 * 3600;
  Mowan.BRICK_RECHECK_INTERVAL_SEC := 6 * 3600
|}.

(** Cleaning is due at 6000, the brick workshop at 30000. *)
Definition late_state : Mowan.SchedState :=
  {| Mowan.next_clean_at := 6000; Mowan.next_brick_at := 30000 |}.

(** The cookie in the primary variable, with blanks around it. *)
Definition env_padded : Cookie.Environment :=
  {| Cookie.getenv := fun n =>
       if String.eqb n "MOWAN_COOKIE" then Some (lit "  abc ") else None;
     Cookie.cookie_file := None |}.

(** A blank primary variable, and the cookie in the file. *)
Definition env_blank : Cookie.Environment :=
  {| Cookie.getenv := fun n =>
       if String.eqb n "MOWAN_COOKIE" then Some (lit " ") else None;
     Cookie.cookie_file := Some (Ok (lit "from-file")) |}.

(** A button that is there, visible and not disabled. *)
Definition button_on : Button.Sim :=
  {| Button.sim_count := 1; Button.sim_visible := true;
     Button.sim_disabled := None; Button.sim_aria := Some (lit "false") |}.

(** A workshop that unlocks two seconds from now. *)
Definition workshop0 : Factory.Sim :=
  {| Factory.sim_clock := 0; Factory.unlocked_from := 2;
     Factory.clicks_left := 5 |}.

(** A page that always shows the countdown 00:10:00, with nothing else on
    it but the clock. *)
Record Steady : Type := { steady_clock : Q }.

#[global] Instance steady_host : Mowan.Host Steady := {|
  Mowan.time_time := fun w => (steady_clock w, w);
  Mowan.time_sleep := fun d w => {| steady_clock := steady_clock w + d |};
  Mowan.sleep_limit := fun _ => 9223372036;
  Mowan.sleep_limit_safe := fun _ => ltac:(vm_compute; discriminate);
  Mowan.datetime_now := fun w => (SimMowan.wall_clock_us, w);
  Mowan.open_page_session := fun w => (Ok tt, w);
  Mowan.browser_close := fun w => (Ok tt, w);
  Mowan.run_loop := fun w => (Ok tt, {| steady_clock := steady_clock w + 600 |});
  Mowan.wait_for_brick_factory_ready := fun w => (Ok true, w);
  Mowan.click_brick_factory := fun w => (Ok 50%Z, w);
  Mowan.wait_for_load_state := fun w => (Ok tt, w);
  Mowan.wait_for_timeout := fun _ w => w;
  Mowan.locator_count := fun _ w => (Ok 0%Z, w);
  Mowan.locator_wait_for := fun _ w => (Ok tt, w);
  Mowan.locator_inner_text := fun _ w => (Ok (lit "00:10:00"), w);
  Mowan.first_inner_text := fun _ w => (Raised, w);
  Mowan.first_scroll_into_view := fun _ w => (Raised, w);
  Mowan.first_click := fun _ w => (Raised, w)
|}.

(** The farm page with a clock that a sleep advances. *)
#[global] Instance farm_sleeper : Loops.Sleeper SimPlant.World := {|
  Loops.time_sleep := fun d w =>
    {| SimPlant.clock := SimPlant.clock w + inject_Z d;
       SimPlant.plots := SimPlant.plots w;
       SimPlant.click_works := SimPlant.click_works w |};
  Loops.sleep_limit := fun _ => 9223372036%Z;
  Loops.sleep_limit_safe := fun _ => ltac:(vm_compute; discriminate)
|}.

(** The farm on 2025-11-01, with one plot whose harvest time was written
    in milliseconds. *)
Definition late_farm : SimPlant.World :=
  {| SimPlant.clock := 1762000000;
     SimPlant.plots := [ SimPlant.plot_of "17620000000000" "1" "1" ];
     SimPlant.click_works := fun _ => true |}.

End Scenes.

(** * Properties *)

(** ** Stripping *)

Lemma rstrip_split (t : text) :
  exists ws, t = rstrip t ++ ws /\ Forall (fun c => is_space c = true) ws.
Proof.
  induction t as [|c t IH]; simpl.
  - exists []; split; [reflexivity | constructor].
  - destruct IH as [ws [Heq Hws]].
    destruct (rstrip t) as [|r0 r] eqn:Hr.
    + destruct (is_space c) eqn:Hc.
      * exists (c :: ws). simpl in Heq. subst t. split; [reflexivity|].
        constructor; assumption.
      * exists ws. simpl in *. subst t. split; [reflexivity | assumption].
    + exists ws. split; [|assumption]. simpl. f_equal. exact Heq.
Qed.

Lemma lstrip_split (t : text) :
  exists ws, t = ws ++ lstrip t /\ Forall (fun c => is_space c = true) ws.
Proof.
  induction t as [|c t IH]; simpl.
  - exists []; split; [reflexivity | constructor].
  - destruct (is_space c) eqn:Hc.
    + destruct IH as [ws [Heq Hws]]. exists (c :: ws). split.
      * simpl. f_equal. exact Heq.
      * constructor; assumption.
    + exists []. split; [reflexivity | constructor].
Qed.

Lemma colon_not_space : is_space colon = false.
Proof. reflexivity. Qed.

(** ** The strict pattern *)

Module ParserFacts.
Section WithDigits.

Variable digit_value : N -> option Z.

Local Abbreviation is_digit := (Parser.is_digit digit_value).
Local Abbreviation match_tail := (Parser.match_tail digit_value).
Local Abbreviation match_here := (Parser.match_here digit_value).
Local Abbreviation countdown_search := (Parser.countdown_search digit_value).
Local Abbreviation findall_from := (Parser.findall_from digit_value).
Local Abbreviation findall_digits := (Parser.findall_digits digit_value).
Local Abbreviation py_int := (Parser.py_int digit_value).
Local Abbreviation hms := (Parser.hms digit_value).
Local Abbreviation parse_countdown_text := (Parser.parse_countdown_text digit_value).
Local Abbreviation decimal := (ParserSpec.decimal digit_value).
Local Abbreviation hms_value := (ParserSpec.hms_value digit_value).
Local Abbreviation all_digits := (ParserSpec.all_digits digit_value).
Local Abbreviation no_digits := (ParserSpec.no_digits digit_value).
Local Abbreviation two_digits := (ParserSpec.two_digits digit_value).
Local Abbreviation hour_digits := (ParserSpec.hour_digits digit_value).
Local Abbreviation occurs := (ParserSpec.occurs digit_value).
Local Abbreviation has_strict := (ParserSpec.has_strict digit_value).
Local Abbreviation first_occurrence := (ParserSpec.first_occurrence digit_value).

Lemma match_tail_sound (t m s : text) :
  match_tail t = Some (m, s) ->
  exists post, t = colon :: m ++ colon :: s ++ post /\ two_digits m /\ two_digits s.
Proof.
  unfold Parser.match_tail.
  destruct t as [|c0 [|m1 [|m2 [|c1 [|s1 [|s2 post]]]]]]; try discriminate.
  destruct (N.eqb_spec c0 colon); [|discriminate].
  destruct (is_digit m1) eqn:D1; [|discriminate].
  destruct (is_digit m2) eqn:D2; [|discriminate].
  destruct (N.eqb_spec c1 colon); [|discriminate].
  destruct (is_digit s1) eqn:D3; [|discriminate].
  destruct (is_digit s2) eqn:D4; [|discriminate].
  simpl. intros H. injection H as <- <-. subst c0 c1.
  exists post. split; [reflexivity|].
  split; [exists m1, m2 | exists s1, s2]; auto.
Qed.

Lemma match_tail_complete (m s post : text) :
  two_digits m -> two_digits s ->
  match_tail (colon :: m ++ colon :: s ++ post) = Some (m, s).
Proof.
  intros (m1 & m2 & -> & D1 & D2) (s1 & s2 & -> & D3 & D4).
  simpl. rewrite D1, D2, D3, D4. reflexivity.
Qed.

Lemma match_here_sound (t hh mm ss : text) :
  match_here t = Some (hh, mm, ss) ->
  exists post, occurs t [] hh mm ss post.
Proof.
  unfold Parser.match_here.
  destruct t as [|h1 rest]; [discriminate|].
  destruct (is_digit h1) eqn:D1; [|discriminate].
  assert (Hone : match match_tail rest with
                 | Some (m, s) => Some ([h1], m, s)
                 | None => None
                 end = Some (hh, mm, ss) ->
                 exists post, occurs (h1 :: rest) [] hh mm ss post).
  { destruct (match_tail rest) as [[m s]|] eqn:Ht; [|discriminate].
    intros H; injection H as <- <- <-.
    apply match_tail_sound in Ht. destruct Ht as (post & -> & Hm & Hs).
    exists post. split; [reflexivity|].
    split; [left; exists h1; auto | auto]. }
  destruct rest as [|h2 rest2]; [exact Hone|].
  destruct (is_digit h2) eqn:D2; [|exact Hone].
  destruct (match_tail rest2) as [[m s]|] eqn:Ht; [|exact Hone].
  intros H; injection H as <- <- <-.
  apply match_tail_sound in Ht. destruct Ht as (post & -> & Hm & Hs).
  exists post. split; [reflexivity|].
  split; [right; exists h1, h2; auto | auto].
Qed.

Lemma occurs_cons (c : N) (t pre hh mm ss post : text) :
  occurs t pre hh mm ss post -> occurs (c :: t) (c :: pre) hh mm ss post.
Proof. intros (E & H). split; [simpl; f_equal; exact E | exact H]. Qed.

Lemma occurs_tail (c : N) (t pre hh mm ss post : text) :
  occurs (c :: t) (c :: pre) hh mm ss post -> occurs t pre hh mm ss post.
Proof. intros (E & H). split; [simpl in E; injection E; auto | exact H]. Qed.

Lemma occurs_pre_head (c : N) (t pre hh mm ss post : text) :
  occurs (c :: t) pre hh mm ss post -> pre = [] \/ exists pre', pre = c :: pre'.
Proof.
  intros (E & _). destruct pre as [|p pre']; [left; reflexivity|].
  right. simpl in E. injection E as -> _. exists pre'. reflexivity.
Qed.

Lemma not_occurs_nil (pre hh mm ss post : text) : ~ occurs [] pre hh mm ss post.
Proof. intros (E & _). destruct pre; destruct hh; discriminate. Qed.

Lemma search_cons (c : N) (t : text) :
  countdown_search (c :: t) =
  match match_here (c :: t) with
  | Some g => Some g
  | None => countdown_search t
  end.
Proof. reflexivity. Qed.

Lemma search_sound (t hh mm ss : text) :
  countdown_search t = Some (hh, mm, ss) ->
  exists pre post, occurs t pre hh mm ss post.
Proof.
  induction t as [|c t IH]; [discriminate|].
  rewrite search_cons.
  - destruct (match_here (c :: t)) as [g|] eqn:Hm.
    + intros H; injection H as ->. apply match_here_sound in Hm.
      destruct Hm as [post Ho]. exists [], post. exact Ho.
    + intros H. destruct (IH H) as (pre & post & Ho).
      exists (c :: pre), post. apply occurs_cons. exact Ho.
Qed.

Section ColonIsNoDigit.

Hypothesis colon_no_digit : digit_value colon = None.

Lemma is_digit_colon : is_digit colon = false.
Proof. unfold Parser.is_digit. rewrite colon_no_digit. reflexivity. Qed.

Lemma match_here_complete (hh mm ss post : text) :
  hour_digits hh -> two_digits mm -> two_digits ss ->
  match_here (hh ++ colon :: mm ++ colon :: ss ++ post) = Some (hh, mm, ss).
Proof.
  intros Hh Hm Hs.
  pose proof (match_tail_complete post Hm Hs) as Ht.
  destruct Hh as [(a & -> & Da) | (a & b & -> & Da & Db)].
  - cbn [app Parser.match_here]. rewrite Da, is_digit_colon, Ht. reflexivity.
  - cbn [app Parser.match_here]. rewrite Da, Db, Ht. reflexivity.
Qed.

Lemma match_here_none (c : N) (t pre hh mm ss post : text) :
  match_here (c :: t) = None ->
  occurs (c :: t) pre hh mm ss post ->
  exists pre', pre = c :: pre' /\ occurs t pre' hh mm ss post.
Proof.
  intros Hm Ho. destruct (occurs_pre_head Ho) as [-> | [pre' ->]].
  - destruct Ho as (E & Hh & Hmm & Hss). simpl in E.
    rewrite E, (match_here_complete post Hh Hmm Hss) in Hm. discriminate.
  - exists pre'. split; [reflexivity | eapply occurs_tail; exact Ho].
Qed.

Lemma search_none_iff (t : text) :
  countdown_search t = None <-> ~ has_strict t.
Proof.
  split.
  - induction t as [|c t IH].
    + intros _ (pre & hh & mm & ss & post & Ho). exact (not_occurs_nil Ho).
    + rewrite search_cons.
      destruct (match_here (c :: t)) as [g|] eqn:Hm; [discriminate|].
      intros Hs (pre & hh & mm & ss & post & Ho).
      destruct (match_here_none Hm Ho) as (pre' & _ & Ho').
      apply (IH Hs). exists pre', hh, mm, ss, post. exact Ho'.
  - intros Hn. destruct (countdown_search t) as [[[hh mm] ss]|] eqn:Hs; [|reflexivity].
    exfalso. apply Hn. apply search_sound in Hs.
    destruct Hs as (pre & post & Ho). exists pre, hh, mm, ss, post. exact Ho.
Qed.

Lemma search_first (t pre hh mm ss post : text) :
  first_occurrence t pre hh mm ss post ->
  countdown_search t = Some (hh, mm, ss).
Proof.
  revert t. induction pre as [|c pre IH]; intros t [Ho Hmin].
  - destruct Ho as (E & Hh & Hmm & Hss). simpl in E. subst t.
    pose proof (match_here_complete post Hh Hmm Hss) as Hm.
    destruct (hh ++ colon :: mm ++ colon :: ss ++ post); [discriminate|].
    rewrite search_cons, Hm. reflexivity.
  - destruct t as [|c' t]; [destruct Ho as [E _]; discriminate|].
    assert (c' = c) as -> by (destruct Ho as [E _]; simpl in E; injection E; auto).
    rewrite search_cons. destruct (match_here (c :: t)) as [[[h' m'] s']|] eqn:Hm.
    + apply match_here_sound in Hm. destruct Hm as [post' Ho'].
      specialize (Hmin _ _ _ _ _ Ho'). simpl in Hmin. lia.
    + apply IH. split; [eapply occurs_tail; exact Ho|].
      intros pre' hh' mm' ss' post' Ho'.
      specialize (Hmin _ _ _ _ _ (occurs_cons c Ho')). simpl in Hmin. lia.
Qed.

Lemma first_occurrence_exists (t : text) :
  has_strict t -> exists pre hh mm ss post, first_occurrence t pre hh mm ss post.
Proof.
  induction t as [|c t IH]; intros Hs.
  - destruct Hs as (pre & hh & mm & ss & post & Ho). destruct (not_occurs_nil Ho).
  - destruct (match_here (c :: t)) as [[[hh mm] ss]|] eqn:Hm.
    + apply match_here_sound in Hm. destruct Hm as [post Ho].
      exists [], hh, mm, ss, post. split; [exact Ho|].
      intros; simpl; lia.
    + destruct Hs as (pre & hh & mm & ss & post & Ho).
      destruct (match_here_none Hm Ho) as (pre' & _ & Ho').
      destruct IH as (p1 & h1 & m1 & s1 & q1 & Ho1 & Hmin1).
      { exists pre', hh, mm, ss, post. exact Ho'. }
      exists (c :: p1), h1, m1, s1, q1. split; [apply occurs_cons; exact Ho1|].
      intros p2 h2 m2 s2 q2 Ho2.
      destruct (match_here_none Hm Ho2) as (p2' & -> & Ho2').
      specialize (Hmin1 _ _ _ _ _ Ho2'). simpl. lia.
Qed.

End ColonIsNoDigit.

(** ** Conversion of digit strings *)

Lemma int_digits_fold (s : text) (acc : Z) :
  all_digits s ->
  Parser.int_digits digit_value acc s =
  Ok (fold_left
        (fun a c => (a * 10 + match digit_value c with Some d => d | None => 0 end)%Z)
        s acc).
Proof.
  revert acc. induction s as [|c s IH]; intros acc Hd; simpl.
  - reflexivity.
  - inversion Hd as [|? ? Hc Hs]; subst. unfold Parser.is_digit in Hc.
    destruct (digit_value c) as [d|]; [|discriminate]. apply IH. exact Hs.
Qed.

Lemma fits_dec (s : text) : {ParserSpec.fits s} + {~ ParserSpec.fits s}.
Proof. unfold ParserSpec.fits. apply le_dec. Qed.

Lemma py_int_digits (s : text) :
  s <> [] -> ParserSpec.fits s -> all_digits s -> py_int s = Ok (decimal s).
Proof.
  intros Hne Hf Hd. destruct s as [|c s]; [contradiction|].
  unfold Parser.py_int. unfold ParserSpec.fits in Hf.
  apply Nat.ltb_ge in Hf. rewrite Hf. apply int_digits_fold. exact Hd.
Qed.

(** A run of more than 4300 digits is refused. *)
Lemma py_int_long (s : text) : ~ ParserSpec.fits s -> py_int s = Raised.
Proof.
  intros Hf. destruct s as [|c s]; [reflexivity|].
  unfold Parser.py_int. unfold ParserSpec.fits in Hf.
  apply Nat.nle_gt, Nat.ltb_lt in Hf. rewrite Hf. reflexivity.
Qed.

Lemma hms_runs (a b c : text) :
  a <> [] -> b <> [] -> c <> [] ->
  ParserSpec.fits a -> ParserSpec.fits b -> ParserSpec.fits c ->
  all_digits a -> all_digits b -> all_digits c ->
  hms a b c = Ok (hms_value a b c).
Proof.
  intros. unfold Parser.hms.
  rewrite !py_int_digits by assumption. reflexivity.
Qed.

(** With a run that is too long among the three, the conversion raises. *)
Lemma hms_long (a b c : text) :
  ~ (ParserSpec.fits a /\ ParserSpec.fits b /\ ParserSpec.fits c) ->
  hms a b c = Raised.
Proof.
  intros Hn. unfold Parser.hms.
  destruct (fits_dec a) as [Fa | Fa]; [|rewrite (py_int_long Fa); reflexivity].
  destruct (fits_dec b) as [Fb | Fb].
  - destruct (fits_dec c) as [Fc | Fc]; [tauto|].
    rewrite (py_int_long Fc).
    destruct (py_int a); [destruct (py_int b)|]; reflexivity.
  - rewrite (py_int_long Fb). destruct (py_int a); reflexivity.
Qed.

Lemma short_fits (x : text) : (List.length x <= 2)%nat -> ParserSpec.fits x.
Proof.
  intros H. unfold ParserSpec.fits.
  apply (Nat.le_trans _ 2); [exact H|].
  apply Nat.leb_le. vm_compute. reflexivity.
Qed.

Lemma two_digits_run (x : text) :
  two_digits x -> x <> [] /\ ParserSpec.fits x /\ all_digits x.
Proof.
  intros (a & b & -> & Da & Db). split; [discriminate|].
  split; [apply short_fits; apply le_n|].
  repeat constructor; assumption.
Qed.

Lemma hour_digits_run (x : text) :
  hour_digits x -> x <> [] /\ ParserSpec.fits x /\ all_digits x.
Proof.
  intros [(a & -> & Da) | H]; [|apply two_digits_run; exact H].
  split; [discriminate|].
  split; [apply short_fits; apply le_S, le_n|].
  repeat constructor; assumption.
Qed.

Lemma hms_groups (t pre hh mm ss post : text) :
  occurs t pre hh mm ss post -> hms hh mm ss = Ok (hms_value hh mm ss).
Proof.
  intros (_ & Hh & Hm & Hs).
  apply hour_digits_run in Hh. apply two_digits_run in Hm, Hs.
  apply hms_runs; tauto.
Qed.

(** ** The digit runs *)

Lemma findall_digits_app (r u cur : text) :
  all_digits r -> findall_from cur (r ++ u) = findall_from (rev r ++ cur) u.
Proof.
  revert cur. induction r as [|c r IH]; intros cur Hd; simpl.
  - reflexivity.
  - inversion Hd as [|? ? Hc Hr]; subst. rewrite Hc, IH by assumption.
    rewrite <- app_assoc. reflexivity.
Qed.

Lemma findall_gap_app (n u : text) :
  no_digits n -> findall_from [] (n ++ u) = findall_from [] u.
Proof.
  induction n as [|c n IH]; intros Hn; simpl.
  - reflexivity.
  - inversion Hn as [|? ? Hc Hr]; subst. rewrite Hc. apply IH. exact Hr.
Qed.

Lemma findall_close_gap (cur n u : text) :
  cur <> [] -> n <> [] -> no_digits n ->
  findall_from cur (n ++ u) = rev cur :: findall_from [] u.
Proof.
  intros Hcur Hne Hn. destruct n as [|c n]; [contradiction|].
  inversion Hn as [|? ? Hc Hr]; subst. simpl. rewrite Hc.
  destruct cur; [contradiction|]. f_equal. apply findall_gap_app. exact Hr.
Qed.

Lemma findall_close_end (cur u : text) :
  cur <> [] -> ParserSpec.run_ends digit_value u ->
  exists more, findall_from cur u = rev cur :: more.
Proof.
  intros Hcur Hu. destruct cur as [|c0 cur]; [contradiction|].
  destruct u as [|c u]; simpl in *.
  - eexists; reflexivity.
  - rewrite Hu. eexists; reflexivity.
Qed.

Lemma findall_first_three (t r1 r2 r3 : text) :
  ParserSpec.first_three_runs digit_value t r1 r2 r3 ->
  exists more, findall_digits t = r1 :: r2 :: r3 :: more.
Proof.
  intros (n0 & n1 & n2 & rest & -> & N0 & N1 & N2 & E1 & E2 & D1 & D2 & D3
          & R1 & R2 & R3 & Hend).
  unfold Parser.findall_digits.
  assert (Hrev : forall r : text, r <> [] -> rev r ++ [] <> []).
  { intros r Hr Hx. rewrite app_nil_r in Hx.
    apply (f_equal (@rev N)) in Hx. rewrite rev_involutive in Hx. auto. }
  rewrite findall_gap_app by assumption.
  rewrite findall_digits_app by assumption.
  rewrite findall_close_gap by auto.
  rewrite findall_digits_app by assumption.
  rewrite findall_close_gap by auto.
  rewrite findall_digits_app by assumption.
  destruct (@findall_close_end (rev r3 ++ []) rest (Hrev _ R3) Hend) as [more Hm].
  rewrite Hm. rewrite !app_nil_r, !rev_involutive. exists more. reflexivity.
Qed.

Lemma findall_length (t cur : text) :
  List.length (findall_from cur t) =
  ((match cur with [] => 0 | _ => 1 end)
   + ParserSpec.count_runs digit_value (match cur with [] => false | _ => true end) t)%nat.
Proof.
  revert cur. induction t as [|c t IH]; intros cur; simpl.
  - destruct cur; reflexivity.
  - destruct (is_digit c) eqn:Hc.
    + rewrite IH. destruct cur; simpl; lia.
    + destruct cur; simpl; rewrite IH; reflexivity.
Qed.

Lemma findall_runs_are_digits (t cur : text) :
  all_digits cur ->
  Forall (fun r => r <> [] /\ all_digits r) (findall_from cur t).
Proof.
  assert (Hrev : forall c r, all_digits (c :: r) ->
                  rev (c :: r) <> [] /\ all_digits (rev (c :: r))).
  { intros c r Hd. split.
    - simpl. destruct (rev r); discriminate.
    - apply Forall_rev. exact Hd. }
  revert cur. induction t as [|c t IH]; intros cur Hd; simpl.
  - destruct cur; constructor; [apply Hrev; exact Hd | constructor].
  - destruct (is_digit c) eqn:Hc.
    + apply IH. constructor; assumption.
    + destruct cur; [apply IH; constructor|].
      constructor; [apply Hrev; exact Hd | apply IH; constructor].
Qed.

(** ** Stripping does not change what the parser finds *)

Section SpacesAreNoDigits.

Hypothesis space_no_digit : forall c, is_space c = true -> digit_value c = None.

Lemma is_digit_space (c : N) : is_space c = true -> is_digit c = false.
Proof.
  intros Hs. unfold Parser.is_digit. rewrite (space_no_digit _ Hs). reflexivity.
Qed.

Lemma space_not_colon (c : N) : is_space c = true -> (c =? colon)%N = false.
Proof.
  intros Hs. destruct (N.eqb_spec c colon) as [->|]; [|reflexivity].
  rewrite colon_not_space in Hs. discriminate.
Qed.

Lemma match_tail_snoc (u : text) (sp : N) :
  is_space sp = true -> match_tail (u ++ [sp]) = match_tail u.
Proof.
  intros Hs. pose proof (is_digit_space _ Hs) as Hd.
  pose proof (space_not_colon _ Hs) as Hc.
  unfold Parser.match_tail.
  destruct u as [|c0 [|m1 [|m2 [|c1 [|s1 [|s2 post]]]]]]; simpl;
    rewrite ?Hd, ?Hc, ?andb_false_r; reflexivity.
Qed.

Lemma match_here_snoc (u : text) (sp : N) :
  is_space sp = true -> match_here (u ++ [sp]) = match_here u.
Proof.
  intros Hs. pose proof (is_digit_space _ Hs) as Hd.
  destruct u as [|h1 [|h2 u]].
  - simpl. rewrite Hd. reflexivity.
  - simpl. rewrite Hd. reflexivity.
  - change ((h1 :: h2 :: u) ++ [sp]) with (h1 :: h2 :: (u ++ [sp])).
    cbn [Parser.match_here].
    rewrite (match_tail_snoc u sp Hs).
    change (h2 :: u ++ [sp]) with ((h2 :: u) ++ [sp]).
    rewrite (match_tail_snoc (h2 :: u) sp Hs). reflexivity.
Qed.

Lemma search_snoc (u : text) (sp : N) :
  is_space sp = true -> countdown_search (u ++ [sp]) = countdown_search u.
Proof.
  intros Hs. induction u as [|c u IH].
  - simpl. rewrite (is_digit_space _ Hs). reflexivity.
  - change ((c :: u) ++ [sp]) with (c :: (u ++ [sp])).
    rewrite !search_cons, IH.
    change (c :: u ++ [sp]) with ((c :: u) ++ [sp]).
    rewrite (match_here_snoc (c :: u) sp Hs). reflexivity.
Qed.

Lemma findall_snoc (u cur : text) (sp : N) :
  is_space sp = true -> findall_from cur (u ++ [sp]) = findall_from cur u.
Proof.
  intros Hs. revert cur. induction u as [|c u IH]; intros cur; simpl.
  - rewrite (is_digit_space _ Hs). destruct cur; reflexivity.
  - destruct (is_digit c); [apply IH|]. destruct cur; rewrite IH; reflexivity.
Qed.

Lemma spaces_after (ws u : text) :
  Forall (fun c => is_space c = true) ws ->
  countdown_search (u ++ ws) = countdown_search u
  /\ findall_digits (u ++ ws) = findall_digits u.
Proof.
  revert u. induction ws as [|sp ws IH]; intros u Hws.
  - rewrite app_nil_r. auto.
  - inversion Hws as [|? ? Hs Hr]; subst.
    change (sp :: ws) with ([sp] ++ ws). rewrite app_assoc.
    destruct (IH (u ++ [sp]) Hr) as [A B]. rewrite A, B.
    unfold Parser.findall_digits. rewrite search_snoc, findall_snoc by assumption.
    auto.
Qed.

Lemma spaces_before (ws u : text) :
  Forall (fun c => is_space c = true) ws ->
  countdown_search (ws ++ u) = countdown_search u
  /\ findall_digits (ws ++ u) = findall_digits u.
Proof.
  induction ws as [|sp ws IH]; intros Hws; [auto|].
  inversion Hws as [|? ? Hs Hr]; subst. destruct (IH Hr) as [A B].
  change ((sp :: ws) ++ u) with (sp :: (ws ++ u)).
  rewrite search_cons. unfold Parser.findall_digits.
  cbn [Parser.match_here Parser.findall_from].
  rewrite (is_digit_space _ Hs). auto.
Qed.

Lemma strip_transparent (t : text) :
  countdown_search (strip t) = countdown_search t
  /\ findall_digits (strip t) = findall_digits t.
Proof.
  unfold strip.
  destruct (lstrip_split t) as (ws1 & E1 & H1).
  destruct (rstrip_split (lstrip t)) as (ws2 & E2 & H2).
  destruct (spaces_before (lstrip t) H1) as [A1 B1].
  destruct (spaces_after (rstrip (lstrip t)) H2) as [A2 B2].
  rewrite <- E2 in A2, B2. rewrite <- E1 in A1, B1.
  rewrite A1, B1, A2, B2. auto.
Qed.

End SpacesAreNoDigits.

(** ** Reading the runs back from the text *)

Lemma findall_open_run (t cur r : text) (more : list text) :
  cur <> [] ->
  findall_from cur t = r :: more ->
  exists d rest,
    t = d ++ rest /\ all_digits d /\ r = rev cur ++ d
    /\ ParserSpec.run_ends digit_value rest /\ findall_from [] rest = more.
Proof.
  revert cur. induction t as [|c t IH]; intros cur Hcur; simpl.
  - destruct cur as [|c0 cur]; [contradiction|].
    intros H; injection H as <- <-.
    exists [], []. rewrite !app_nil_r.
    split; [reflexivity|]. split; [constructor|]. split; [reflexivity|].
    split; [exact I | reflexivity].
  - destruct (is_digit c) eqn:Hc.
    + intros H. destruct (IH (c :: cur)) with (2 := H)
        as (d & rest & -> & Hd & -> & Hend & Hmore); [discriminate|].
      exists (c :: d), rest. simpl. rewrite <- app_assoc.
      repeat split; auto. constructor; assumption.
    + destruct cur as [|c0 cur]; [contradiction|].
      intros H; injection H as <- <-.
      exists [], (c :: t). rewrite !app_nil_r.
      split; [reflexivity|]. split; [constructor|]. split; [reflexivity|].
      split; [exact Hc|]. simpl. rewrite Hc. reflexivity.
Qed.

Lemma findall_first_run (t r : text) (more : list text) :
  findall_from [] t = r :: more ->
  exists n0 rest,
    t = n0 ++ r ++ rest /\ no_digits n0 /\ all_digits r /\ r <> []
    /\ ParserSpec.run_ends digit_value rest /\ findall_from [] rest = more.
Proof.
  induction t as [|c t IH]; simpl; [discriminate|].
  destruct (is_digit c) eqn:Hc.
  - intros H. destruct (@findall_open_run t [c] r more) as
      (d & rest & -> & Hd & -> & Hend & Hmore); [discriminate | exact H |].
    exists [], rest. simpl. repeat split; auto; try discriminate.
    + constructor.
    + constructor; assumption.
  - intros H. destruct (IH H) as (n0 & rest & -> & Hn & Hd & Hne & Hend & Hmore).
    exists (c :: n0), rest. repeat split; auto. constructor; assumption.
Qed.

Lemma gap_not_empty (n r rest u : text) :
  ParserSpec.run_ends digit_value u -> u = n ++ r ++ rest ->
  all_digits r -> r <> [] -> n <> [].
Proof.
  intros Hend -> Hd Hne ->. destruct r as [|c r]; [contradiction|].
  inversion Hd as [|? ? Hc _]; subst. simpl in Hend. congruence.
Qed.

Lemma three_runs_exist (t : text) :
  (3 <= ParserSpec.digit_runs digit_value t)%nat ->
  exists r1 r2 r3, ParserSpec.first_three_runs digit_value t r1 r2 r3.
Proof.
  unfold ParserSpec.digit_runs. intros H3.
  pose proof (findall_length t []) as HL. simpl in HL.
  destruct (findall_from [] t) as [|r1 [|r2 [|r3 more]]] eqn:Hf;
    simpl in HL; try lia.
  destruct (findall_first_run _ Hf) as (n0 & u1 & -> & N0 & D1 & R1 & E1 & F1).
  destruct (findall_first_run _ F1) as (n1 & u2 & Hu1 & N1 & D2 & R2 & E2 & F2).
  destruct (findall_first_run _ F2) as (n2 & u3 & Hu2 & N2 & D3 & R3 & E3 & F3).
  exists r1, r2, r3, n0, n1, n2, u3.
  pose proof (@gap_not_empty n1 r2 u2 u1 E1 Hu1 D2 R2).
  pose proof (@gap_not_empty n2 r3 u3 u2 E2 Hu2 D3 R3).
  subst u1 u2. repeat split; auto.
Qed.

(** ** The parser *)

Section OnUnicode.

Hypothesis space_no_digit : forall c, is_space c = true -> digit_value c = None.
Hypothesis colon_no_digit : digit_value colon = None.

Lemma parse_nonempty (c : N) (t : text) :
  parse_countdown_text (Some (c :: t)) =
  match countdown_search (c :: t) with
  | Some (a, b, c) =>
      match hms a b c with Ok v => Ok (Some v) | Raised => Raised end
  | None =>
      match findall_digits (c :: t) with
      | a :: b :: c :: _ =>
          match hms a b c with Ok v => Ok (Some v) | Raised => Raised end
      | _ => Ok None
      end
  end.
Proof.
  unfold Parser.parse_countdown_text.
  destruct (strip_transparent space_no_digit (c :: t)) as [A B].
  rewrite A, B. reflexivity.
Qed.

(** C2.  A text that contains an [H:MM:SS] or [HH:MM:SS] substring has a
    first such occurrence, and [parse_countdown_text] returns
    [h * 3600 + m * 60 + s] for the hours, minutes and seconds of that
    occurrence, the one [COUNTDOWN_RE.search] matches, whatever surrounds
    it. *)
Theorem parse_strict_match (t : text) :
  has_strict t ->
  (exists pre hh mm ss post, first_occurrence t pre hh mm ss post)
  /\ (forall pre hh mm ss post,
        first_occurrence t pre hh mm ss post ->
        parse_countdown_text (Some t) = Ok (Some (hms_value hh mm ss))).
Proof.
  intros Hs. split; [apply first_occurrence_exists; assumption|].
  intros pre hh mm ss post Hf.
  pose proof (search_first colon_no_digit Hf) as Hsearch.
  destruct Hf as [Ho _].
  destruct t as [|c t]; [destruct (not_occurs_nil Ho)|].
  rewrite parse_nonempty, Hsearch, (hms_groups Ho). reflexivity.
Qed.

(** What the parser does with the first three runs of a text that has no
    strict occurrence. *)
Lemma parse_runs (t r1 r2 r3 : text) :
  ~ has_strict t ->
  ParserSpec.first_three_runs digit_value t r1 r2 r3 ->
  parse_countdown_text (Some t) =
  match hms r1 r2 r3 with Ok v => Ok (Some v) | Raised => Raised end.
Proof.
  intros Hn Hr.
  destruct (findall_first_three Hr) as [more Hf].
  destruct Hr as (n0 & n1 & n2 & rest & E & N0 & N1 & N2 & G1 & G2 & D1 & D2 & D3
                  & R1 & R2 & R3 & Hend).
  apply (search_none_iff colon_no_digit) in Hn.
  destruct t as [|c t].
  - destruct n0; destruct r1; try discriminate; contradiction.
  - rewrite parse_nonempty, Hn, Hf. reflexivity.
Qed.

(** C5, as the code has it.  A text with no strict [H(H):MM:SS] occurrence
    and at least three runs of digits has first three runs.  When none of
    them has more than 4300 digits, [parse_countdown_text] reads them as
    hours, minutes and seconds: the result is [h * 3600 + m * 60 + s].
    When one of them has more, [int] refuses it and the parser raises. *)
Theorem parse_loose_runs (t : text) :
  ~ has_strict t ->
  (3 <= ParserSpec.digit_runs digit_value t)%nat ->
  (exists r1 r2 r3, ParserSpec.first_three_runs digit_value t r1 r2 r3)
  /\ (forall r1 r2 r3,
        ParserSpec.first_three_runs digit_value t r1 r2 r3 ->
        (ParserSpec.fits r1 /\ ParserSpec.fits r2 /\ ParserSpec.fits r3 ->
         parse_countdown_text (Some t) = Ok (Some (hms_value r1 r2 r3)))
        /\ (~ (ParserSpec.fits r1 /\ ParserSpec.fits r2 /\ ParserSpec.fits r3) ->
            parse_countdown_text (Some t) = Raised)).
Proof.
  intros Hn H3. split; [apply three_runs_exist; exact H3|].
  intros r1 r2 r3 Hr. rewrite (parse_runs Hn Hr).
  destruct Hr as (n0 & n1 & n2 & rest & E & N0 & N1 & N2 & G1 & G2 & D1 & D2 & D3
                  & R1 & R2 & R3 & Hend).
  split.
  - intros (F1 & F2 & F3). rewrite hms_runs by assumption. reflexivity.
  - intros Hlong. rewrite (hms_long Hlong). reflexivity.
Qed.

(** C6, as the code has it.  An absent text, an empty text, and a text
    with no strict match and fewer than three runs of digits all give the
    value [None], which is neither zero nor an exception.  The parser
    raises on the texts with no strict match one of whose first three runs
    of digits has more than 4300 digits, and on no other input. *)
Theorem parse_unknown :
  parse_countdown_text None = Ok None
  /\ parse_countdown_text (Some []) = Ok None
  /\ (forall t,
        ~ has_strict t ->
        (ParserSpec.digit_runs digit_value t < 3)%nat ->
        parse_countdown_text (Some t) = Ok None)
  /\ (forall t,
        parse_countdown_text (Some t) = Raised
        <-> ~ has_strict t
            /\ exists r1 r2 r3,
                 ParserSpec.first_three_runs digit_value t r1 r2 r3
                 /\ ~ (ParserSpec.fits r1 /\ ParserSpec.fits r2
                       /\ ParserSpec.fits r3)).
Proof.
  split; [reflexivity|]. split; [reflexivity|]. split.
  - intros t Hn Hlt. destruct t as [|c t]; [reflexivity|].
    apply (search_none_iff colon_no_digit) in Hn.
    rewrite parse_nonempty, Hn.
    unfold ParserSpec.digit_runs in Hlt.
    pose proof (findall_length (c :: t) []) as HL. cbn [List.length] in HL.
    unfold Parser.findall_digits.
    destruct (findall_from [] (c :: t)) as [|a [|b [|d more]]]; try reflexivity.
    simpl in HL. simpl in Hlt. lia.
  - intros t. split.
    + intros Hraised.
      destruct t as [|c t]; [discriminate|].
      rewrite parse_nonempty in Hraised.
      destruct (countdown_search (c :: t)) as [[[hh mm] ss]|] eqn:Hs.
      * apply search_sound in Hs. destruct Hs as (pre & post & Ho).
        rewrite (hms_groups Ho) in Hraised. discriminate.
      * assert (Hn : ~ has_strict (c :: t)).
        { apply (search_none_iff colon_no_digit). exact Hs. }
        split; [exact Hn|].
        assert (H3 : (3 <= ParserSpec.digit_runs digit_value (c :: t))%nat).
        { unfold ParserSpec.digit_runs.
          pose proof (findall_length (c :: t) []) as HL.
          cbn [List.length] in HL. unfold Parser.findall_digits in Hraised.
          destruct (findall_from [] (c :: t)) as [|a [|b [|d more]]];
            try discriminate.
          cbn [List.length Nat.add] in HL. lia. }
        destruct (three_runs_exist _ H3) as (r1 & r2 & r3 & Hr).
        exists r1, r2, r3. split; [exact Hr|].
        assert (Hp : parse_countdown_text (Some (c :: t)) = Raised).
        { rewrite parse_nonempty, Hs. exact Hraised. }
        pose proof (eq_trans (eq_sym Hp) (parse_runs Hn Hr)) as Hq.
        intros (F1 & F2 & F3).
        destruct Hr as (n0 & n1 & n2 & rest & E & N0 & N1 & N2 & G1 & G2
                        & D1 & D2 & D3 & R1 & R2 & R3 & Hend).
        rewrite hms_runs in Hq by assumption. discriminate.
    + intros (Hn & r1 & r2 & r3 & Hr & Hlong).
      rewrite (parse_runs Hn Hr), (hms_long Hlong). reflexivity.
Qed.

End OnUnicode.

End WithDigits.
End ParserFacts.

(** ** The parser on the ASCII digit table *)

Lemma ascii_space_no_digit (c : N) :
  is_space c = true -> ascii_digit_value c = None.
Proof.
  unfold is_space, ascii_digit_value. intros Hs.
  destruct ((48 <=? c)%N && (c <=? 57)%N) eqn:Hd; [|reflexivity].
  apply andb_true_iff in Hd. destruct Hd as [H1 H2].
  apply N.leb_le in H1, H2.
  repeat (apply orb_true_iff in Hs; destruct Hs as [Hs | Hs]);
    repeat match goal with
           | H : (_ && _)%bool = true |- _ =>
               apply andb_true_iff in H; destruct H
           | H : (_ <=? _)%N = true |- _ => apply N.leb_le in H
           | H : (_ =? _)%N = true |- _ => apply N.eqb_eq in H
           end; lia.
Qed.

Lemma ascii_colon_no_digit : ascii_digit_value colon = None.
Proof. reflexivity. Qed.

Example parse_example_strict :
  Parser.parse_countdown_text ascii_digit_value (Some example_strict)
  = Ok (Some 3723%Z).
Proof. vm_compute. reflexivity. Qed.

Example parse_example_loose :
  Parser.parse_countdown_text ascii_digit_value (Some example_loose)
  = Ok (Some 11110%Z).
Proof. vm_compute. reflexivity. Qed.

Example parse_example_loading :
  Parser.parse_countdown_text ascii_digit_value (Some example_loading) = Ok None.
Proof. vm_compute. reflexivity. Qed.

(** The match is the leftmost one: of two countdowns the first is read. *)
Example parse_example_two_matches :
  Parser.parse_countdown_text ascii_digit_value
    (Some (lit "01:02:03 04:05:06")) = Ok (Some 3723%Z).
Proof. vm_compute. reflexivity. Qed.

Lemma example_strict_occurs :
  ParserSpec.occurs ascii_digit_value example_strict
    [21097; 20313; 32]%N (lit "01") (lit "02") (lit "03")
    [32; 35831; 31245; 20505]%N.
Proof.
  split; [reflexivity|]. split; [right|split].
  - exists 48%N, 49%N. repeat split.
  - exists 48%N, 50%N. repeat split.
  - exists 48%N, 51%N. repeat split.
Qed.

Lemma parse_strict_match_witness :
  ParserSpec.has_strict ascii_digit_value example_strict
  /\ ((exists pre hh mm ss post,
         ParserSpec.first_occurrence ascii_digit_value example_strict
           pre hh mm ss post)
      /\ (forall pre hh mm ss post,
            ParserSpec.first_occurrence ascii_digit_value example_strict
              pre hh mm ss post ->
            Parser.parse_countdown_text ascii_digit_value (Some example_strict)
            = Ok (Some (ParserSpec.hms_value ascii_digit_value hh mm ss)))).
Proof.
  assert (H : ParserSpec.has_strict ascii_digit_value example_strict).
  { do 5 eexists. exact example_strict_occurs. }
  split; [exact H|].
  exact (ParserFacts.parse_strict_match
           ascii_space_no_digit ascii_colon_no_digit H).
Defined.

Lemma example_loose_no_strict :
  ~ ParserSpec.has_strict ascii_digit_value example_loose.
Proof.
  apply (ParserFacts.search_none_iff ascii_digit_value ascii_colon_no_digit).
  vm_compute. reflexivity.
Qed.

Lemma parse_loose_runs_witness :
  ~ ParserSpec.has_strict ascii_digit_value example_loose
  /\ (3 <= ParserSpec.digit_runs ascii_digit_value example_loose)%nat
  /\ ((exists r1 r2 r3,
         ParserSpec.first_three_runs ascii_digit_value example_loose r1 r2 r3)
      /\ (forall r1 r2 r3,
            ParserSpec.first_three_runs ascii_digit_value example_loose r1 r2 r3 ->
            (ParserSpec.fits r1 /\ ParserSpec.fits r2 /\ ParserSpec.fits r3 ->
             Parser.parse_countdown_text ascii_digit_value (Some example_loose)
             = Ok (Some (ParserSpec.hms_value ascii_digit_value r1 r2 r3)))
            /\ (~ (ParserSpec.fits r1 /\ ParserSpec.fits r2
                   /\ ParserSpec.fits r3) ->
                Parser.parse_countdown_text ascii_digit_value (Some example_loose)
                = Raised))).
Proof.
  assert (H3 : (3 <= ParserSpec.digit_runs ascii_digit_value example_loose)%nat).
  { vm_compute. apply le_n. }
  split; [exact example_loose_no_strict|]. split; [exact H3|].
  exact (ParserFacts.parse_loose_runs
           ascii_space_no_digit ascii_colon_no_digit example_loose_no_strict H3).
Defined.

Lemma example_long_run_no_strict :
  ~ ParserSpec.has_strict ascii_digit_value example_long_run.
Proof.
  apply (ParserFacts.search_none_iff ascii_digit_value ascii_colon_no_digit).
  vm_compute. reflexivity.
Qed.

(** A text with no strict occurrence and three runs of digits, the first
    of 4301 digits: the parser raises, where it was to return
    [h * 3600 + m * 60 + s]. *)
Lemma parse_loose_long_run :
  ~ ParserSpec.has_strict ascii_digit_value example_long_run
  /\ (3 <= ParserSpec.digit_runs ascii_digit_value example_long_run)%nat
  /\ Parser.parse_countdown_text ascii_digit_value (Some example_long_run)
     = Raised.
Proof.
  split; [exact example_long_run_no_strict|]. split.
  - apply Nat.leb_le. vm_compute. reflexivity.
  - vm_compute. reflexivity.
Qed.

Lemma parse_unknown_witness :
  (forall c, is_space c = true -> ascii_digit_value c = None)
  /\ ascii_digit_value colon = None
  /\ Parser.parse_countdown_text ascii_digit_value None = Ok None
  /\ Parser.parse_countdown_text ascii_digit_value (Some []) = Ok None
  /\ (forall t,
        ~ ParserSpec.has_strict ascii_digit_value t ->
        (ParserSpec.digit_runs ascii_digit_value t < 3)%nat ->
        Parser.parse_countdown_text ascii_digit_value (Some t) = Ok None)
  /\ (forall t,
        Parser.parse_countdown_text ascii_digit_value (Some t) = Raised
        <-> ~ ParserSpec.has_strict ascii_digit_value t
            /\ exists r1 r2 r3,
                 ParserSpec.first_three_runs ascii_digit_value t r1 r2 r3
                 /\ ~ (ParserSpec.fits r1 /\ ParserSpec.fits r2
                       /\ ParserSpec.fits r3)).
Proof.
  split; [exact ascii_space_no_digit|]. split; [exact ascii_colon_no_digit|].
  exact (@ParserFacts.parse_unknown ascii_digit_value
           ascii_space_no_digit ascii_colon_no_digit).
Defined.

(** An input that makes the parser raise. *)
Lemma parse_raises_on_long_run :
  exists x, Parser.parse_countdown_text ascii_digit_value x = Raised.
Proof. exists (Some example_long_run). vm_compute. reflexivity. Qed.

(** ** The monad *)

Section MonadFacts.
Variables W E : Type.

Lemma events_bind {A B} (m : M W E A) (f : A -> M W E B) (w : W) :
  events (bind m f w) =
  events (m w) ++
  match result (m w) with
  | Ok a => events (f a (world (m w)))
  | Raised => []
  end.
Proof.
  unfold bind, events, result, world.
  destruct (m w) as [[[a|] w1] e1]; simpl.
  - destruct (f a w1) as [[r w2] e2]. reflexivity.
  - rewrite app_nil_r. reflexivity.
Qed.

Lemma bind_ok {A B} (m : M W E A) (f : A -> M W E B) (w w1 : W) (a : A)
      (e1 : list E) :
  m w = (Ok a, w1, e1) ->
  bind m f w = (result (f a w1), world (f a w1), e1 ++ events (f a w1)).
Proof.
  intros H. unfold bind, result, world, events. rewrite H.
  destruct (f a w1) as [[r w2] e2]. reflexivity.
Qed.

Lemma bind_raised {A B} (m : M W E A) (f : A -> M W E B) (w w1 : W)
      (e1 : list E) :
  m w = (Raised, w1, e1) -> bind m f w = (Raised, w1, e1).
Proof. intros H. unfold bind. rewrite H. reflexivity. Qed.

Lemma bind_ret {A B} (a : A) (f : A -> M W E B) (w : W) :
  bind (ret a) f w = f a w.
Proof. unfold bind, ret. destruct (f a w) as [[r w2] e2]. reflexivity. Qed.

Lemma bind_log {B} (msg : string) (f : unit -> M W E B) (w : W) :
  bind (log msg) f w = f tt w.
Proof. apply bind_ret. Qed.

Lemma result_mk {A} (r : Res A) (w : W) (e : list E) : result (r, w, e) = r.
Proof. reflexivity. Qed.

Lemma world_mk {A} (r : Res A) (w : W) (e : list E) : world (r, w, e) = w.
Proof. reflexivity. Qed.

Lemma events_mk {A} (r : Res A) (w : W) (e : list E) : events (r, w, e) = e.
Proof. reflexivity. Qed.

Lemma triple_eta {A} (x : Res A * W * list E) :
  x = (result x, world x, events x).
Proof. destruct x as [[r w] e]. reflexivity. Qed.

Lemma starts_with_emit {A} (e : E) (k : M W E A) :
  starts_with e (bind (emit e) (fun _ => k)).
Proof.
  intros w. rewrite events_bind. simpl. eexists. reflexivity.
Qed.

Lemma starts_with_bind {A B} (e : E) (m : M W E A) (f : A -> M W E B) :
  starts_with e m -> starts_with e (bind m f).
Proof.
  intros H w. destruct (H w) as [rest Hr]. rewrite events_bind, Hr.
  eexists. reflexivity.
Qed.

(** Events of the parts of a computation. *)

Lemma all_ret {A} (P : E -> Prop) (a : A) : all_events P (ret (W := W) a).
Proof. intros w. constructor. Qed.

Lemma all_raise {A} (P : E -> Prop) : all_events P (raise (W := W) (A := A)).
Proof. intros w. constructor. Qed.

Lemma all_log (P : E -> Prop) (msg : string) : all_events P (log (W := W) msg).
Proof. intros w. constructor. Qed.

Lemma all_call {A} (P : E -> Prop) (op : W -> Res A * W) :
  all_events P (call op).
Proof. intros w. unfold call, events. destruct (op w). constructor. Qed.

Lemma all_call_ok {A} (P : E -> Prop) (op : W -> A * W) :
  all_events P (call_ok op).
Proof. intros w. unfold call_ok, events. destruct (op w). constructor. Qed.

Lemma all_act (P : E -> Prop) (op : W -> W) : all_events P (act op).
Proof. intros w. constructor. Qed.

Lemma all_emit (P : E -> Prop) (e : E) : P e -> all_events P (emit (W := W) e).
Proof. intros H w. repeat constructor. exact H. Qed.

Lemma all_try {A} (P : E -> Prop) (m : M W E A) :
  all_events P m -> all_events P (try_ m).
Proof.
  intros H w. specialize (H w). unfold try_, events in *.
  destruct (m w) as [[r w1] e1]. exact H.
Qed.

Lemma all_bind {A B} (P : E -> Prop) (m : M W E A) (f : A -> M W E B) :
  all_events P m -> (forall a, all_events P (f a)) -> all_events P (bind m f).
Proof.
  intros Hm Hf w. rewrite events_bind. apply Forall_app. split; [apply Hm|].
  destruct (result (m w)); [apply Hf | constructor].
Qed.

End MonadFacts.

(** Walks through a computation built from the parts above. *)
Ltac all_events_step :=
  first
    [ apply all_ret | apply all_raise | apply all_log | apply all_call
    | apply all_call_ok | apply all_act | apply all_try
    | apply all_emit; exact I
    | apply all_bind; [|intros] ].

(** ** autoMowan.py: the wait normalizer *)

Module MowanFacts.
Section WithHost.

Variable digit_value : N -> option Z.
Variable cfg : Mowan.Config.
Context {W : Type} {host : Mowan.Host W}.

Local Abbreviation M := (M W Mowan.Event).
Local Abbreviation MIN := Mowan.MIN_WAIT_AFTER_CHECK_SEC.

(** The wait is [max (seconds or fallback) 30]; it is returned when the
    target time made of it is a date, and otherwise the function raises. *)
Lemma normalize_wait_eq (seconds : option Z) (reason : string) (fallback : Z)
      (w : W) :
  Mowan._normalize_wait seconds reason fallback w =
  (let v := Z.max (match seconds with Some s => s | None => fallback end) MIN in
   if Mowan.eta_in_range (fst (Mowan.datetime_now w)) v then Ok v else Raised,
   snd (Mowan.datetime_now w), []).
Proof.
  unfold Mowan._normalize_wait.
  destruct seconds as [s|]; unfold bind, call_ok, log, ret, raise;
    destruct (Mowan.datetime_now w) as [n w1]; cbn [fst snd];
    destruct (Mowan.eta_in_range n _); reflexivity.
Qed.

(** C3, as the code has it.  Whatever the duration read (a number, zero,
    or none) and whatever the fallback, the wait [v] that [_normalize_wait]
    makes of them is at least [MIN_WAIT_AFTER_CHECK_SEC], which is 30.  The
    function returns [v] when the wall clock plus [v] seconds is a date
    that [datetime] can hold, and raises when it is not; so whatever it
    returns is at least 30. *)
Theorem normalize_wait_floor (seconds : option Z) (reason : string)
        (fallback : Z) (w : W) :
  let v :=
    Z.max (match seconds with Some s => s | None => fallback end)
      Mowan.MIN_WAIT_AFTER_CHECK_SEC in
  let dated := Mowan.eta_in_range (fst (Mowan.datetime_now w)) v in
  Mowan.MIN_WAIT_AFTER_CHECK_SEC = 30%Z
  /\ (Mowan.MIN_WAIT_AFTER_CHECK_SEC <= v)%Z
  /\ (dated = true ->
      result (Mowan._normalize_wait seconds reason fallback w) = Ok v)
  /\ (dated = false ->
      result (Mowan._normalize_wait seconds reason fallback w) = Raised)
  /\ (forall u,
        result (Mowan._normalize_wait seconds reason fallback w) = Ok u ->
        (Mowan.MIN_WAIT_AFTER_CHECK_SEC <= u)%Z).
Proof.
  intros v dated. split; [reflexivity|]. split; [apply Z.le_max_r|].
  rewrite normalize_wait_eq, result_mk. cbv zeta. fold v. fold dated.
  split; [intros ->; reflexivity|]. split; [intros ->; reflexivity|].
  intros u. destruct dated; [|discriminate].
  intros H. injection H as <-. apply Z.le_max_r.
Qed.

(** C4, as the code has it.  With no duration read, and the wall clock
    plus the wait a date that [datetime] can hold, [_normalize_wait]
    returns the fallback when the fallback is at least the floor, and the
    floor when it is below; when that date is out of range, it raises. *)
Theorem normalize_wait_unknown (reason : string) (fallback : Z) (w : W) :
  let dated :=
    Mowan.eta_in_range (fst (Mowan.datetime_now w))
      (Z.max fallback Mowan.MIN_WAIT_AFTER_CHECK_SEC) in
  (dated = true ->
   ((Mowan.MIN_WAIT_AFTER_CHECK_SEC <= fallback)%Z ->
    result (Mowan._normalize_wait None reason fallback w) = Ok fallback)
   /\ ((fallback < Mowan.MIN_WAIT_AFTER_CHECK_SEC)%Z ->
       result (Mowan._normalize_wait None reason fallback w)
       = Ok Mowan.MIN_WAIT_AFTER_CHECK_SEC))
  /\ (dated = false ->
      result (Mowan._normalize_wait None reason fallback w) = Raised).
Proof.
  intros dated. rewrite normalize_wait_eq, result_mk. cbv zeta. fold dated.
  split.
  - intros ->. split; intros H; f_equal; lia.
  - intros ->. reflexivity.
Qed.

Lemma normalize_wait_seconds_eq (seconds : option Z) (reason : string) (w : W) :
  Mowan.normalize_wait_seconds cfg seconds reason w =
  (let v := Z.max (match seconds with
                   | Some s => s
                   | None => Mowan.DEFAULT_NEXT_INTERVAL_SEC cfg
                   end) MIN in
   if Mowan.eta_in_range (fst (Mowan.datetime_now w)) v then Ok v else Raised,
   snd (Mowan.datetime_now w), []).
Proof. apply normalize_wait_eq. Qed.

(** ** autoMowan.py: the sessions and the Run step *)

Local Abbreviation session_page := (SchedSpec.session_page digit_value).
Local Abbreviation session := (SchedSpec.session digit_value cfg).
Local Abbreviation default_interval_of := (SchedSpec.default_interval_of cfg).
Local Abbreviation run_due := (Mowan.run_due digit_value cfg).
Local Abbreviation wait_for_due := (Mowan.wait_for_due digit_value cfg).
Local Abbreviation scheduler_body := (Mowan.scheduler_body digit_value cfg).
Local Abbreviation scheduler_rounds := (Mowan.scheduler_rounds digit_value cfg).

(** A wait that was returned is the wait made of the reading. *)
Lemma normalize_wait_ok (seconds : option Z) (reason : string) (fallback : Z)
      (w : W) (v : Z) :
  result (Mowan._normalize_wait seconds reason fallback w) = Ok v ->
  Mowan._normalize_wait seconds reason fallback w
  = (Ok v, snd (Mowan.datetime_now w), [])
  /\ v = Z.max (match seconds with Some s => s | None => fallback end) MIN.
Proof.
  rewrite normalize_wait_eq, result_mk. cbv zeta.
  destruct (Mowan.eta_in_range _ _); [|discriminate].
  intros H. injection H as <-. split; reflexivity.
Qed.

Lemma normalize_wait_raised (seconds : option Z) (reason : string)
      (fallback : Z) (w : W) :
  result (Mowan._normalize_wait seconds reason fallback w) = Raised ->
  Mowan._normalize_wait seconds reason fallback w
  = (Raised, snd (Mowan.datetime_now w), []).
Proof.
  rewrite normalize_wait_eq, result_mk. cbv zeta.
  destruct (Mowan.eta_in_range _ _); [discriminate | reflexivity].
Qed.

(** A session that completes after the page visit gave the readings
    [(own, sib)] returns the waits made of them, and has the events of the
    page visit. *)
Lemma session_completes (task : Mowan.Task) (w w1 : W) (own sib : option Z)
      (ev : list Mowan.Event) (r : Z * option Z) :
  session_page task w = (Ok (own, sib), w1, ev) ->
  result (session task w) = Ok r ->
  session task w = (Ok r, world (session task w), ev)
  /\ fst r = Z.max (match own with
                    | Some s => s
                    | None => default_interval_of task
                    end) MIN
  /\ snd r = option_map (fun s => Z.max s MIN) sib.
Proof.
  intros Hpage.
  destruct task; cbn [SchedSpec.session_page] in Hpage;
    cbn [SchedSpec.session SchedSpec.default_interval_of];
    [unfold Mowan.run_cleaning_session | unfold Mowan.run_brick_session];
    unfold Mowan.normalize_wait_seconds;
    rewrite (bind_ok _ _ _ Hpage); cbv beta iota;
    destruct sib as [s|]; unfold bind, ret;
    repeat (rewrite normalize_wait_eq; cbv zeta;
            match goal with
            | |- context [Mowan.eta_in_range ?a ?b] =>
                destruct (Mowan.eta_in_range a b)
            end);
    cbn [result world events fst snd app option_map];
    rewrite ?app_nil_r;
    intros H; try discriminate H; injection H as <-;
    repeat split.
Qed.

Lemma now_eq (w : W) :
  Mowan.now w = (Ok (fst (Mowan.time_time w)), snd (Mowan.time_time w), []).
Proof.
  unfold Mowan.now, call_ok. destruct (Mowan.time_time w). reflexivity.
Qed.

(** The Run step is the session of the task, followed, when the session
    returned, by the readings of the clock that give the new due times. *)
Lemma run_due_eq (task : Mowan.Task) (st : Mowan.SchedState) (w : W) :
  run_due task st w =
  match result (session task w) with
  | Ok (own, sib) =>
      (Ok (fst (SchedSpec.after_session task st own sib (world (session task w)))),
       snd (SchedSpec.after_session task st own sib (world (session task w))),
       events (session task w))
  | Raised => (Raised, world (session task w), events (session task w))
  end.
Proof.
  destruct task; unfold Mowan.run_due; cbn [SchedSpec.session].
  - destruct (Mowan.run_cleaning_session digit_value cfg w)
      as [[[[cw mb]|] w1] ev] eqn:Hs.
    + rewrite (bind_ok _ _ _ Hs). cbv beta iota.
      rewrite (bind_ok _ _ _ (now_eq w1)).
      rewrite !result_mk, !world_mk, !events_mk. cbn [app].
      unfold SchedSpec.after_session.
      destruct (Mowan.time_time w1) as [t w2] eqn:Ht. cbn [fst snd].
      destruct mb as [b|].
      * rewrite (bind_ok _ _ _ (now_eq w2)).
        destruct (Mowan.time_time w2) as [t' w3]. cbn [fst snd].
        unfold ret. rewrite !result_mk, !world_mk, !events_mk, !app_nil_r.
        reflexivity.
      * unfold ret. rewrite !app_nil_r. reflexivity.
    + rewrite (bind_raised _ _ _ Hs). reflexivity.
  - destruct (Mowan.run_brick_session digit_value cfg w)
      as [[[[bw mc]|] w1] ev] eqn:Hs.
    + rewrite (bind_ok _ _ _ Hs). cbv beta iota.
      rewrite (bind_ok _ _ _ (now_eq w1)).
      rewrite !result_mk, !world_mk, !events_mk. cbn [app].
      unfold SchedSpec.after_session.
      destruct (Mowan.time_time w1) as [t w2] eqn:Ht. cbn [fst snd].
      destruct mc as [c|].
      * rewrite (bind_ok _ _ _ (now_eq w2)).
        destruct (Mowan.time_time w2) as [t' w3]. cbn [fst snd].
        unfold ret. rewrite !result_mk, !world_mk, !events_mk, !app_nil_r.
        reflexivity.
      * unfold ret. rewrite !app_nil_r. reflexivity.
    + rewrite (bind_raised _ _ _ Hs). reflexivity.
Qed.

Lemma due_at_set_due (task : Mowan.Task) (q : Q) (st : Mowan.SchedState) :
  Mowan.due_at task (SchedSpec.set_due task q st) = q
  /\ Mowan.due_at (SchedSpec.sibling task) (SchedSpec.set_due task q st)
     = Mowan.due_at (SchedSpec.sibling task) st.
Proof. destruct task; split; reflexivity. Qed.

(** C7.  Let the page visit of the session of a task give the pair of
    readings [(own, sib)], and let the session complete.  Then the Run
    step returns, with the events of the page visit; if the sibling's
    reading [sib] is a number [s], the sibling's due time becomes a reading
    of the clock taken after the session plus [max s 30]; if it is [None],
    the sibling's due time is the one it had. *)
Theorem run_due_sibling (task : Mowan.Task) (st : Mowan.SchedState)
        (w w1 : W) (own sib : option Z) (ev : list Mowan.Event)
        (r : Z * option Z) :
  session_page task w = (Ok (own, sib), w1, ev) ->
  result (session task w) = Ok r ->
  exists st' w',
    run_due task st w = (Ok st', w', ev)
    /\ Mowan.due_at (SchedSpec.sibling task) st' =
       match sib with
       | None => Mowan.due_at (SchedSpec.sibling task) st
       | Some s =>
           fst (Mowan.time_time
                  (snd (Mowan.time_time (world (session task w)))))
           + inject_Z (Z.max s Mowan.MIN_WAIT_AFTER_CHECK_SEC)
       end.
Proof.
  intros Hpage Hres.
  destruct (@session_completes task w w1 own sib ev r Hpage Hres)
    as (Hs & _ & Hsib).
  rewrite run_due_eq, Hres. destruct r as [ow sw]. cbn [snd] in Hsib.
  pose proof (f_equal (@events _ _ _) Hs) as Hev. rewrite events_mk in Hev.
  rewrite Hev. eexists; eexists. split; [reflexivity|].
  unfold SchedSpec.after_session.
  destruct (Mowan.time_time (world (session task w))) as [t w2]. cbn [fst snd].
  subst sw. destruct sib as [s|]; cbn [option_map].
  - destruct (Mowan.time_time w2) as [t' w3]. cbn [fst snd].
    destruct task; reflexivity.
  - cbn [fst]. apply due_at_set_due.
Qed.

(** ** autoMowan.py: the scheduler loop *)

Lemma pick_earlier (task : Mowan.Task) (st : Mowan.SchedState) :
  Mowan.due_at task st < Mowan.due_at (SchedSpec.sibling task) st ->
  Mowan.pick st = task.
Proof.
  unfold Mowan.pick. destruct task; simpl; intros H.
  - assert (Hle : Qle_bool (Mowan.next_clean_at st) (Mowan.next_brick_at st) = true).
    { apply Qle_bool_iff. lra. }
    rewrite Hle. reflexivity.
  - destruct (Qle_bool (Mowan.next_clean_at st) (Mowan.next_brick_at st)) eqn:Hle;
      [|reflexivity].
    apply Qle_bool_iff in Hle. lra.
Qed.

Lemma sleep_in_range_iff (d : Q) :
  Mowan.sleep_in_range d = true
  <-> 0 <= d /\ d * 1000000000 <= inject_Z Mowan.SLEEP_MAX_NS.
Proof.
  unfold Mowan.sleep_in_range. rewrite andb_true_iff, !Qle_bool_iff. tauto.
Qed.

(** A length of 9 * 10^9 seconds at most is one of 2^63 nanoseconds at
    most, and one that the operating system accepts. *)
Lemma sleep_fits (d : Q) (w : W) :
  0 <= d -> d <= inject_Z Mowan.SLEEP_SAFE_SEC ->
  Mowan.sleep_accepted d w = true.
Proof.
  intros H0 H1. unfold Mowan.sleep_accepted. apply andb_true_iff. split.
  - apply sleep_in_range_iff. split; [exact H0|].
    assert (Hm : inject_Z Mowan.SLEEP_MAX_NS == 9223372036854775808)
      by reflexivity.
    assert (Hs : inject_Z Mowan.SLEEP_SAFE_SEC == 9000000000) by reflexivity.
    rewrite Hm. rewrite Hs in H1. lra.
  - apply Qle_bool_iff.
    apply Qle_trans with (inject_Z Mowan.SLEEP_SAFE_SEC);
      [exact H1 | apply Mowan.sleep_limit_safe].
Qed.

Lemma sleep_eq (d : Q) (w : W) :
  Mowan.sleep_accepted d w = true ->
  Mowan.sleep d w = (Ok tt, Mowan.time_sleep d w, [Mowan.Slept d]).
Proof. intros H. unfold Mowan.sleep. rewrite H. reflexivity. Qed.

Lemma sleep_refused (d : Q) (w : W) :
  Mowan.sleep_accepted d w = false -> Mowan.sleep d w = (Raised, w, []).
Proof. intros H. unfold Mowan.sleep. rewrite H. reflexivity. Qed.

(** The body of the loop when the picked task is due. *)
Lemma body_due (st : Mowan.SchedState) (w : W) :
  Mowan.due_at (Mowan.pick st) st - fst (Mowan.time_time w) <= 0 ->
  scheduler_body st w =
  run_due (Mowan.pick st) st (snd (Mowan.time_time w)).
Proof.
  intros H. unfold Mowan.scheduler_body. rewrite (bind_ok _ _ _ (now_eq w)).
  apply Qle_bool_iff in H. rewrite H. simpl. symmetry. apply triple_eta.
Qed.

Lemma wait_short (task : Mowan.Task) (remaining : Q) (st : Mowan.SchedState)
      (w : W) :
  0 < remaining ->
  remaining <= inject_Z (Mowan.recheck_interval_of cfg task) ->
  (Mowan.recheck_interval_of cfg task <= Mowan.SLEEP_SAFE_SEC)%Z ->
  wait_for_due task remaining st w =
  (Ok st, Mowan.time_sleep (Qmax remaining 1) w, [Mowan.Slept (Qmax remaining 1)]).
Proof.
  intros Hpos Hle Hmax. unfold Mowan.wait_for_due.
  pose proof Hle as Hle'. apply Qle_bool_iff in Hle'. rewrite Hle'. simpl.
  assert (Hd : Mowan.sleep_accepted (Qmax remaining 1) w = true).
  { apply sleep_fits.
    - pose proof (Q.le_max_r remaining 1). lra.
    - assert (Hq : inject_Z (Mowan.recheck_interval_of cfg task)
                   <= inject_Z Mowan.SLEEP_SAFE_SEC).
      { rewrite <- Zle_Qle. exact Hmax. }
      apply Q.max_lub; [lra | vm_compute; discriminate]. }
  unfold bind, log, ret. rewrite (@sleep_eq _ _ Hd). reflexivity.
Qed.

(** The body of the loop when the picked task is not due and its recheck
    interval is not exceeded. *)
Lemma body_short_wait (st : Mowan.SchedState) (w : W) :
  let remaining := Mowan.due_at (Mowan.pick st) st - fst (Mowan.time_time w) in
  0 < remaining ->
  remaining <= inject_Z (Mowan.recheck_interval_of cfg (Mowan.pick st)) ->
  (Mowan.recheck_interval_of cfg (Mowan.pick st) <= Mowan.SLEEP_SAFE_SEC)%Z ->
  scheduler_body st w =
  (Ok st, Mowan.time_sleep (Qmax remaining 1) (snd (Mowan.time_time w)),
   [Mowan.Slept (Qmax remaining 1)]).
Proof.
  intros remaining Hpos Hle Hmax. unfold Mowan.scheduler_body.
  rewrite (bind_ok _ _ _ (now_eq w)). fold remaining.
  destruct (Qle_bool remaining 0) eqn:H0.
  { apply Qle_bool_iff in H0. lra. }
  rewrite (@wait_short _ _ st _ Hpos Hle Hmax). reflexivity.
Qed.

(** Sessions and probes do not sleep. *)

Local Abbreviation quiet := (all_events SchedSpec.no_short_sleep).

Lemma read_countdown_quiet (sel : string) :
  quiet (Mowan.read_countdown_at digit_value sel).
Proof.
  unfold Mowan.read_countdown_at. apply all_bind.
  - apply all_try. repeat all_events_step.
    destruct (Parser.parse_countdown_text digit_value (Some a0));
      repeat all_events_step.
  - intros [s|]; repeat all_events_step.
Qed.

Lemma normalize_wait_quiet (seconds : option Z) (reason : string) (fallback : Z) :
  quiet (Mowan._normalize_wait (W := W) seconds reason fallback).
Proof.
  unfold Mowan._normalize_wait.
  destruct seconds; repeat all_events_step;
    match goal with
    | |- all_events _ (if ?b then _ else _) => destruct b
    end; repeat all_events_step.
Qed.

Lemma fetch_countdown_quiet (reason : string) :
  quiet (Mowan.fetch_countdown_wait digit_value cfg reason).
Proof.
  unfold Mowan.fetch_countdown_wait, Mowan.read_countdown_seconds,
    Mowan.normalize_wait_seconds.
  repeat first [ apply read_countdown_quiet | apply normalize_wait_quiet
               | all_events_step ].
Qed.

Lemma fetch_brick_countdown_quiet (reason : string) :
  quiet (Mowan.fetch_brick_countdown_wait digit_value cfg reason).
Proof.
  unfold Mowan.fetch_brick_countdown_wait, Mowan.read_brick_countdown_seconds.
  repeat first [ apply read_countdown_quiet | apply normalize_wait_quiet
               | all_events_step ].
Qed.

Lemma run_due_quiet (task : Mowan.Task) (st : Mowan.SchedState) :
  quiet (run_due task st).
Proof.
  destruct task; unfold Mowan.run_due, Mowan.run_cleaning_session,
    Mowan.run_brick_session, Mowan.cleaning_session_page,
    Mowan.brick_session_page, Mowan.read_countdown_seconds,
    Mowan.read_brick_countdown_seconds, Mowan.normalize_wait_seconds, Mowan.now.
  - apply all_bind.
    + apply all_bind.
      * repeat first [ apply read_countdown_quiet | all_events_step ].
      * intros [n b]. destruct b; cbv beta iota;
          repeat first [ apply normalize_wait_quiet | all_events_step ].
    + intros [cw [b|]]; cbv beta iota; repeat all_events_step.
  - apply all_bind.
    + apply all_bind.
      * repeat first
          [ apply read_countdown_quiet | all_events_step
          | match goal with
            | |- all_events _ (if ?b then _ else _) => destruct b
            end ].
      * intros [n c]. destruct c; cbv beta iota;
          repeat first [ apply normalize_wait_quiet | all_events_step ].
    + intros [bw [c|]]; cbv beta iota; repeat all_events_step.
Qed.

Lemma sleep_quiet (d : Q) : 1 <= d -> quiet (Mowan.sleep (W := W) d).
Proof.
  intros Hd w. unfold Mowan.sleep. destruct (Mowan.sleep_accepted d w).
  - revert w. apply all_bind; [apply all_emit; exact Hd | intros; apply all_act].
  - constructor.
Qed.

Lemma rounds_quiet (n : nat) (st : Mowan.SchedState) (w : W) :
  (1 <= Mowan.STATUS_RECHECK_INTERVAL_SEC cfg)%Z ->
  (1 <= Mowan.BRICK_RECHECK_INTERVAL_SEC cfg)%Z ->
  SchedSpec.sleeps_at_least_1 (events (scheduler_rounds n st w)).
Proof.
  intros Hc Hb. revert st w.
  assert (Hbody : forall st, quiet (scheduler_body st)).
  { intros st. unfold Mowan.scheduler_body, Mowan.now.
    apply all_bind; [apply all_call_ok|]. intros t.
    destruct (Qle_bool (Mowan.due_at (Mowan.pick st) st - t) 0);
      [apply run_due_quiet|].
    unfold Mowan.wait_for_due, Mowan.now.
    assert (Hre : forall task, 1 <= inject_Z (Mowan.recheck_interval_of cfg task)).
    { intros task. change 1 with (inject_Z 1). rewrite <- Zle_Qle.
      destruct task; assumption. }
    destruct (negb _).
    - apply all_bind; [apply all_log | intros _].
      apply all_bind; [apply sleep_quiet; apply Hre | intros _].
      destruct (Mowan.pick st);
        repeat first [ apply fetch_countdown_quiet
                     | apply fetch_brick_countdown_quiet | all_events_step ].
    - apply all_bind; [apply all_log | intros _].
      apply all_bind; [apply sleep_quiet; apply Q.le_max_r | intros _].
      apply all_ret. }
  induction n as [|n IH]; intros st w.
  - constructor.
  - cbn [Mowan.scheduler_rounds]. apply all_bind; [apply Hbody | intros st'].
    intros w'. apply IH.
Qed.

(** X1.  With recheck intervals of a second or more, as the defaults 3600 and
    21600 are, no round of the loop sleeps for less than a second. *)
Lemma scheduler_sleeps_at_least_1 (n : nat) (st : Mowan.SchedState) (w : W) :
  (1 <= Mowan.STATUS_RECHECK_INTERVAL_SEC cfg)%Z ->
  (1 <= Mowan.BRICK_RECHECK_INTERVAL_SEC cfg)%Z ->
  SchedSpec.sleeps_at_least_1 (events (scheduler_rounds n st w)).
Proof. apply rounds_quiet. Qed.

(** The rounds of the loop up to the session of the task that is due
    first: none or one, a sleep until the task is due. *)
Lemma rounds_to_session (task : Mowan.Task) (st : Mowan.SchedState) (w : W) :
  SchedSpec.sleep_advances_clock ->
  Mowan.due_at task st < Mowan.due_at (SchedSpec.sibling task) st ->
  Mowan.due_at (SchedSpec.sibling task) st - fst (Mowan.time_time w)
  < inject_Z (Mowan.recheck_interval_of cfg task) ->
  (Mowan.recheck_interval_of cfg task <= Mowan.SLEEP_SAFE_SEC)%Z ->
  exists pre w1,
    ((pre = [] /\ w1 = snd (Mowan.time_time w))
     \/ (exists d,
           pre = [Mowan.Slept d] /\ 1 <= d
           /\ w1 = snd (Mowan.time_time
                          (Mowan.time_sleep d (snd (Mowan.time_time w))))))
    /\ scheduler_rounds (S (List.length pre)) st w
       = (result (run_due task st w1), world (run_due task st w1),
          pre ++ events (run_due task st w1)).
Proof.
  intros Hclock Hlt Hre Hmax.
  pose proof (pick_earlier task st Hlt) as Hpick.
  set (t0 := fst (Mowan.time_time w)) in *.
  set (remaining := Mowan.due_at task st - t0).
  assert (Hlast : forall st' w', scheduler_rounds 1 st' w' = scheduler_body st' w').
  { intros st' w'. cbn [Mowan.scheduler_rounds].
    unfold bind, ret. destruct (scheduler_body st' w') as [[[s|] w2] e2];
      [rewrite app_nil_r|]; reflexivity. }
  destruct (Qlt_le_dec 0 remaining) as [Hpos | Hdue].
  - (* not due yet: one sleep, then the session *)
    assert (Hle : remaining <= inject_Z (Mowan.recheck_interval_of cfg task)).
    { unfold remaining. lra. }
    pose proof (body_short_wait st w) as Hb. cbv zeta in Hb.
    rewrite Hpick in Hb. fold t0 in Hb. fold remaining in Hb.
    specialize (Hb Hpos Hle Hmax).
    set (d := Qmax remaining 1) in *.
    assert (Hd1 : 1 <= d) by apply Q.le_max_r.
    assert (Hdr : remaining <= d) by apply Q.le_max_l.
    set (w1 := Mowan.time_sleep d (snd (Mowan.time_time w))) in *.
    assert (Hnow : t0 + d <= fst (Mowan.time_time w1)).
    { apply Hclock. lra. }
    assert (Hdue : Mowan.due_at (Mowan.pick st) st - fst (Mowan.time_time w1) <= 0).
    { rewrite Hpick. unfold remaining in Hdr. lra. }
    pose proof (body_due st w1 Hdue) as Hb2. rewrite Hpick in Hb2.
    exists [Mowan.Slept d], (snd (Mowan.time_time w1)).
    split; [right; exists d; auto|].
    cbn [List.length]. change (scheduler_rounds 2 st w)
      with (bind (scheduler_body st) (fun st' => scheduler_rounds 1 st') w).
    rewrite (bind_ok _ _ _ Hb), Hlast, Hb2. reflexivity.
  - (* due: the session at once *)
    assert (Hdue' : Mowan.due_at (Mowan.pick st) st - fst (Mowan.time_time w) <= 0).
    { rewrite Hpick. exact Hdue. }
    pose proof (body_due st w Hdue') as Hb. rewrite Hpick in Hb.
    exists [], (snd (Mowan.time_time w)). split; [left; auto|].
    cbn [List.length app]. rewrite Hlast, Hb. apply triple_eta.
Qed.


End WithHost.
End MowanFacts.

(** ** The scheduler on the simulated page *)

Lemma normalize_wait_unknown_witness :
  Mowan.eta_in_range (fst (Mowan.datetime_now SimMowan.quiet_page))
    (Z.max 7200 Mowan.MIN_WAIT_AFTER_CHECK_SEC) = true
  /\ (Mowan.MIN_WAIT_AFTER_CHECK_SEC <= 7200)%Z
  /\ result (Mowan._normalize_wait None "initial" 7200 SimMowan.quiet_page)
     = Ok 7200%Z.
Proof.
  assert (Hd : Mowan.eta_in_range (fst (Mowan.datetime_now SimMowan.quiet_page))
                 (Z.max 7200 Mowan.MIN_WAIT_AFTER_CHECK_SEC) = true).
  { vm_compute. reflexivity. }
  assert (H : (Mowan.MIN_WAIT_AFTER_CHECK_SEC <= 7200)%Z).
  { unfold Mowan.MIN_WAIT_AFTER_CHECK_SEC. lia. }
  split; [exact Hd|]. split; [exact H|].
  exact (proj1 (proj1 (MowanFacts.normalize_wait_unknown "initial" 7200
                         SimMowan.quiet_page) Hd) H).
Defined.

Example normalize_wait_zero :
  result (Mowan._normalize_wait (Some 0%Z) "post-clean countdown" 7200
            SimMowan.quiet_page) = Ok 30%Z.
Proof. vm_compute. reflexivity. Qed.

Example normalize_wait_low_fallback :
  result (Mowan._normalize_wait None "post-clean countdown" 10
            SimMowan.quiet_page) = Ok 30%Z.
Proof. vm_compute. reflexivity. Qed.

(** At noon of 2025-11-04 a wait of 251640043199 seconds ends in the last
    second of 9999-12-31, and one of a second more is out of the range of
    [datetime]. *)
Example eta_last_second :
  Mowan.eta_in_range SimMowan.wall_clock_us 251640043199 = true
  /\ Mowan.eta_in_range SimMowan.wall_clock_us 251640043200 = false.
Proof. split; vm_compute; reflexivity. Qed.

(** A duration of 300000000000 seconds, which the page text
    [83333333 20 00] gives: the normalizer raises, where it was to return
    a wait of 30 seconds or more. *)
Lemma normalize_wait_raises_on_far_date :
  Parser.parse_countdown_text ascii_digit_value (Some (lit "83333333 20 00"))
  = Ok (Some 300000000000%Z)
  /\ result (Mowan._normalize_wait (Some 300000000000%Z) "post-clean countdown"
               7200 SimMowan.quiet_page) = Raised.
Proof. split; vm_compute; reflexivity. Qed.

(** A fallback of 10^12 seconds, above the floor: with no duration read
    the normalizer raises, where it was to return the fallback. *)
Lemma normalize_wait_raises_on_far_fallback :
  (Mowan.MIN_WAIT_AFTER_CHECK_SEC <= 1000000000000)%Z
  /\ result (Mowan._normalize_wait None "initial" 1000000000000
               SimMowan.quiet_page) = Raised.
Proof. split; [vm_compute; discriminate | vm_compute; reflexivity]. Qed.

Lemma sim_sleep_advances_clock :
  SchedSpec.sleep_advances_clock (W := SimMowan.World).
Proof. intros w d _. simpl. apply Qle_refl. Qed.

Lemma quiet_session_page :
  SchedSpec.session_page ascii_digit_value Mowan.Clean SimMowan.quiet_page
  = (Ok (Some 600%Z, Some 18000%Z),
     world (SchedSpec.session_page ascii_digit_value Mowan.Clean
              SimMowan.quiet_page),
     [Mowan.Session Mowan.Clean]).
Proof. vm_compute. reflexivity. Qed.

Lemma quiet_session :
  result (SchedSpec.session ascii_digit_value Mowan.default_config Mowan.Clean
            SimMowan.quiet_page) = Ok (600%Z, Some 18000%Z).
Proof. vm_compute. reflexivity. Qed.

Lemma run_due_sibling_witness :
  SchedSpec.session_page ascii_digit_value Mowan.Clean SimMowan.quiet_page
  = (Ok (Some 600%Z, Some 18000%Z),
     world (SchedSpec.session_page ascii_digit_value Mowan.Clean
              SimMowan.quiet_page),
     [Mowan.Session Mowan.Clean])
  /\ result (SchedSpec.session ascii_digit_value Mowan.default_config
               Mowan.Clean SimMowan.quiet_page) = Ok (600%Z, Some 18000%Z)
  /\ exists st' w',
       Mowan.run_due ascii_digit_value Mowan.default_config Mowan.Clean
         SimMowan.state0 SimMowan.quiet_page
       = (Ok st', w', [Mowan.Session Mowan.Clean])
       /\ Mowan.due_at (SchedSpec.sibling Mowan.Clean) st' =
          fst (Mowan.time_time
                 (snd (Mowan.time_time
                         (world (SchedSpec.session ascii_digit_value
                                   Mowan.default_config Mowan.Clean
                                   SimMowan.quiet_page)))))
          + inject_Z (Z.max 18000 Mowan.MIN_WAIT_AFTER_CHECK_SEC).
Proof.
  split; [exact quiet_session_page|]. split; [exact quiet_session|].
  exact (@MowanFacts.run_due_sibling ascii_digit_value Mowan.default_config
           _ _ Mowan.Clean SimMowan.state0 SimMowan.quiet_page _ _ _ _ _
           quiet_session_page quiet_session).
Defined.

(** The same step when the brick countdown is not on the page: the brick
    due time stays at 1200. *)
Example run_due_sibling_unknown :
  let page := SimMowan.world0 1000 [] (Some (lit "00:10:00")) None in
  option_map Mowan.next_brick_at
    (match result (Mowan.run_due ascii_digit_value Mowan.default_config
                     Mowan.Clean SimMowan.state0 page) with
     | Ok st' => Some st'
     | Raised => None
     end) = Some 1200.
Proof. vm_compute. reflexivity. Qed.

(** A sibling reading too far ahead for a date: the session, and with it
    the Run step, raises. *)
Example run_due_far_sibling :
  let page :=
    SimMowan.world0 1000 [] (Some (lit "00:10:00"))
      (Some (lit "83333333 20 00")) in
  result (Mowan.run_due ascii_digit_value Mowan.default_config Mowan.Clean
            SimMowan.state0 page) = Raised.
Proof. vm_compute. reflexivity. Qed.


(** The two rounds on the simulated page: a sleep of 100 seconds, then the
    cleaning session. *)
Example scheduler_two_rounds :
  events (Mowan.scheduler_rounds ascii_digit_value Mowan.default_config 2
            SimMowan.state0 SimMowan.quiet_page)
  = [Mowan.Slept (Qmax (1100 - 1000) 1); Mowan.Session Mowan.Clean].
Proof. vm_compute. reflexivity. Qed.


(** ** autoMowan.py: the drain of the drop list *)

Module DropsFacts.
Section WithHost.

Context {W : Type} {host : Mowan.Host W}.

Lemma clicks_app (a b : list Mowan.Event) :
  SchedSpec.clicks (a ++ b) = SchedSpec.clicks a ++ SchedSpec.clicks b.
Proof.
  induction a as [|e a IH]; simpl; [reflexivity|].
  destruct e; simpl; rewrite IH; reflexivity.
Qed.

Lemma pauses_app (a b : list Mowan.Event) :
  SchedSpec.pauses (a ++ b) = SchedSpec.pauses a ++ SchedSpec.pauses b.
Proof.
  induction a as [|e a IH]; simpl; [reflexivity|].
  destruct e; simpl; rewrite IH; reflexivity.
Qed.

(** One round returns, whatever the page does: it is the round of
    [SchedSpec.drop_round], with its events. *)
Lemma item_round (count : Z) (i : nat) (w : W) :
  Mowan.click_drops_item count i w
  = (Ok tt, snd (SchedSpec.drop_round w),
     SchedSpec.round_events (fst (SchedSpec.drop_round w))).
Proof.
  assert (Hs : forall w' : W, Mowan.sleep_accepted 1 w' = true).
  { intros w'. apply MowanFacts.sleep_fits; vm_compute; discriminate. }
  unfold Mowan.click_drops_item, Mowan.page_wait_for_timeout, Mowan.sleep,
    SchedSpec.drop_round, SchedSpec.round_events.
  unfold bind, try_, call, emit, act, log, ret.
  destruct (Mowan.first_inner_text Mowan.SEL_DROP_ITEMS w) as [r0 w0].
  cbn [fst snd].
  destruct (Mowan.first_scroll_into_view Mowan.SEL_DROP_ITEMS w0) as [r1 w1].
  cbn [fst snd].
  destruct (Mowan.first_click Mowan.SEL_DROP_ITEMS w1) as [[[]|] w2];
    rewrite ?Hs; reflexivity.
Qed.

Lemma rounds_eq (count : Z) (n i : nat) (w : W) :
  for_range_from i n (Mowan.click_drops_item count) w
  = (Ok tt, snd (SchedSpec.drop_rounds n w),
     flat_map SchedSpec.round_events (fst (SchedSpec.drop_rounds n w))).
Proof.
  revert i w. induction n as [|n IH]; intros i w.
  - reflexivity.
  - cbn [for_range_from SchedSpec.drop_rounds].
    rewrite (bind_ok _ _ _ (item_round count i w)), IH.
    rewrite result_mk, world_mk, events_mk.
    destruct (SchedSpec.drop_round w) as [ok w1]. cbn [fst snd].
    destruct (SchedSpec.drop_rounds n w1) as [oks w2]. cbn [fst snd flat_map].
    reflexivity.
Qed.

Lemma drop_rounds_length (n : nat) (w : W) :
  List.length (fst (SchedSpec.drop_rounds n w)) = n.
Proof.
  revert w. induction n as [|n IH]; intros w; [reflexivity|].
  cbn [SchedSpec.drop_rounds]. destruct (SchedSpec.drop_round w) as [ok w1].
  specialize (IH w1). destruct (SchedSpec.drop_rounds n w1) as [oks w2].
  cbn [fst List.length] in *. rewrite IH. reflexivity.
Qed.

(** C8, as the code has it.  [click_drops] waits for the network, pauses
    200 ms and reads the number [n] of drops once, 0 when the reading
    fails.  It then makes exactly [n] rounds and returns.  Each round
    reads the text of whatever drop is first at that moment, scrolls to it
    and clicks at it once; when the click went through the round sleeps a
    second; and whether it did or not the round pauses 200 ms and the next
    round follows.  The events are the settling pause followed by those of
    the rounds, and the page is left as the rounds leave it.  The list is
    not read again: nothing is said of the drops left. *)
Theorem click_drops_rounds (w : W) :
  let n := Z.to_nat (SchedSpec.count_read w) in
  let rounds := SchedSpec.drop_rounds n (SchedSpec.count_world w) in
  Mowan.click_drops w
  = (Ok tt, snd rounds,
     Mowan.Waited 200 :: flat_map SchedSpec.round_events (fst rounds))
  /\ List.length (fst rounds) = n.
Proof.
  intros n rounds. split; [|apply drop_rounds_length].
  subst rounds n.
  unfold Mowan.click_drops, SchedSpec.count_read, SchedSpec.count_world,
    Mowan.page_wait_for_timeout.
  unfold bind at 1 2 3 4. unfold try_, call, emit, act, ret.
  destruct (Mowan.wait_for_load_state w) as [r0 w0]. cbn [fst snd].
  destruct (Mowan.locator_count Mowan.SEL_DROP_ITEMS
              (Mowan.wait_for_timeout 200 w0)) as [[c|] w3]; cbn [fst snd].
  - destruct (c <=? 0)%Z eqn:Hc.
    + apply Z.leb_le in Hc.
      assert (Hn : Z.to_nat c = 0%nat) by lia. rewrite Hn.
      destruct r0; reflexivity.
    + unfold for_range. rewrite rounds_eq.
      destruct r0; reflexivity.
  - destruct r0; reflexivity.
Qed.

End WithHost.

(** A drop whose click times out stays first: both rounds aim at it, the
    second drop is never clicked at, and the list is left as it was. *)
Lemma click_drops_leaves_drops :
  result (Mowan.click_drops SimMowan.stuck_page) = Ok tt
  /\ SchedSpec.clicks (events (Mowan.click_drops SimMowan.stuck_page))
     = [false; false]
  /\ SimMowan.targeted (world (Mowan.click_drops SimMowan.stuck_page))
     = [1; 1]%nat
  /\ List.map SimMowan.label
       (SimMowan.drops (world (Mowan.click_drops SimMowan.stuck_page)))
     = [1; 2]%nat.
Proof. vm_compute. repeat split. Qed.

(** The events of a drain of one drop: the settling pause, then the click,
    the sleep after it and the pause of the round. *)
Example click_drops_events :
  events (Mowan.click_drops
            (SimMowan.world0 0
               [ {| SimMowan.label := 1; SimMowan.clickable := true |} ]
               None None))
  = [ Mowan.Waited 200; Mowan.ClickFirst true; Mowan.Slept 1; Mowan.Waited 200 ].
Proof. vm_compute. reflexivity. Qed.

(** When every click goes through and removes its drop, the rounds do
    empty the list. *)
Example click_drops_drains :
  let page := SimMowan.world0 0
                [ {| SimMowan.label := 1; SimMowan.clickable := true |};
                  {| SimMowan.label := 2; SimMowan.clickable := true |} ]
                None None in
  SimMowan.targeted (world (Mowan.click_drops page)) = [1; 2]%nat
  /\ SimMowan.drops (world (Mowan.click_drops page)) = [].
Proof. vm_compute. split; reflexivity. Qed.

End DropsFacts.

(** ** Rounding to binary64: the facts used of it *)

Module FloatFacts.

Lemma rne_lower (n d : Z) : (0 < d)%Z -> (n / d <= Float64.rne n d)%Z.
Proof.
  intros Hd. unfold Float64.rne.
  destruct (2 * (n mod d) <? d)%Z; [lia|].
  destruct (d <? 2 * (n mod d))%Z; [lia|].
  destruct (Z.even (n / d)); lia.
Qed.

(** The rounded quotient exceeds the quotient by a half at most. *)
Lemma rne_upper (n d : Z) :
  (0 < d)%Z -> (2 * d * Float64.rne n d <= 2 * n + d)%Z.
Proof.
  intros Hd. unfold Float64.rne.
  pose proof (Z.div_mod n d ltac:(lia)) as Hn.
  pose proof (Z.mod_pos_bound n d Hd) as Hr.
  destruct (2 * (n mod d) <? d)%Z eqn:H1; [nia|].
  apply Z.ltb_ge in H1.
  destruct (d <? 2 * (n mod d))%Z eqn:H2.
  - apply Z.ltb_lt in H2. nia.
  - apply Z.ltb_ge in H2. destruct (Z.even (n / d)); nia.
Qed.

Lemma floor_log2_range (n d : Z) :
  (Z.log2 n - Z.log2 d - 1 <= Float64.floor_log2 n d <= Z.log2 n - Z.log2 d)%Z.
Proof.
  unfold Float64.floor_log2.
  destruct (Float64.scaled n d (Z.log2 n - Z.log2 d)) as [a b].
  destruct (b <=? a)%Z; lia.
Qed.

(** The wait in seconds is at least 10 whenever the delay is at least
    10000 ms, however the quotient is rounded. *)
Lemma wait_sec_at_least_10 (n v : Z) :
  (10000 <= n)%Z -> Plant.wait_sec_of n = Ok v -> (10 <= v)%Z.
Proof.
  intros Hn. unfold Plant.wait_sec_of, Float64.round.
  cbn [Qnum Qden]. destruct n as [|p|p]; try lia.
  unfold Float64.round_pos.
  pose proof (floor_log2_range (Z.pos p) 1000) as Hfl.
  change (Z.log2 1000) with 9%Z in Hfl.
  set (fl := Float64.floor_log2 (Z.pos p) 1000) in *.
  set (e := Z.max (fl - 52) (-1074)).
  unfold Float64.scaled.
  destruct (0 <=? e)%Z eqn:He.
  - apply Z.leb_le in He.
    set (m := Float64.rne (Z.pos p) (1000 * 2 ^ e)).
    assert (Hpow : (0 < 2 ^ e)%Z) by (apply Z.pow_pos_nonneg; lia).
    assert (Hm : (10 <= m)%Z).
    { assert (Hlog : (61 + e <= Z.log2 (Z.pos p))%Z) by lia.
      assert (Hp : (2 ^ (61 + e) <= Z.pos p)%Z).
      { transitivity (2 ^ Z.log2 (Z.pos p))%Z.
        - apply Z.pow_le_mono_r; lia.
        - apply Z.log2_spec. lia. }
      rewrite Z.pow_add_r in Hp by lia.
      transitivity (Z.pos p / (1000 * 2 ^ e))%Z;
        [|apply rne_lower; lia].
      apply Z.div_le_lower_bound; [lia|].
      assert (H61 : (2 ^ 61 = 2305843009213693952)%Z) by reflexivity.
      rewrite H61 in Hp. nia. }
    destruct (2 ^ 1024 <=? m * 2 ^ e)%Z; [discriminate|].
    intros H. injection H as <-.
    unfold int_of_Q, inject_Z. cbn [Qnum Qden].
    rewrite Z.quot_1_r. nia.
  - apply Z.leb_gt in He.
    set (P := (2 ^ (- e))%Z).
    assert (HP : (0 < P)%Z) by (apply Z.pow_pos_nonneg; lia).
    set (m := Float64.rne (Z.pos p * P) 1000).
    assert (Hm : (10 * P <= m)%Z).
    { transitivity (Z.pos p * P / 1000)%Z; [|apply rne_lower; lia].
      apply Z.div_le_lower_bound; nia. }
    intros H. injection H as <-.
    unfold int_of_Q. cbn [Qnum Qden].
    rewrite Z2Pos.id by exact HP.
    rewrite Z.quot_div_nonneg by lia.
    apply Z.div_le_lower_bound; lia.
Qed.

(** Below 2^53 ms the quotient by 1000 lies more than half a unit in the
    last place under the next whole number: the rounded quotient has the
    same whole part. *)
Lemma wait_sec_exact (n : Z) :
  (10000 <= n < 2 ^ 53)%Z -> Plant.wait_sec_of n = Ok (n / 1000)%Z.
Proof.
  intros [Hn Hlt]. unfold Plant.wait_sec_of, Float64.round.
  cbn [Qnum Qden]. destruct n as [|p|p]; try lia.
  unfold Float64.round_pos.
  pose proof (floor_log2_range (Z.pos p) 1000) as Hfl.
  change (Z.log2 1000) with 9%Z in Hfl.
  assert (Hlo : (13 <= Z.log2 (Z.pos p))%Z).
  { change 13%Z with (Z.log2 8192). apply Z.log2_le_mono. lia. }
  assert (Hhi : (Z.log2 (Z.pos p) < 53)%Z).
  { apply Z.log2_lt_pow2; lia. }
  set (fl := Float64.floor_log2 (Z.pos p) 1000) in *.
  assert (He : Z.max (fl - 52) (-1074) = (fl - 52)%Z) by lia.
  rewrite He. unfold Float64.scaled.
  assert (Hneg : (0 <=? fl - 52)%Z = false) by (apply Z.leb_gt; lia).
  rewrite Hneg.
  set (P := (2 ^ (- (fl - 52)))%Z).
  assert (HP : (512 <= P)%Z).
  { change 512%Z with (2 ^ 9)%Z. apply Z.pow_le_mono_r; lia. }
  set (m := Float64.rne (Z.pos p * P) 1000).
  f_equal. unfold int_of_Q. cbn [Qnum Qden].
  rewrite Z2Pos.id by lia.
  pose proof (@rne_lower (Z.pos p * P) 1000 ltac:(lia)) as Hl.
  pose proof (@rne_upper (Z.pos p * P) 1000 ltac:(lia)) as Hu.
  fold m in Hl, Hu.
  pose proof (Z.div_mod (Z.pos p) 1000 ltac:(lia)) as Hd.
  pose proof (Z.mod_pos_bound (Z.pos p) 1000 ltac:(lia)) as Hr.
  set (k := (Z.pos p / 1000)%Z) in *.
  set (r := (Z.pos p mod 1000)%Z) in *.
  assert (Hk : (0 <= k)%Z) by (apply Z.div_pos; lia).
  assert (Hm0 : (k * P <= m)%Z).
  { transitivity (Z.pos p * P / 1000)%Z; [|exact Hl].
    apply Z.div_le_lower_bound; nia. }
  rewrite Z.quot_div_nonneg by nia.
  symmetry. apply Z.div_unique with (r := (m - k * P)%Z); [|ring].
  left. split; [lia|]. nia.
Qed.

(** An [int] below 2^53 is a double. *)
Lemma float_of_small (n : Z) :
  (0 < n < 2 ^ 53)%Z -> Float64.round (inject_Z n) <> None.
Proof.
  intros [H0 Hlt]. unfold Float64.round, inject_Z. cbn [Qnum Qden].
  destruct n as [|p|p]; try lia.
  unfold Float64.round_pos.
  destruct (Float64.scaled (Z.pos p) 1
              (Z.max (Float64.floor_log2 (Z.pos p) 1 - 52) (-1074)))
    as [a b] eqn:Hs.
  destruct (0 <=? Z.max (Float64.floor_log2 (Z.pos p) 1 - 52) (-1074))%Z
    eqn:He; [|discriminate].
  apply Z.leb_le in He.
  pose proof (floor_log2_range (Z.pos p) 1) as Hfl.
  change (Z.log2 1) with 0%Z in Hfl.
  assert (Hhi : (Z.log2 (Z.pos p) < 53)%Z).
  { apply Z.log2_lt_pow2; lia. }
  assert (Hz : Z.max (Float64.floor_log2 (Z.pos p) 1 - 52) (-1074) = 0%Z)
    by lia.
  rewrite Hz in *. unfold Float64.scaled in Hs. cbn [Z.leb Z.compare] in Hs.
  injection Hs as <- <-. change (1 * 2 ^ 0)%Z with 1%Z.
  assert (Hm : Float64.rne (Z.pos p) 1 = Z.pos p).
  { unfold Float64.rne. rewrite Z.mod_1_r, Z.div_1_r. reflexivity. }
  rewrite Hm. change (2 ^ 0)%Z with 1%Z. rewrite Z.mul_1_r.
  assert (Hbig : (2 ^ 1024 <=? Z.pos p)%Z = false).
  { apply Z.leb_gt. transitivity (2 ^ 53)%Z; [exact Hlt|].
    apply Z.pow_lt_mono_r; lia. }
  rewrite Hbig. discriminate.
Qed.

(** The doubles nearest to some products and quotients. *)

Example now_ms_rounded_up :
  Plant.now_ms_of (7390363648004194 # 4194304) = Ok 1762000000001%Z
  /\ int_of_Q ((7390363648004194 # 4194304) * 1000) = 1762000000000%Z.
Proof. split; vm_compute; reflexivity. Qed.

Example wait_sec_rounded_to_even :
  Plant.wait_sec_of (2 ^ 54 * 1000 + 1000) = Ok (2 ^ 54)%Z.
Proof. vm_compute. reflexivity. Qed.

Example round_third :
  Float64.round (1 # 3) = Some (6004799503160661 # 18014398509481984).
Proof. vm_compute. reflexivity. Qed.

Example round_tenth :
  Float64.round (1 # 10) = Some (7205759403792794 # 72057594037927936).
Proof. vm_compute. reflexivity. Qed.

Example round_overflow :
  Float64.round (inject_Z (10 ^ 400)) = None.
Proof. vm_compute. reflexivity. Qed.

End FloatFacts.

(** ** autoPlant.py: the harvest *)

Module PlantFacts.
Section WithHost.

Variable py_int : text -> Res Z.
Context {W : Type} {host : Plant.Host W}.

Local Abbreviation ready := (PlantSpec.ready py_int).
Local Abbreviation is_mature := (Plant.is_mature py_int).
Local Abbreviation collect_mature := (Plant.collect_mature py_int).
Local Abbreviation harvest_mature_plots := (Plant.harvest_mature_plots py_int).

Lemma clicked_app (a b : list Plant.Event) :
  PlantSpec.clicked (a ++ b) = PlantSpec.clicked a ++ PlantSpec.clicked b.
Proof.
  induction a as [|e a IH]; simpl; [reflexivity|].
  destruct e; simpl; rewrite IH; reflexivity.
Qed.

Section Shown.

Variables (w : W) (entries : list PlantSpec.Entry) (t : Q).
Hypothesis Hshows : PlantSpec.shows w entries t.

Lemma is_mature_eq (i : nat) (e : PlantSpec.Entry) :
  nth_error entries i = Some e ->
  is_mature i w = (Ok (ready (int_of_Q t) e), w, []).
Proof.
  intros He. destruct Hshows as (_ & Htime & Hattr).
  destruct (Hattr i e He) as (Hh & _ & _).
  unfold Plant.is_mature, PlantSpec.ready, bind, try_, call, call_ok, ret, raise.
  rewrite Hh. destruct (PlantSpec.harvest_time e) as [[|c s]|]; try reflexivity.
  destruct (py_int (c :: s)) as [v|]; [|reflexivity].
  rewrite Htime. reflexivity.
Qed.

Lemma plot_key_selector_eq (i : nat) (e : PlantSpec.Entry) :
  nth_error entries i = Some e ->
  Plant.plot_key_selector i w = (Ok (PlantSpec.selector_of e), w, []).
Proof.
  intros He. destruct Hshows as (_ & _ & Hattr).
  destruct (Hattr i e He) as (_ & Hl & Hp).
  unfold Plant.plot_key_selector, bind, call, ret. rewrite Hl, Hp. reflexivity.
Qed.

Lemma collect_mature_eq (rest : list PlantSpec.Entry) (i : nat)
      (acc : list text) :
  (forall j e, nth_error rest j = Some e -> nth_error entries (i + j) = Some e) ->
  collect_mature i (List.length rest) acc w =
  (Ok (acc ++ List.map PlantSpec.selector_of
                (List.filter (ready (int_of_Q t)) rest)), w, []).
Proof.
  revert i acc. induction rest as [|e rest IH]; intros i acc Hnth.
  - simpl. unfold ret. rewrite app_nil_r. reflexivity.
  - assert (He : nth_error entries i = Some e).
    { rewrite <- (Nat.add_0_r i). apply Hnth. reflexivity. }
    assert (Hrest : forall j e', nth_error rest j = Some e' ->
                                 nth_error entries (S i + j) = Some e').
    { intros j e' H. rewrite Nat.add_succ_comm. apply Hnth. exact H. }
    cbn [List.length Plant.collect_mature List.filter].
    rewrite (bind_ok _ _ _ (is_mature_eq i He)).
    destruct (ready (int_of_Q t) e).
    + rewrite (bind_ok _ _ _ (plot_key_selector_eq i He)).
      rewrite (IH (S i) _ Hrest). cbn [List.map].
      rewrite result_mk, world_mk, events_mk, <- app_assoc. reflexivity.
    + rewrite (IH (S i) _ Hrest). reflexivity.
Qed.

End Shown.

(** Every selector is clicked at, in order, whatever the clicks do. *)
Lemma click_selectors_eq (sels : list text) (w : W) :
  Plant.click_selectors sels w
  = (Ok tt, snd (PlantSpec.click_all sels w),
     PlantSpec.click_events sels (fst (PlantSpec.click_all sels w))).
Proof.
  revert w. induction sels as [|sel sels IH]; intros w.
  - reflexivity.
  - cbn [Plant.click_selectors PlantSpec.click_all].
    unfold bind, try_, call, emit, act, log, ret.
    destruct (Plant.locator_click sel w) as [[[]|] w1];
      rewrite (IH (Plant.wait_for_timeout 200 w1));
      destruct (PlantSpec.click_all sels (Plant.wait_for_timeout 200 w1))
        as [oks w2]; reflexivity.
Qed.

Lemma click_all_length (sels : list text) (w : W) :
  List.length (fst (PlantSpec.click_all sels w)) = List.length sels.
Proof.
  revert w. induction sels as [|sel sels IH]; intros w; [reflexivity|].
  cbn [PlantSpec.click_all]. destruct (Plant.locator_click sel w) as [r w1].
  specialize (IH (Plant.wait_for_timeout 200 w1)).
  destruct (PlantSpec.click_all sels (Plant.wait_for_timeout 200 w1))
    as [oks w2].
  cbn [fst List.length] in *. rewrite IH. reflexivity.
Qed.

Lemma clicked_click_events (sels : list text) (oks : list bool) :
  List.length oks = List.length sels ->
  PlantSpec.clicked (PlantSpec.click_events sels oks) = sels.
Proof.
  revert oks. induction sels as [|sel sels IH]; intros [|ok oks] H;
    try discriminate H; [reflexivity|].
  cbn [PlantSpec.click_events PlantSpec.clicked]. rewrite IH; [reflexivity|].
  injection H as H. exact H.
Qed.


(** For a time that is not negative, "at or before the whole second" and
    "at or before the time" are the same for a whole number. *)
Lemma at_or_before_now (v : Z) (t : Q) :
  0 <= t -> ((v <=? int_of_Q t)%Z = true <-> inject_Z v <= t).
Proof.
  destruct t as [n d]. unfold Qle, int_of_Q, inject_Z. simpl.
  intros Hn. rewrite Z.mul_1_r in Hn.
  rewrite Z.quot_div_nonneg by lia. rewrite Z.leb_le, Z.mul_1_r.
  split; intros H.
  - pose proof (Z.mul_div_le n (Z.pos d) ltac:(lia)). nia.
  - apply Z.div_le_lower_bound; lia.
Qed.

(** ** autoPlant.py: the next wake-up *)

Lemma min_or_zero_spec (future : list Z) :
  future <> [] ->
  In (Plant.min_or_zero future) future
  /\ Forall (fun x => (Plant.min_or_zero future <= x)%Z) future.
Proof.
  destruct future as [|a rest]; [contradiction|]. intros _. simpl.
  revert a. induction rest as [|b rest IH]; intros a; simpl.
  - split; [left; reflexivity | repeat constructor; lia].
  - destruct (IH (Z.min a b)) as [Hin Hall].
    inversion Hall as [|? ? Hm Hrest]; subst. split.
    + destruct Hin as [Heq | Hin]; [|right; right; exact Hin].
      destruct (Z.min_spec a b) as [[_ Hab] | [_ Hab]];
        [left | right; left];
        (transitivity (Z.min a b); [symmetry; exact Hab | exact Heq]).
    + constructor; [lia|]. constructor; [lia | exact Hrest].
Qed.

(** [get_next_harvest_ts] returns: the earliest of the harvest times
    strictly after the whole second [now], or 0 when there is none or the
    page could not be read. *)
Lemma get_next_harvest_ts_eq (w : W) :
  let now := int_of_Q (fst (Plant.time_time w)) in
  let w1 := snd (Plant.time_time w) in
  let times := match fst (Plant.eval_harvest_times w1) with
               | Ok ts => ts
               | Raised => []
               end in
  Plant.get_next_harvest_ts w =
  (Ok (Plant.min_or_zero (List.filter (fun x => (x >? now)%Z) times)),
   snd (Plant.eval_harvest_times w1), []).
Proof.
  unfold Plant.get_next_harvest_ts, bind, call_ok, try_, call, log, ret.
  destruct (Plant.time_time w) as [t w1]. cbn [fst snd].
  destruct (Plant.eval_harvest_times w1) as [[ts|] w2]; reflexivity.
Qed.

(** With no harvest time after [now] on the page, the result is 0. *)
Lemma get_next_harvest_ts_none (w : W) (times : list Z) :
  fst (Plant.eval_harvest_times (snd (Plant.time_time w))) = Ok times ->
  Forall (fun x => (x <= int_of_Q (fst (Plant.time_time w)))%Z) times ->
  result (Plant.get_next_harvest_ts w) = Ok 0%Z.
Proof.
  intros Ht Hall. rewrite get_next_harvest_ts_eq, result_mk, Ht.
  assert (Hnil : List.filter
                   (fun x => (x >? int_of_Q (fst (Plant.time_time w)))%Z) times
                 = []).
  { clear Ht. induction Hall as [|x l Hx _ IH]; [reflexivity|].
    simpl. rewrite IH.
    assert (Hgt : (x >? int_of_Q (fst (Plant.time_time w)))%Z = false).
    { rewrite Z.gtb_ltb. apply Z.ltb_ge. exact Hx. }
    rewrite Hgt. reflexivity. }
  rewrite Hnil. reflexivity.
Qed.

Lemma delay_at_least_min (next_ts now_ms : Z) :
  (10000 <= Plant.delay_ms_of next_ts now_ms)%Z.
Proof.
  unfold Plant.delay_ms_of, Plant.MIN_WAKE_INTERVAL_SEC,
    Plant.FALLBACK_INTERVAL_SEC.
  destruct (negb (next_ts =? 0)%Z && (next_ts * 1000 >? now_ms)%Z); lia.
Qed.

Lemma wait_future (next_ts now_ms : Z) :
  next_ts <> 0%Z -> (now_ms < next_ts * 1000)%Z ->
  (Plant.delay_ms_of next_ts now_ms / 1000)%Z
  = Z.max (next_ts - PlantSpec.seconds_up now_ms + 5) 10.
Proof.
  intros Hnz Hlt. unfold Plant.delay_ms_of.
  assert (H0 : (next_ts =? 0)%Z = false) by (apply Z.eqb_neq; exact Hnz).
  assert (H1 : (next_ts * 1000 >? now_ms)%Z = true) by (apply Z.gtb_lt; exact Hlt).
  rewrite H0, H1. cbn [negb andb].
  unfold Plant.SAFETY_BUFFER_SEC, Plant.MIN_WAKE_INTERVAL_SEC, PlantSpec.seconds_up.
  replace (next_ts * 1000 - now_ms - -5 * 1000)%Z
    with ((next_ts + 5) * 1000 + - now_ms)%Z by ring.
  assert (Hdiv : (((next_ts + 5) * 1000 + - now_ms) / 1000
                  = next_ts + 5 + - now_ms / 1000)%Z).
  { apply Z.div_add_l. lia. }
  destruct (Z.max_spec ((next_ts + 5) * 1000 + - now_ms) (10 * 1000))
    as [[Hc Hm] | [Hc Hm]]; rewrite Hm.
  - assert ((((next_ts + 5) * 1000 + - now_ms) / 1000 <= 10 * 1000 / 1000)%Z)
      by (apply Z.div_le_mono; lia).
    change (10 * 1000 / 1000)%Z with 10%Z in *. lia.
  - assert ((10 * 1000 / 1000 <= ((next_ts + 5) * 1000 + - now_ms) / 1000)%Z)
      by (apply Z.div_le_mono; lia).
    change (10 * 1000 / 1000)%Z with 10%Z in *. lia.
Qed.

Lemma wait_fallback (next_ts now_ms : Z) :
  next_ts = 0%Z \/ (next_ts * 1000 <= now_ms)%Z ->
  (Plant.delay_ms_of next_ts now_ms / 1000)%Z = Plant.FALLBACK_INTERVAL_SEC.
Proof.
  intros H. unfold Plant.delay_ms_of.
  assert (Hc : (negb (next_ts =? 0) && (next_ts * 1000 >? now_ms))%Z = false).
  { destruct H as [-> | H]; [reflexivity|].
    apply andb_false_iff. right. rewrite Z.gtb_ltb. apply Z.ltb_ge. exact H. }
  rewrite Hc. reflexivity.
Qed.

Lemma seconds_up_whole (now : Z) : PlantSpec.seconds_up (now * 1000) = now.
Proof.
  unfold PlantSpec.seconds_up.
  replace (- (now * 1000))%Z with ((- now) * 1000)%Z by ring.
  rewrite Z.div_mul by lia. lia.
Qed.

(** [run_once] after its page visit: the clock is read twice; the first
    reading gives [now_ms], and the run raises when that, or the delay as
    a float, is beyond the doubles. *)
Lemma run_once_eq (w w1 : W) (harvested planted next_ts : Z)
      (ev : list Plant.Event) :
  Plant.run_once_page py_int w = (Ok (harvested, planted, next_ts), w1, ev) ->
  Plant.run_once py_int w =
  match Plant.now_ms_of (fst (Plant.time_time w1)) with
  | Raised => (Raised, snd (Plant.time_time w1), ev)
  | Ok now_ms =>
      let w3 := snd (Plant.time_time (snd (Plant.time_time w1))) in
      match Float64.round (inject_Z (Plant.delay_ms_of next_ts now_ms)) with
      | None => (Raised, w3, ev)
      | Some _ => (Plant.wait_sec_of (Plant.delay_ms_of next_ts now_ms), w3, ev)
      end
  end.
Proof.
  intros H. unfold Plant.run_once. rewrite (bind_ok _ _ _ H).
  cbv iota. unfold bind, call_ok, log, ret, raise.
  destruct (Plant.time_time w1) as [t w2]. cbn [fst snd].
  destruct (Plant.now_ms_of t) as [now_ms|];
    [|cbn [result world events fst snd]; rewrite ?app_nil_r; reflexivity].
  destruct (Plant.time_time w2) as [t' w3]. cbn [fst snd].
  destruct (Float64.round (inject_Z (Plant.delay_ms_of next_ts now_ms)));
    [|cbn [result world events fst snd]; rewrite ?app_nil_r; reflexivity].
  destruct (Plant.wait_sec_of (Plant.delay_ms_of next_ts now_ms));
    cbn [result world events fst snd app]; rewrite ?app_nil_r; reflexivity.
Qed.

(** A wait that [run_once] returns is of 10 seconds or more. *)
Lemma run_once_ok_at_least_10 (w : W) (wait : Z) :
  result (Plant.run_once py_int w) = Ok wait -> (10 <= wait)%Z.
Proof.
  destruct (Plant.run_once_page py_int w) as [[[[[h p] next_ts]|] w1] ev] eqn:Hp.
  - rewrite (@run_once_eq w _ _ _ _ _ Hp).
    destruct (Plant.now_ms_of (fst (Plant.time_time w1))) as [now_ms|];
      [|discriminate].
    cbv zeta.
    destruct (Float64.round (inject_Z (Plant.delay_ms_of next_ts now_ms)));
      [|discriminate].
    rewrite result_mk. apply FloatFacts.wait_sec_at_least_10.
    apply delay_at_least_min.
  - unfold Plant.run_once. rewrite (bind_raised _ _ _ Hp). discriminate.
Qed.

(** With [now_ms] read and a delay below 2^53 ms, [run_once] returns the
    whole seconds of the delay. *)
Lemma run_once_small (w w1 : W) (harvested planted next_ts now_ms : Z)
      (ev : list Plant.Event) :
  Plant.run_once_page py_int w = (Ok (harvested, planted, next_ts), w1, ev) ->
  Plant.now_ms_of (fst (Plant.time_time w1)) = Ok now_ms ->
  (Plant.delay_ms_of next_ts now_ms < 2 ^ 53)%Z ->
  result (Plant.run_once py_int w)
  = Ok (Plant.delay_ms_of next_ts now_ms / 1000)%Z.
Proof.
  intros H Hnow Hlt. rewrite (@run_once_eq w _ _ _ _ _ H), Hnow. cbv zeta.
  pose proof (delay_at_least_min next_ts now_ms) as Hmin.
  destruct (Float64.round (inject_Z (Plant.delay_ms_of next_ts now_ms))) eqn:Hf.
  - rewrite result_mk. apply FloatFacts.wait_sec_exact. lia.
  - exfalso. revert Hf. apply FloatFacts.float_of_small. lia.
Qed.

(** C10, as the code has it.  Let the page visit of [run_once] complete
    with the next harvest time [next_ts], let [int(time.time() * 1000)],
    the product rounded to a double, be [now_ms], and let the delay be
    below 2^53 ms.  Then [run_once] returns a wait in whole seconds: if
    [next_ts] is still ahead, the wait is [max (next_ts - now + 5) 10],
    with [now] the milliseconds [now_ms] in seconds rounded up, so the
    negative buffer adds 5 seconds after the harvest time; if there is no
    harvest time ahead, the wait is 300. *)
Theorem run_once_wait (w w1 : W) (harvested planted next_ts now_ms : Z)
        (ev : list Plant.Event) :
  Plant.run_once_page py_int w = (Ok (harvested, planted, next_ts), w1, ev) ->
  Plant.now_ms_of (fst (Plant.time_time w1)) = Ok now_ms ->
  (Plant.delay_ms_of next_ts now_ms < 2 ^ 53)%Z ->
  exists wait,
    result (Plant.run_once py_int w) = Ok wait
    /\ (next_ts <> 0%Z -> (now_ms < next_ts * 1000)%Z ->
        wait = Z.max (next_ts - PlantSpec.seconds_up now_ms + 5) 10)
    /\ (forall now, now_ms = (now * 1000)%Z ->
        next_ts <> 0%Z -> (now < next_ts)%Z ->
        wait = Z.max (next_ts - now + 5) 10)
    /\ (next_ts = 0%Z \/ (next_ts * 1000 <= now_ms)%Z -> wait = 300%Z).
Proof.
  intros H Hnow Hlt.
  exists (Plant.delay_ms_of next_ts now_ms / 1000)%Z.
  split; [exact (@run_once_small w _ _ _ _ _ _ H Hnow Hlt)|]. split; [|split].
  - apply wait_future.
  - intros now Hn Hnz Hl. rewrite Hn.
    rewrite wait_future by lia. rewrite seconds_up_whole. reflexivity.
  - apply wait_fallback.
Qed.

End WithHost.
End PlantFacts.

(** ** The farm executors on the simulated page *)

Lemma sim_farm_shows (w : SimPlant.World) :
  PlantSpec.shows w (SimPlant.plots w) (SimPlant.clock w).
Proof.
  split; [reflexivity|]. split; [reflexivity|].
  intros i e He. simpl. rewrite He. repeat split.
Qed.


(** The two ready plots are clicked at, though every click fails, and the
    count 2 is returned. *)
Example harvest_example :
  PlantSpec.clicked (events (Plant.harvest_mature_plots ascii_int SimPlant.farm0))
  = [ PlantSpec.selector_of (SimPlant.plot_of "900" "1" "1");
      PlantSpec.selector_of (SimPlant.plot_of "1000" "1" "4") ]
  /\ result (Plant.harvest_mature_plots ascii_int SimPlant.farm0) = Ok 2%Z.
Proof. vm_compute. split; reflexivity. Qed.

Lemma farm0_page :
  Plant.run_once_page ascii_int SimPlant.farm0
  = (Ok (2, 0, 2000)%Z,
     world (Plant.run_once_page ascii_int SimPlant.farm0),
     events (Plant.run_once_page ascii_int SimPlant.farm0)).
Proof. vm_compute. reflexivity. Qed.

Lemma run_once_wait_witness :
  Plant.run_once_page ascii_int SimPlant.farm0
  = (Ok (2, 0, 2000)%Z,
     world (Plant.run_once_page ascii_int SimPlant.farm0),
     events (Plant.run_once_page ascii_int SimPlant.farm0))
  /\ Plant.now_ms_of
       (fst (Plant.time_time
               (world (Plant.run_once_page ascii_int SimPlant.farm0))))
     = Ok 1000500%Z
  /\ (Plant.delay_ms_of 2000 1000500 < 2 ^ 53)%Z
  /\ exists wait,
       result (Plant.run_once ascii_int SimPlant.farm0) = Ok wait
       /\ wait = 1004%Z.
Proof.
  assert (Hnow : Plant.now_ms_of
                   (fst (Plant.time_time
                           (world (Plant.run_once_page ascii_int
                                     SimPlant.farm0))))
                 = Ok 1000500%Z).
  { vm_compute. reflexivity. }
  assert (Hlt : (Plant.delay_ms_of 2000 1000500 < 2 ^ 53)%Z).
  { vm_compute. reflexivity. }
  split; [exact farm0_page|]. split; [exact Hnow|]. split; [exact Hlt|].
  destruct (@PlantFacts.run_once_wait ascii_int _ _ SimPlant.farm0 _ _ _ _ _ _
              farm0_page Hnow Hlt)
    as (wait & Hr & Hfuture & _).
  exists wait. split; [exact Hr|].
  rewrite Hfuture; [reflexivity | discriminate | reflexivity].
Defined.

(** At 1000.5 s with the next harvest at 2000 s the wait is 1004 s. *)
Example run_once_example :
  result (Plant.run_once ascii_int SimPlant.farm0) = Ok 1004%Z.
Proof. vm_compute. reflexivity. Qed.

(** With nothing left to ripen the wait is the fallback. *)
Example run_once_fallback_example :
  result (Plant.run_once ascii_int
            {| SimPlant.clock := 3000;
               SimPlant.plots := SimPlant.plots SimPlant.farm0;
               SimPlant.click_works := fun _ => true |}) = Ok 300%Z.
Proof. vm_compute. reflexivity. Qed.

(** A harvest time of 2^54 s read at 4 s: the delay is 2^54 * 1000 + 1000
    ms, whose quotient by 1000 is no double; the nearest is 2^54, and that
    is the wait, a second less than [max (next_ts - now + 5) 10]. *)
Lemma run_once_far_harvest :
  Plant.run_once_page ascii_int SimPlant.far_farm
  = (Ok (0, 0, 2 ^ 54)%Z, SimPlant.far_farm, [])
  /\ Plant.time_time SimPlant.far_farm = (4, SimPlant.far_farm)
  /\ Plant.now_ms_of 4 = Ok 4000%Z
  /\ result (Plant.run_once ascii_int SimPlant.far_farm) = Ok (2 ^ 54)%Z
  /\ (2 ^ 54)%Z <> Z.max (2 ^ 54 - 4 + 5) 10.
Proof.
  split; [vm_compute; reflexivity|]. split; [reflexivity|].
  split; [vm_compute; reflexivity|]. split; [vm_compute; reflexivity|].
  vm_compute. discriminate.
Qed.

(** The clock at 7390363648004194 / 2^22 s, a little over 1762000000.0005:
    the product by 1000 is rounded up to 1762000000001 ms, and with the
    harvest at 1762000100 the wait is 104 s. *)
Example run_once_rounded_clock :
  result (Plant.run_once ascii_int
            {| SimPlant.clock := 7390363648004194 # 4194304;
               SimPlant.plots := [ SimPlant.plot_of "1762000100" "1" "1" ];
               SimPlant.click_works := fun _ => true |}) = Ok 104%Z.
Proof. vm_compute. reflexivity. Qed.

(** * Further properties *)

(** ** Computations that return *)

Section ReturnsFacts.
Variables W E : Type.

Lemma returns_ret {A} (a : A) : returns (ret (W := W) (E := E) a).
Proof. intros w. exists a. reflexivity. Qed.

Lemma returns_log (msg : string) : returns (log (W := W) (E := E) msg).
Proof. intros w. exists tt. reflexivity. Qed.

Lemma returns_emit (e : E) : returns (emit (W := W) e).
Proof. intros w. exists tt. reflexivity. Qed.

Lemma returns_act (op : W -> W) : returns (act (E := E) op).
Proof. intros w. exists tt. reflexivity. Qed.

Lemma returns_call_ok {A} (op : W -> A * W) : returns (call_ok (E := E) op).
Proof.
  intros w. unfold call_ok, result. destruct (op w) as [a w1]. exists a.
  reflexivity.
Qed.

Lemma returns_call {A} (op : W -> Res A * W) :
  (forall w, exists a, fst (op w) = Ok a) -> returns (call (E := E) op).
Proof.
  intros H w. destruct (H w) as [a Ha]. unfold call, result.
  destruct (op w) as [r w1]. simpl in *. exists a. exact Ha.
Qed.

Lemma returns_try {A} (m : M W E A) : returns (try_ m).
Proof.
  intros w. unfold try_, result. destruct (m w) as [[r w1] e1].
  exists r. reflexivity.
Qed.

Lemma returns_bind {A B} (m : M W E A) (f : A -> M W E B) :
  returns m -> (forall a, returns (f a)) -> returns (bind m f).
Proof.
  intros Hm Hf w. destruct (Hm w) as [a Ha].
  pose proof (triple_eta (m w)) as Heta. rewrite Ha in Heta.
  rewrite (bind_ok _ _ _ Heta), result_mk. apply Hf.
Qed.

Lemma bind_emit {B} (e : E) (f : unit -> M W E B) (w : W) :
  bind (emit e) f w = (result (f tt w), world (f tt w), e :: events (f tt w)).
Proof.
  unfold bind, emit, result, world, events.
  destruct (f tt w) as [[r w2] e2]. reflexivity.
Qed.

Lemma call_eq {A} (op : W -> Res A * W) (w : W) (a : A) :
  fst (op w) = Ok a -> call (E := E) op w = (Ok a, snd (op w), []).
Proof.
  intros H. unfold call. destruct (op w) as [r w1]. simpl in *. subst r.
  reflexivity.
Qed.

Lemma bind_act {B} (op : W -> W) (f : unit -> M W E B) (w : W) :
  bind (act op) f w = f tt (op w).
Proof. unfold bind, act. destruct (f tt (op w)) as [[r w2] e2]. reflexivity. Qed.

Lemma result_bind {A B} (m : M W E A) (f : A -> M W E B) (w : W) :
  result (bind m f w) =
  match result (m w) with
  | Ok a => result (f a (world (m w)))
  | Raised => Raised
  end.
Proof.
  unfold bind, result, world.
  destruct (m w) as [[[a|] w1] e1]; simpl; [|reflexivity].
  destruct (f a w1) as [[r w2] e2]. reflexivity.
Qed.

Lemma call_raised {A} (op : W -> Res A * W) (w : W) :
  fst (op w) = Raised -> call (E := E) op w = (Raised, snd (op w), []).
Proof.
  intros H. unfold call. destruct (op w) as [r w1]. simpl in *. subst r.
  reflexivity.
Qed.

Lemma try_call_eq {A} (op : W -> Res A * W) (w : W) :
  try_ (call (E := E) op) w = (Ok (fst (op w)), snd (op w), []).
Proof. unfold try_, call. destruct (op w) as [r w1]. reflexivity. Qed.

Lemma yields_returns {A} (P : A -> Prop) (m : M W E A) :
  yields P m -> returns m.
Proof. intros H w. destruct (H w) as (a & Ha & _). exists a. exact Ha. Qed.

Lemma yields_ret {A} (P : A -> Prop) (a : A) :
  P a -> yields P (ret (W := W) (E := E) a).
Proof. intros H w. exists a. split; [reflexivity | exact H]. Qed.

Lemma yields_bind {A B} (P : A -> Prop) (Q : B -> Prop) (m : M W E A)
      (f : A -> M W E B) :
  yields P m -> (forall a, P a -> yields Q (f a)) -> yields Q (bind m f).
Proof.
  intros Hm Hf w. destruct (Hm w) as (a & Ha & HP).
  pose proof (triple_eta (m w)) as Heta. rewrite Ha in Heta.
  rewrite (bind_ok _ _ _ Heta), result_mk. apply Hf. exact HP.
Qed.

(** A step that returns, before a computation that yields. *)
Lemma yields_after {A B} (Q : B -> Prop) (m : M W E A) (f : A -> M W E B) :
  returns m -> (forall a, yields Q (f a)) -> yields Q (bind m f).
Proof.
  intros Hm Hf w. destruct (Hm w) as (a & Ha).
  pose proof (triple_eta (m w)) as Heta. rewrite Ha in Heta.
  rewrite (bind_ok _ _ _ Heta), result_mk. apply Hf.
Qed.

Lemma returns_bind_yields {A B} (P : A -> Prop) (m : M W E A)
      (f : A -> M W E B) :
  yields P m -> (forall a, P a -> returns (f a)) -> returns (bind m f).
Proof.
  intros Hm Hf w. destruct (Hm w) as (a & Ha & HP).
  pose proof (triple_eta (m w)) as Heta. rewrite Ha in Heta.
  rewrite (bind_ok _ _ _ Heta), result_mk. apply Hf. exact HP.
Qed.

End ReturnsFacts.

(** Walks through a computation that returns. *)
Ltac returns_step :=
  first
    [ apply returns_ret | apply returns_log | apply returns_emit
    | apply returns_act | apply returns_call_ok | apply returns_try
    | apply returns_bind; [|intros] ].

(** ** autoMowan.py: probes, Run step, recheck and the loop *)

Module MowanMore.
Section WithHost.

Variable digit_value : N -> option Z.
Variable cfg : Mowan.Config.
Context {W : Type} {host : Mowan.Host W}.

Local Abbreviation MIN := Mowan.MIN_WAIT_AFTER_CHECK_SEC.
Local Abbreviation session := (SchedSpec.session digit_value cfg).
Local Abbreviation run_due := (Mowan.run_due digit_value cfg).
Local Abbreviation scheduler_body := (Mowan.scheduler_body digit_value cfg).
Local Abbreviation scheduler_rounds := (Mowan.scheduler_rounds digit_value cfg).
Local Abbreviation recheck_probe := (SchedMore.recheck_probe digit_value cfg).
Local Abbreviation default_interval_of := (SchedSpec.default_interval_of cfg).
Local Abbreviation readable := (SchedMore.readable digit_value (W := W)).

(** Reading a countdown never raises and leaves no event: a locator that
    raises gives [None]. *)
Lemma read_countdown_at_eq (sel : string) (w : W) :
  exists s w', Mowan.read_countdown_at digit_value sel w = (Ok s, w', []).
Proof.
  unfold Mowan.read_countdown_at, bind, try_, call, log, ret, raise.
  destruct (Mowan.locator_wait_for sel w) as [[[]|] w1]; cbv beta iota.
  - destruct (Mowan.locator_inner_text sel w1) as [[t|] w2]; cbv beta iota.
    + destruct (Parser.parse_countdown_text digit_value (Some t)) as [s|];
        eexists; eexists; reflexivity.
    + eexists; eexists; reflexivity.
  - eexists; eexists; reflexivity.
Qed.

Lemma fetch_eq (task : Mowan.Task) (sel reason : string) (fallback : Z) (w : W) :
  (forall w : W, fst (Mowan.open_page_session w) = Ok tt) ->
  (forall w : W, fst (Mowan.browser_close w) = Ok tt) ->
  exists s w2,
    (MIN <= s)%Z
    /\ (emit (Mowan.Probe task) ;;;
        call Mowan.open_page_session ;;;
        seconds <- Mowan.read_countdown_at digit_value sel ;;
        call Mowan.browser_close ;;;
        Mowan._normalize_wait seconds reason fallback) w
       = (if Mowan.eta_in_range (fst (Mowan.datetime_now w2)) s
          then Ok s else Raised,
          snd (Mowan.datetime_now w2), [Mowan.Probe task]).
Proof.
  intros Hopen Hclose. rewrite bind_emit.
  rewrite (bind_ok _ _ _ (call_eq Mowan.Event _ w (Hopen w))).
  destruct (read_countdown_at_eq sel (snd (Mowan.open_page_session w)))
    as (s & w2 & Hr).
  rewrite (bind_ok _ _ _ Hr).
  rewrite (bind_ok _ _ _ (call_eq Mowan.Event _ w2 (Hclose w2))).
  rewrite MowanFacts.normalize_wait_eq.
  rewrite !result_mk, !world_mk, !events_mk. cbn [app]. cbv zeta.
  eexists; eexists. split; [|reflexivity]. apply Z.le_max_r.
Qed.

(** X2.  A probe of either countdown, on a page session that opens and
    closes, makes a wait of at least 30 seconds whatever the page shows,
    also when the countdown cannot be read; it returns that wait when the
    wall clock plus the wait is a date that [datetime] can hold, and raises
    when it is not; its only event is the probe. *)
Theorem fetch_wait_at_least_floor (reason : string) (w : W) :
  (forall w : W, fst (Mowan.open_page_session w) = Ok tt) ->
  (forall w : W, fst (Mowan.browser_close w) = Ok tt) ->
  (exists s w2,
     (Mowan.MIN_WAIT_AFTER_CHECK_SEC <= s)%Z
     /\ Mowan.fetch_countdown_wait digit_value cfg reason w
        = (if Mowan.eta_in_range (fst (Mowan.datetime_now w2)) s
           then Ok s else Raised,
           snd (Mowan.datetime_now w2), [Mowan.Probe Mowan.Clean]))
  /\ (exists s w2,
        (Mowan.MIN_WAIT_AFTER_CHECK_SEC <= s)%Z
        /\ Mowan.fetch_brick_countdown_wait digit_value cfg reason w
           = (if Mowan.eta_in_range (fst (Mowan.datetime_now w2)) s
              then Ok s else Raised,
              snd (Mowan.datetime_now w2), [Mowan.Probe Mowan.Brick])).
Proof.
  intros Hopen Hclose. split.
  - apply (fetch_eq Mowan.Clean Mowan.SEL_STATUS_COUNTDOWN reason
             (Mowan.DEFAULT_NEXT_INTERVAL_SEC cfg) w Hopen Hclose).
  - apply (fetch_eq Mowan.Brick Mowan.SEL_BRICK_STATUS_COUNTDOWN reason
             (Mowan.BRICK_DEFAULT_INTERVAL_SEC cfg) w Hopen Hclose).
Qed.

(** X3.  When the page visit of the session of a task gives the readings
    [(own, sib)] and the session completes, the task's own due time becomes
    the clock read right after the session plus [max own 30]; with no
    reading of its own, plus the maximum of the task's default interval
    and 30. *)
Theorem run_due_own_due (task : Mowan.Task) (st : Mowan.SchedState)
        (w w1 : W) (own sib : option Z) (ev : list Mowan.Event)
        (r : Z * option Z) :
  SchedSpec.session_page digit_value task w = (Ok (own, sib), w1, ev) ->
  result (session task w) = Ok r ->
  exists st' w',
    run_due task st w = (Ok st', w', ev)
    /\ Mowan.due_at task st' =
       fst (Mowan.time_time (world (session task w)))
       + inject_Z (Z.max (match own with
                          | Some s => s
                          | None => default_interval_of task
                          end) Mowan.MIN_WAIT_AFTER_CHECK_SEC).
Proof.
  intros Hpage Hres.
  destruct (@MowanFacts.session_completes digit_value cfg W host task w w1
              own sib ev r Hpage Hres) as (Hs & Hown & _).
  rewrite MowanFacts.run_due_eq, Hres. destruct r as [ow sw].
  cbn [fst] in Hown.
  pose proof (f_equal (@events _ _ _) Hs) as Hev. rewrite events_mk in Hev.
  rewrite Hev. eexists; eexists. split; [reflexivity|].
  unfold SchedSpec.after_session.
  destruct (Mowan.time_time (world (session task w))) as [t w2]. cbn [fst snd].
  subst ow. destruct sw as [b|].
  - destruct (Mowan.time_time w2) as [t' w3]. cbn [fst snd].
    destruct task; reflexivity.
  - cbn [fst]. destruct task; reflexivity.
Qed.

(** X4.  A task that is further from due than its recheck interval, of no
    more than 9 * 10^9 seconds: the loop sleeps for exactly that
    interval, probes the countdown of that task alone, and sets its due
    time to the clock read after the probe plus the wait the probe
    returned; the sibling's due time is not touched. *)
Theorem recheck_updates_active_only (st : Mowan.SchedState) (w wf : W) (v : Z)
        (evf : list Mowan.Event) :
  let task := Mowan.pick st in
  let recheck := inject_Z (Mowan.recheck_interval_of cfg task) in
  let remaining := Mowan.due_at task st - fst (Mowan.time_time w) in
  0 <= recheck ->
  (Mowan.recheck_interval_of cfg task <= Mowan.SLEEP_SAFE_SEC)%Z ->
  recheck < remaining ->
  recheck_probe task (Mowan.time_sleep recheck (snd (Mowan.time_time w)))
  = (Ok v, wf, evf) ->
  exists st',
    scheduler_body st w
    = (Ok st', snd (Mowan.time_time wf), Mowan.Slept recheck :: evf)
    /\ Mowan.due_at task st' = fst (Mowan.time_time wf) + inject_Z v
    /\ Mowan.due_at (SchedSpec.sibling task) st'
       = Mowan.due_at (SchedSpec.sibling task) st.
Proof.
  intros task recheck remaining H0 Hmax Hlt Hprobe.
  unfold Mowan.scheduler_body. rewrite (bind_ok _ _ _ (MowanFacts.now_eq w)).
  fold task. fold remaining.
  destruct (Qle_bool remaining 0) eqn:Hdue.
  { apply Qle_bool_iff in Hdue. lra. }
  unfold Mowan.wait_for_due. fold recheck.
  destruct (Qle_bool remaining recheck) eqn:Hre.
  { apply Qle_bool_iff in Hre. lra. }
  cbn [negb]. rewrite bind_log.
  assert (Hfit : Mowan.sleep_accepted recheck (snd (Mowan.time_time w))
                 = true).
  { apply MowanFacts.sleep_fits; [exact H0|].
    unfold recheck. rewrite <- Zle_Qle. exact Hmax. }
  rewrite (bind_ok _ _ _ (@MowanFacts.sleep_eq W host recheck _ Hfit)).
  unfold SchedMore.recheck_probe in Hprobe.
  destruct task; rewrite (bind_ok _ _ _ Hprobe);
    rewrite (bind_ok _ _ _ (MowanFacts.now_eq wf));
    rewrite !result_mk, !world_mk, !events_mk; cbn [app];
    unfold ret; rewrite !app_nil_r;
    eexists; (split; [reflexivity | split; reflexivity]).
Qed.

(** X5.  A negative recheck interval stops the loop: when the picked task is not
    due, the round raises (the sleep refuses a negative length) before any
    sleep or probe. *)
Theorem negative_recheck_raises (st : Mowan.SchedState) (w : W) :
  (Mowan.recheck_interval_of cfg (Mowan.pick st) < 0)%Z ->
  0 < Mowan.due_at (Mowan.pick st) st - fst (Mowan.time_time w) ->
  scheduler_body st w = (Raised, snd (Mowan.time_time w), []).
Proof.
  intros Hneg Hpos.
  unfold Mowan.scheduler_body. rewrite (bind_ok _ _ _ (MowanFacts.now_eq w)).
  set (remaining := Mowan.due_at (Mowan.pick st) st - fst (Mowan.time_time w)) in *.
  set (recheck := inject_Z (Mowan.recheck_interval_of cfg (Mowan.pick st))).
  assert (Hr : recheck < 0).
  { unfold recheck. change 0 with (inject_Z 0). rewrite <- Zlt_Qlt. exact Hneg. }
  destruct (Qle_bool remaining 0) eqn:Hdue.
  { apply Qle_bool_iff in Hdue. lra. }
  unfold Mowan.wait_for_due. fold recheck.
  destruct (Qle_bool remaining recheck) eqn:Hre.
  { apply Qle_bool_iff in Hre. lra. }
  cbn [negb]. rewrite bind_log.
  assert (Hs : Mowan.sleep_accepted recheck (snd (Mowan.time_time w)) = false).
  { unfold Mowan.sleep_accepted.
    destruct (Mowan.sleep_in_range recheck) eqn:Hs; [|reflexivity].
    apply MowanFacts.sleep_in_range_iff in Hs. lra. }
  rewrite (bind_raised _ _ _ (MowanFacts.sleep_refused _ _ Hs)).
  reflexivity.
Qed.

(** ** The loop keeps running *)

Lemma read_countdown_yields (sel : string) :
  yields (readable sel) (Mowan.read_countdown_at digit_value sel).
Proof.
  intros w. destruct (read_countdown_at_eq sel w) as (s & w' & H).
  exists s. split; [rewrite H; reflexivity|].
  exists w. rewrite H. reflexivity.
Qed.

Lemma sleep_returns (d : Q) :
  0 <= d -> d <= inject_Z Mowan.SLEEP_SAFE_SEC ->
  returns (Mowan.sleep (W := W) d).
Proof.
  intros H0 H1 w.
  rewrite (@MowanFacts.sleep_eq W host d w (MowanFacts.sleep_fits w H0 H1)).
  exists tt. reflexivity.
Qed.

Section Working.

Hypothesis Hwork : SchedMore.sessions_work (W := W).
Hypothesis Hdates : SchedMore.waits_are_dates digit_value cfg (W := W).

Lemma normalize_wait_returns (sel : string) (seconds : option Z)
      (reason : string) (fallback : Z) :
  readable sel seconds ->
  fallback = Mowan.DEFAULT_NEXT_INTERVAL_SEC cfg
  \/ fallback = Mowan.BRICK_DEFAULT_INTERVAL_SEC cfg ->
  returns (Mowan._normalize_wait (W := W) seconds reason fallback).
Proof.
  intros Hr Hf w. rewrite MowanFacts.normalize_wait_eq, result_mk. cbv zeta.
  rewrite (Hdates w Hr Hf). eexists. reflexivity.
Qed.

Lemma open_returns : returns (call (E := Mowan.Event) Mowan.open_page_session).
Proof. apply returns_call. intros w. exists tt. apply Hwork. Qed.

Lemma close_returns : returns (call (E := Mowan.Event) Mowan.browser_close).
Proof. apply returns_call. intros w. exists tt. apply Hwork. Qed.

Lemma fetch_returns (reason : string) :
  returns (Mowan.fetch_countdown_wait digit_value cfg reason)
  /\ returns (Mowan.fetch_brick_countdown_wait digit_value cfg reason).
Proof.
  unfold Mowan.fetch_countdown_wait, Mowan.fetch_brick_countdown_wait,
    Mowan.read_countdown_seconds, Mowan.read_brick_countdown_seconds,
    Mowan.normalize_wait_seconds.
  split.
  - apply returns_bind; [apply returns_emit | intros _].
    apply returns_bind; [apply open_returns | intros _].
    eapply returns_bind_yields; [apply read_countdown_yields|].
    intros seconds Hs.
    apply returns_bind; [apply close_returns | intros _].
    eapply normalize_wait_returns; [exact Hs | left; reflexivity].
  - apply returns_bind; [apply returns_emit | intros _].
    apply returns_bind; [apply open_returns | intros _].
    eapply returns_bind_yields; [apply read_countdown_yields|].
    intros seconds Hs.
    apply returns_bind; [apply close_returns | intros _].
    eapply normalize_wait_returns; [exact Hs | right; reflexivity].
Qed.

(** The page visit of a session returns two readings of the page. *)
Lemma session_page_yields (task : Mowan.Task) :
  yields (fun p : option Z * option Z =>
            exists sel1 sel2, readable sel1 (fst p) /\ readable sel2 (snd p))
    (SchedSpec.session_page digit_value task).
Proof.
  destruct Hwork as (_ & _ & Hloop & Hready & Hclick).
  assert (Htail : forall sel1 sel2,
            yields (fun p : option Z * option Z =>
                      exists s1 s2, readable s1 (fst p) /\ readable s2 (snd p))
              (a <- Mowan.read_countdown_at digit_value sel1 ;;
               b <- Mowan.read_countdown_at digit_value sel2 ;;
               call Mowan.browser_close ;;;
               log "done" ;;;
               ret (a, b))).
  { intros sel1 sel2.
    eapply yields_bind; [apply read_countdown_yields | intros a Ha].
    eapply yields_bind; [apply read_countdown_yields | intros b Hb].
    apply yields_after; [apply close_returns | intros _].
    apply yields_after; [apply returns_log | intros _].
    apply yields_ret. exists sel1, sel2. split; assumption. }
  destruct task; cbn [SchedSpec.session_page];
    unfold Mowan.cleaning_session_page, Mowan.brick_session_page,
      Mowan.read_countdown_seconds, Mowan.read_brick_countdown_seconds.
  - apply yields_after; [apply returns_emit | intros _].
    apply yields_after; [apply open_returns | intros _].
    apply yields_after; [apply returns_log | intros _].
    apply yields_after;
      [apply returns_call; intros w; exists tt; apply Hloop | intros _].
    apply (Htail Mowan.SEL_STATUS_COUNTDOWN Mowan.SEL_BRICK_STATUS_COUNTDOWN).
  - apply yields_after; [apply returns_emit | intros _].
    apply yields_after; [apply open_returns | intros _].
    apply yields_after; [apply returns_log | intros _].
    apply yields_after; [apply returns_call; exact Hready | intros ready].
    apply yields_after.
    { destruct ready; [|apply returns_log].
      apply returns_bind; [apply returns_call; exact Hclick | intros _].
      apply returns_ret. }
    intros _.
    apply (Htail Mowan.SEL_BRICK_STATUS_COUNTDOWN Mowan.SEL_STATUS_COUNTDOWN).
Qed.

Lemma run_due_returns (task : Mowan.Task) (st : Mowan.SchedState) :
  returns (run_due task st).
Proof.
  pose proof (session_page_yields task) as Hpage.
  destruct task; cbn [SchedSpec.session_page] in Hpage;
    unfold Mowan.run_due, Mowan.run_cleaning_session,
      Mowan.run_brick_session, Mowan.normalize_wait_seconds, Mowan.now.
  - apply returns_bind.
    + eapply returns_bind_yields; [exact Hpage|].
      intros [n b] (sel1 & sel2 & Hn & Hb). cbn [fst snd] in Hn, Hb.
      apply returns_bind.
      * destruct b as [s|]; [|apply returns_ret].
        apply returns_bind; [|intros; apply returns_ret].
        eapply normalize_wait_returns; [exact Hb | right; reflexivity].
      * intros bw. apply returns_bind; [|intros; apply returns_ret].
        eapply normalize_wait_returns; [exact Hn | left; reflexivity].
    + intros [cw [b|]]; cbv beta iota; repeat returns_step.
  - apply returns_bind.
    + eapply returns_bind_yields; [exact Hpage|].
      intros [n c] (sel1 & sel2 & Hn & Hc). cbn [fst snd] in Hn, Hc.
      apply returns_bind.
      * destruct c as [s|]; [|apply returns_ret].
        apply returns_bind; [|intros; apply returns_ret].
        eapply normalize_wait_returns; [exact Hc | left; reflexivity].
      * intros cw. apply returns_bind; [|intros; apply returns_ret].
        eapply normalize_wait_returns; [exact Hn | right; reflexivity].
    + intros [bw [c|]]; cbv beta iota; repeat returns_step.
Qed.

(** X6.  As long as page sessions open, run and close without raising, the
    waits made of the countdowns and of the defaults end on dates that
    [datetime] can hold, and the recheck intervals are not negative and of
    no more than 9 * 10^9 seconds, no round of the loop raises: the loop
    goes on for any number of rounds. *)
Theorem scheduler_keeps_running (n : nat) (st : Mowan.SchedState) (w : W) :
  (0 <= Mowan.STATUS_RECHECK_INTERVAL_SEC cfg <= Mowan.SLEEP_SAFE_SEC)%Z ->
  (0 <= Mowan.BRICK_RECHECK_INTERVAL_SEC cfg <= Mowan.SLEEP_SAFE_SEC)%Z ->
  exists st', result (scheduler_rounds n st w) = Ok st'.
Proof.
  intros Hc Hb. revert st w.
  assert (Hbody : forall st, returns (scheduler_body st)).
  { intros st. unfold Mowan.scheduler_body, Mowan.now.
    apply returns_bind; [apply returns_call_ok|]. intros t.
    destruct (Qle_bool (Mowan.due_at (Mowan.pick st) st - t) 0) eqn:Hdue;
      [apply run_due_returns|].
    unfold Mowan.wait_for_due, Mowan.now.
    assert (Hre : forall task,
              0 <= inject_Z (Mowan.recheck_interval_of cfg task)
              /\ inject_Z (Mowan.recheck_interval_of cfg task)
                 <= inject_Z Mowan.SLEEP_SAFE_SEC).
    { intros task. change 0 with (inject_Z 0).
      rewrite <- !Zle_Qle. destruct task; assumption. }
    destruct (Qle_bool (Mowan.due_at (Mowan.pick st) st - t)
                (inject_Z (Mowan.recheck_interval_of cfg (Mowan.pick st))))
      eqn:Hshort; cbn [negb].
    - apply Qle_bool_iff in Hshort.
      apply returns_bind; [apply returns_log | intros _].
      apply returns_bind; [|intros _; apply returns_ret].
      destruct (Hre (Mowan.pick st)) as [_ Hmax].
      apply sleep_returns.
      + pose proof (Q.le_max_r (Mowan.due_at (Mowan.pick st) st - t) 1). lra.
      + apply Q.max_lub; [lra | vm_compute; discriminate].
    - apply returns_bind; [apply returns_log | intros _].
      apply returns_bind; [apply sleep_returns; apply Hre | intros _].
      destruct (fetch_returns "hourly recheck") as [Fc _].
      destruct (fetch_returns "brick recheck") as [_ Fb].
      destruct (Mowan.pick st);
        repeat first [ apply Fc | apply Fb | returns_step ]. }
  induction n as [|n IH]; intros st w.
  - exists st. reflexivity.
  - cbn [Mowan.scheduler_rounds].
    apply returns_bind; [apply Hbody | intros st' w'; apply IH].
Qed.

End Working.

End WithHost.
End MowanMore.

(** ** autoMowan.py: more on the countdown parser *)

Module ParserMore.
Section WithDigits.

Variable digit_value : N -> option Z.

Local Abbreviation parse_countdown_text := (Parser.parse_countdown_text digit_value).
Local Abbreviation countdown_search := (Parser.countdown_search digit_value).
Local Abbreviation findall_digits := (Parser.findall_digits digit_value).
Local Abbreviation hms := (Parser.hms digit_value).
Local Abbreviation py_int := (Parser.py_int digit_value).

Section DecimalDigits.

(** The digits of the table have the values 0 to 9. *)
Hypothesis digits_decimal :
  forall c d, digit_value c = Some d -> (0 <= d <= 9)%Z.

Lemma int_digits_nonneg (s : text) (acc v : Z) :
  (0 <= acc)%Z -> Parser.int_digits digit_value acc s = Ok v -> (acc <= v)%Z.
Proof.
  revert acc. induction s as [|c s IH]; intros acc Hacc; simpl.
  - intros H. injection H as <-. lia.
  - destruct (digit_value c) as [d|] eqn:Hd; [|discriminate].
    pose proof (digits_decimal Hd) as Hr. intros H.
    apply IH in H; lia.
Qed.

Lemma py_int_nonneg (s : text) (v : Z) : py_int s = Ok v -> (0 <= v)%Z.
Proof.
  unfold Parser.py_int. destruct s as [|c s]; [discriminate|].
  destruct (Parser.INT_MAX_STR_DIGITS <? List.length (c :: s))%nat;
    [discriminate|].
  apply int_digits_nonneg. lia.
Qed.

Lemma hms_nonneg (a b c : text) (v : Z) : hms a b c = Ok v -> (0 <= v)%Z.
Proof.
  unfold Parser.hms.
  destruct (py_int a) as [h|] eqn:Ha; [|discriminate].
  destruct (py_int b) as [m|] eqn:Hb; [|discriminate].
  destruct (py_int c) as [s|] eqn:Hc; [|discriminate].
  apply py_int_nonneg in Ha, Hb, Hc. intros H. injection H as <-. lia.
Qed.

(** X7.  Whatever the text, a number of seconds the parser returns is never
    negative. *)
Theorem parse_never_negative (x : option text) (v : Z) :
  parse_countdown_text x = Ok (Some v) -> (0 <= v)%Z.
Proof.
  unfold Parser.parse_countdown_text.
  destruct x as [[|c t]|]; try discriminate.
  destruct (countdown_search (strip (c :: t))) as [[[hh mm] ss]|].
  - destruct (hms hh mm ss) as [u|] eqn:Hu; [|discriminate].
    intros H. injection H as <-. exact (hms_nonneg _ _ _ Hu).
  - destruct (findall_digits (strip (c :: t))) as [|a [|b [|d more]]];
      try discriminate.
    destruct (hms a b d) as [u|] eqn:Hu; [|discriminate].
    intros H. injection H as <-. exact (hms_nonneg _ _ _ Hu).
Qed.

Lemma decimal_two (x : text) :
  ParserSpec.two_digits digit_value x ->
  (0 <= ParserSpec.decimal digit_value x <= 99)%Z.
Proof.
  intros (a & b & -> & Da & Db). unfold ParserSpec.decimal, Parser.is_digit in *.
  simpl. destruct (digit_value a) as [da|] eqn:Ha; [|discriminate].
  destruct (digit_value b) as [db|] eqn:Hb; [|discriminate].
  pose proof (digits_decimal Ha). pose proof (digits_decimal Hb). lia.
Qed.

Lemma decimal_hours (x : text) :
  ParserSpec.hour_digits digit_value x ->
  (0 <= ParserSpec.decimal digit_value x <= 99)%Z.
Proof.
  intros [(a & -> & Da) | H]; [|apply decimal_two; exact H].
  unfold ParserSpec.decimal, Parser.is_digit in *. simpl.
  destruct (digit_value a) as [da|] eqn:Ha; [|discriminate].
  pose proof (digits_decimal Ha). lia.
Qed.

(** X8.  A text with a strict [H(H):MM:SS] occurrence gives a number between 0
    and 99:99:99, that is 362439 seconds: minutes and seconds above 59 are
    accepted as they are written. *)
Theorem parse_strict_bounded (t : text) :
  (forall c, is_space c = true -> digit_value c = None) ->
  digit_value colon = None ->
  ParserSpec.has_strict digit_value t ->
  exists v, parse_countdown_text (Some t) = Ok (Some v) /\ (0 <= v <= 362439)%Z.
Proof.
  intros Hspace Hcolon Hs.
  destruct (ParserFacts.first_occurrence_exists Hcolon Hs)
    as (pre & hh & mm & ss & post & Hf).
  pose proof (ParserFacts.search_first Hcolon Hf) as Hsearch.
  destruct Hf as [Ho _].
  destruct t as [|c t]; [destruct (ParserFacts.not_occurs_nil Ho)|].
  rewrite (ParserFacts.parse_nonempty digit_value Hspace), Hsearch, (ParserFacts.hms_groups Ho).
  eexists. split; [reflexivity|].
  destruct Ho as (_ & Hh & Hm & Hss).
  pose proof (decimal_hours Hh). pose proof (decimal_two Hm).
  pose proof (decimal_two Hss). unfold ParserSpec.hms_value. lia.
Qed.

End DecimalDigits.

Section Spaces.

Hypothesis space_no_digit : forall c, is_space c = true -> digit_value c = None.

Lemma parse_any (t : text) :
  parse_countdown_text (Some t) =
  match countdown_search t with
  | Some (a, b, c) =>
      match hms a b c with Ok v => Ok (Some v) | Raised => Raised end
  | None =>
      match findall_digits t with
      | a :: b :: c :: _ =>
          match hms a b c with Ok v => Ok (Some v) | Raised => Raised end
      | _ => Ok None
      end
  end.
Proof.
  destruct t as [|c t]; [reflexivity|].
  apply (ParserFacts.parse_nonempty digit_value space_no_digit).
Qed.

(** X9.  White space around a text never changes what the parser returns. *)
Theorem parse_ignores_outer_space (ws1 t ws2 : text) :
  Forall (fun c => is_space c = true) ws1 ->
  Forall (fun c => is_space c = true) ws2 ->
  parse_countdown_text (Some (ws1 ++ t ++ ws2)) = parse_countdown_text (Some t).
Proof.
  intros H1 H2. rewrite !parse_any.
  destruct (ParserFacts.spaces_before digit_value space_no_digit (t ++ ws2) H1) as [A1 B1].
  destruct (ParserFacts.spaces_after digit_value space_no_digit t H2) as [A2 B2].
  rewrite A1, B1, A2, B2. reflexivity.
Qed.

End Spaces.

End WithDigits.
End ParserMore.

(** ** autoPlant.py: more on the harvest and the wake-up *)

Module PlantMoreFacts.

Lemma split_at_quote (a b x y : text) :
  PlantMore.no_quote a -> PlantMore.no_quote b ->
  a ++ Plant.quote :: x = b ++ Plant.quote :: y -> a = b /\ x = y.
Proof.
  unfold PlantMore.no_quote. revert b.
  induction a as [|c a IH]; intros [|d b] Ha Hb H; simpl in *.
  - injection H as ->. auto.
  - injection H as <- _. exfalso. apply Hb. left. reflexivity.
  - injection H as -> _. exfalso. apply Ha. left. reflexivity.
  - injection H as -> H. destruct (IH b) as [-> ->]; auto.
Qed.

Lemma selector_of_injective (e1 e2 : PlantSpec.Entry) :
  PlantMore.no_quote (PlantSpec.or_empty (PlantSpec.land e1)) ->
  PlantMore.no_quote (PlantSpec.or_empty (PlantSpec.land e2)) ->
  PlantMore.no_quote (PlantSpec.or_empty (PlantSpec.plot e1)) ->
  PlantMore.no_quote (PlantSpec.or_empty (PlantSpec.plot e2)) ->
  PlantSpec.selector_of e1 = PlantSpec.selector_of e2 ->
  PlantSpec.or_empty (PlantSpec.land e1) = PlantSpec.or_empty (PlantSpec.land e2)
  /\ PlantSpec.or_empty (PlantSpec.plot e1) = PlantSpec.or_empty (PlantSpec.plot e2).
Proof.
  assert (Hone : forall (q : N) (x : text), [q] ++ x = q :: x) by reflexivity.
  intros L1 L2 P1 P2 H. unfold PlantSpec.selector_of in H.
  rewrite !Hone in H.
  apply app_inv_head in H. injection H as H.
  apply split_at_quote in H; [|assumption|assumption]. destruct H as [HL H].
  injection H as H.
  apply split_at_quote in H; [|assumption|assumption]. destruct H as [HP _].
  auto.
Qed.

Section WithHost.

Variable py_int : text -> Res Z.
Context {W : Type} {host : Plant.Host W}.

Lemma plot_key_selector_result (i : nat) (w : W) (l p : option text) :
  PlantMore.land_read i w = Ok l ->
  PlantMore.plot_read i w = Ok p ->
  result (Plant.plot_key_selector i w)
  = Ok (PlantSpec.selector_of
          {| PlantSpec.harvest_time := None;
             PlantSpec.land := l; PlantSpec.plot := p |}).
Proof.
  unfold PlantMore.land_read, PlantMore.plot_read.
  unfold Plant.plot_key_selector, bind, call, ret, result.
  destruct (Plant.nth_get_attribute Plant.SEL_PLOTS_PLANTED i "data-land" w)
    as [r1 w1].
  cbn [fst snd]. intros ->.
  destruct (Plant.nth_get_attribute Plant.SEL_PLOTS_PLANTED i "data-plot" w1)
    as [r2 w2].
  cbn [fst snd]. intros ->. reflexivity.
Qed.

(** X10.  Two planted plots whose land and plot keys hold no double quote
    get the same selector from [plot_key_selector] only when they have the
    same keys, a missing key counting as an empty one. *)
Theorem selector_names_one_plot (i j : nat) (w w' : W)
        (l1 p1 l2 p2 : option text) :
  PlantMore.land_read i w = Ok l1 ->
  PlantMore.plot_read i w = Ok p1 ->
  PlantMore.land_read j w' = Ok l2 ->
  PlantMore.plot_read j w' = Ok p2 ->
  PlantMore.no_quote (PlantSpec.or_empty l1) ->
  PlantMore.no_quote (PlantSpec.or_empty l2) ->
  PlantMore.no_quote (PlantSpec.or_empty p1) ->
  PlantMore.no_quote (PlantSpec.or_empty p2) ->
  result (Plant.plot_key_selector i w) = result (Plant.plot_key_selector j w') ->
  PlantSpec.or_empty l1 = PlantSpec.or_empty l2
  /\ PlantSpec.or_empty p1 = PlantSpec.or_empty p2.
Proof.
  intros Hl1 Hp1 Hl2 Hp2 Q1 Q2 Q3 Q4 H.
  rewrite (plot_key_selector_result _ _ Hl1 Hp1) in H.
  rewrite (plot_key_selector_result _ _ Hl2 Hp2) in H.
  set (e1 := {| PlantSpec.harvest_time := None;
                PlantSpec.land := l1; PlantSpec.plot := p1 |}) in *.
  set (e2 := {| PlantSpec.harvest_time := None;
                PlantSpec.land := l2; PlantSpec.plot := p2 |}) in *.
  assert (H' : PlantSpec.selector_of e1 = PlantSpec.selector_of e2)
    by congruence.
  exact (@selector_of_injective e1 e2 Q1 Q2 Q3 Q4 H').
Qed.

(** X11.  [is_mature] never raises and leaves no event; it answers [true] only
    when the ready time was read, is not empty, is a number, and that
    number is at or before the whole second of the clock read after it. *)
Theorem is_mature_only_when_ready (i : nat) (w : W) :
  exists b w',
    Plant.is_mature py_int i w = (Ok b, w', [])
    /\ (b = true ->
        exists s v,
          fst (Plant.nth_get_attribute Plant.SEL_PLOTS_PLANTED i
                 "data-harvest-time" w) = Ok (Some s)
          /\ s <> []
          /\ py_int s = Ok v
          /\ (v <= int_of_Q
                     (fst (Plant.time_time
                             (snd (Plant.nth_get_attribute
                                     Plant.SEL_PLOTS_PLANTED i
                                     "data-harvest-time" w)))))%Z).
Proof.
  unfold Plant.is_mature, bind, try_, call, call_ok, ret, raise.
  destruct (Plant.nth_get_attribute Plant.SEL_PLOTS_PLANTED i
              "data-harvest-time" w) as [[[[|c s]|]|] w1]; cbn [fst snd];
    try (eexists; eexists; split; [reflexivity | discriminate]).
  destruct (py_int (c :: s)) as [v|] eqn:Hv;
    [|eexists; eexists; split; [reflexivity | discriminate]].
  destruct (Plant.time_time w1) as [t w2]. cbn [fst snd].
  eexists; eexists. split; [reflexivity|].
  intros Hb. exists (c :: s), v. repeat split; try discriminate.
  - exact Hv.
  - apply Z.leb_le. exact Hb.
Qed.

(** X12.  [get_next_harvest_ts] never raises; its result is 0, or a harvest time
    of the page that is strictly after the whole second of the clock and
    no later than any other such time. *)
Theorem next_harvest_is_earliest_future (w : W) :
  let now := int_of_Q (fst (Plant.time_time w)) in
  let times := match fst (Plant.eval_harvest_times (snd (Plant.time_time w))) with
               | Ok ts => ts
               | Raised => []
               end in
  exists v w',
    Plant.get_next_harvest_ts w = (Ok v, w', [])
    /\ ((v = 0%Z /\ Forall (fun t => (t <= now)%Z) times)
        \/ ((now < v)%Z /\ In v times
            /\ forall t, In t times -> (now < t)%Z -> (v <= t)%Z)).
Proof.
  intros now times. rewrite PlantFacts.get_next_harvest_ts_eq.
  fold now. fold times. eexists; eexists. split; [reflexivity|].
  destruct (List.filter (fun x => (x >? now)%Z) times) as [|a rest] eqn:Hf.
  - left. split; [reflexivity|]. apply Forall_forall. intros t Ht.
    destruct (Z.leb_spec t now) as [Hle | Hgt]; [exact Hle|].
    assert (Hin : In t (List.filter (fun x => (x >? now)%Z) times)).
    { apply filter_In. split; [exact Ht | apply Z.gtb_lt; exact Hgt]. }
    rewrite Hf in Hin. destruct Hin.
  - right. destruct (@PlantFacts.min_or_zero_spec (a :: rest)) as [Hin Hall];
      [discriminate|].
    rewrite <- Hf in Hin, Hall. apply filter_In in Hin. destruct Hin as [Hin Hgt].
    rewrite <- Hf. split; [apply Z.gtb_lt; exact Hgt|]. split; [exact Hin|].
    intros t Ht Hlt. rewrite Forall_forall in Hall. apply Hall.
    apply filter_In. split; [exact Ht | apply Z.gtb_lt; exact Hlt].
Qed.

(** X13.  Whenever the page visit of [run_once] completes, every wait that
    [run_once] returns is of at least 10 seconds, whatever the harvest
    times and the clock; and it does return one when the milliseconds of
    the clock were read and the delay is below 2^53 ms. *)
Theorem run_once_waits_at_least_10 (w w1 : W) (harvested planted next_ts : Z)
        (ev : list Plant.Event) :
  Plant.run_once_page py_int w = (Ok (harvested, planted, next_ts), w1, ev) ->
  (forall wait,
     result (Plant.run_once py_int w) = Ok wait -> (10 <= wait)%Z)
  /\ (forall now_ms,
        Plant.now_ms_of (fst (Plant.time_time w1)) = Ok now_ms ->
        (Plant.delay_ms_of next_ts now_ms < 2 ^ 53)%Z ->
        exists wait,
          result (Plant.run_once py_int w) = Ok wait /\ (10 <= wait)%Z).
Proof.
  intros H. split.
  - intros wait. apply PlantFacts.run_once_ok_at_least_10.
  - intros now_ms Hnow Hlt.
    pose proof (@PlantFacts.run_once_small py_int W host w w1 harvested planted
                  next_ts now_ms ev H Hnow Hlt) as Hr.
    eexists. split; [exact Hr|].
    apply (PlantFacts.run_once_ok_at_least_10 py_int w). exact Hr.
Qed.

End WithHost.
End PlantMoreFacts.

(** ** Both files: the cookie *)

Module CookieFacts.

Lemma lstrip_head (t : text) :
  match lstrip t with
  | [] => True
  | c :: _ => is_space c = false
  end.
Proof.
  induction t as [|c t IH]; simpl; [exact I|].
  destruct (is_space c) eqn:Hc; [exact IH | exact Hc].
Qed.

Lemma rstrip_keeps_head (c : N) (t : text) :
  is_space c = false -> exists r, rstrip (c :: t) = c :: r.
Proof.
  intros Hc. simpl. destruct (rstrip t) as [|r0 r].
  - rewrite Hc. exists []. reflexivity.
  - exists (r0 :: r). reflexivity.
Qed.

Lemma rstrip_last (t : text) (d : N) :
  match rstrip t with
  | [] => True
  | _ :: _ => is_space (List.last (rstrip t) d) = false
  end.
Proof.
  induction t as [|c t IH]; simpl; [exact I|].
  destruct (rstrip t) as [|r0 r] eqn:Hr.
  - destruct (is_space c) eqn:Hc; [exact I | exact Hc].
  - exact IH.
Qed.

Lemma strip_trimmed (t : text) : Cookie.trimmed (strip t).
Proof.
  unfold strip, Cookie.trimmed.
  pose proof (lstrip_head t) as Hh.
  destruct (lstrip t) as [|c u] eqn:Hl; [exact I|].
  destruct (rstrip_keeps_head c u Hh) as [r Hr].
  pose proof (rstrip_last (c :: u) c) as Hlast.
  rewrite Hr in *. split; assumption.
Qed.

Lemma rstrip_nil_iff (t : text) :
  rstrip t = [] <-> Forall (fun c => is_space c = true) t.
Proof.
  induction t as [|c t IH]; simpl.
  - split; [constructor | reflexivity].
  - destruct (rstrip t) as [|r0 r].
    + destruct (is_space c) eqn:Hc; split; intros H; try discriminate.
      * constructor; [exact Hc | apply IH; reflexivity].
      * reflexivity.
      * inversion H; subst. congruence.
    + split; [discriminate|]. intros H. inversion H as [|? ? _ Ht]; subst.
      apply IH in Ht. discriminate.
Qed.

Lemma lstrip_nil_iff (t : text) :
  lstrip t = [] <-> Forall (fun c => is_space c = true) t.
Proof.
  induction t as [|c t IH]; simpl.
  - split; [constructor | reflexivity].
  - destruct (is_space c) eqn:Hc.
    + rewrite IH. split; intros H; [constructor; assumption|].
      inversion H; assumption.
    + split; [discriminate|]. intros H. inversion H; subst. congruence.
Qed.

(** A text strips to nothing exactly when it is all white space. *)
Lemma strip_nil_iff (t : text) :
  strip t = [] <-> Forall (fun c => is_space c = true) t.
Proof.
  unfold strip. split.
  - intros H. apply rstrip_nil_iff in H.
    destruct (lstrip_split t) as (ws & E & Hws). rewrite E.
    apply Forall_app. split; assumption.
  - intros H. apply lstrip_nil_iff in H. rewrite H. reflexivity.
Qed.

(** X14.  A cookie that [ensure_cookie_value] returns is never empty and has no
    white space at either end. *)
Theorem cookie_is_trimmed (primary : string) (env : Cookie.Environment)
        (v : text) :
  Cookie.ensure_cookie_value primary env = Cookie.Value v ->
  v <> [] /\ Cookie.trimmed v.
Proof.
  unfold Cookie.ensure_cookie_value.
  set (e := strip (Cookie.py_or _ _)).
  pose proof (strip_trimmed
                (Cookie.py_or (Cookie.getenv env primary)
                   (Cookie.py_or (Cookie.getenv env "SIQI_COOKIE") []))) as He.
  fold e in He. destruct e as [|c r].
  - destruct (Cookie.cookie_file env) as [[content|]|]; try discriminate.
    pose proof (strip_trimmed content) as Hc.
    destruct (strip content) as [|c r]; [discriminate|].
    intros H. injection H as <-. split; [discriminate | exact Hc].
  - intros H. injection H as <-. split; [discriminate | exact He].
Qed.

(** X15.  A primary variable that is set to white space only hides the shared
    variable [SIQI_COOKIE]: whatever the shared variable holds, the outcome
    is the one the cookie file alone gives. *)
Theorem blank_primary_hides_shared (primary : string) (env : Cookie.Environment)
        (t shared : text) :
  String.eqb primary "SIQI_COOKIE" = false ->
  Cookie.getenv env primary = Some t ->
  t <> [] ->
  Forall (fun c => is_space c = true) t ->
  Cookie.ensure_cookie_value primary (Cookie.setenv "SIQI_COOKIE" shared env)
  = Cookie.ensure_cookie_value primary
      {| Cookie.getenv := fun _ => None;
         Cookie.cookie_file := Cookie.cookie_file env |}.
Proof.
  intros Hp Ht Hne Hblank. unfold Cookie.ensure_cookie_value. simpl.
  rewrite Hp, Ht. destruct t as [|c t]; [contradiction|].
  unfold Cookie.py_or at 1.
  apply strip_nil_iff in Hblank. rewrite Hblank. reflexivity.
Qed.

(** X16.  [ensure_cookie_value] fails for want of a cookie exactly when the value
    taken from the environment is blank and the cookie file is absent or
    blank. *)
Theorem no_cookie_iff_all_blank (primary : string) (env : Cookie.Environment) :
  let from_env :=
    Cookie.py_or (Cookie.getenv env primary)
      (Cookie.py_or (Cookie.getenv env "SIQI_COOKIE") []) in
  Cookie.ensure_cookie_value primary env = Cookie.NoCookie
  <-> Forall (fun c => is_space c = true) from_env
      /\ (Cookie.cookie_file env = None
          \/ exists content,
               Cookie.cookie_file env = Some (Ok content)
               /\ Forall (fun c => is_space c = true) content).
Proof.
  intros from_env. unfold Cookie.ensure_cookie_value. fold from_env.
  rewrite <- (strip_nil_iff from_env).
  destruct (strip from_env) as [|c r].
  - destruct (Cookie.cookie_file env) as [[content|]|].
    + pose proof (strip_nil_iff content) as Hc.
      destruct (strip content) as [|c r].
      * split; [|reflexivity]. intros _. split; [reflexivity|].
        right. exists content. split; [reflexivity | apply Hc; reflexivity].
      * split; [discriminate|]. intros [_ [H | (c' & H & Hb)]]; [discriminate|].
        injection H as <-. apply Hc in Hb. discriminate.
    + split; [discriminate|].
      intros [_ [H | (c' & H & _)]]; discriminate.
    + split; [|reflexivity]. intros _. split; [reflexivity | left; reflexivity].
  - split; [discriminate | intros [H _]; discriminate].
Qed.

End CookieFacts.

(** ** Both files: opening the page with backoff *)

Module NavFacts.
Section WithHost.

Context {W : Type} {host : Nav.Host W}.

Lemma next_backoff_nonneg (b : Q) : 0 <= b -> 0 <= Nav.next_backoff b.
Proof.
  intros H. unfold Nav.next_backoff. apply Q.min_glb; [|lra].
  apply Qmult_le_0_compat; [exact H | lra].
Qed.

Lemma open_target_from_shape (fuel : nat) (b : Q) (w : W) :
  0 <= b ->
  exists k reached,
    result (Nav.open_target_from fuel b w) = Ok reached
    /\ events (Nav.open_target_from fuel b w)
       = Nav.retries k b ++ (if reached : bool then [Nav.Goto true] else [])
    /\ (k <= fuel)%nat
    /\ (reached = false -> k = fuel).
Proof.
  revert b w. induction fuel as [|fuel IH]; intros b w Hb.
  - exists 0%nat, false. repeat split; auto.
  - cbn [Nav.open_target_from].
    rewrite (bind_ok _ _ _ (try_call_eq Nav.Event Nav.page_goto w)).
    set (w1 := snd (Nav.page_goto w)).
    destruct (fst (Nav.page_goto w)) as [[]|].
    + exists 0%nat, true. rewrite bind_emit.
      rewrite !result_mk, !events_mk.
      split; [reflexivity|]. split; [reflexivity|]. split; [lia | discriminate].
    + rewrite bind_emit, bind_log.
      assert (Hs : Nav.sleep b w1 = (Ok tt, Nav.time_sleep b w1, [Nav.Slept b])).
      { unfold Nav.sleep. apply Qle_bool_iff in Hb. rewrite Hb. reflexivity. }
      rewrite (bind_ok _ _ _ Hs).
      destruct (IH (Nav.next_backoff b) (Nav.time_sleep b w1)
                  (next_backoff_nonneg Hb)) as (k & reached & Hr & He & Hk & Hf).
      exists (S k), reached.
      rewrite !result_mk, !world_mk, !events_mk.
      cbn [app Nav.retries]. rewrite He.
      split; [exact Hr|]. split; [reflexivity|]. split; [lia|].
      intros Hx. rewrite (Hf Hx). reflexivity.
Qed.

(** X17.  [open_target] never raises.  Its events are failed loads, each followed
    by one sleep, and a successful load as the last event when the page
    was reached; with the rounds used up, every round was a failed load. *)
Theorem open_target_retries (fuel : nat) (w : W) :
  exists k reached,
    result (Nav.open_target fuel w) = Ok reached
    /\ events (Nav.open_target fuel w)
       = Nav.retries k 1 ++ (if reached : bool then [Nav.Goto true] else [])
    /\ (k <= fuel)%nat
    /\ (reached = false -> k = fuel).
Proof. apply open_target_from_shape. lra. Qed.

End WithHost.

Lemma sleeps_at_cap (j : nat) : Nav.sleeps (Nav.retries j 10) = repeat 10 j.
Proof.
  induction j as [|j IH]; [reflexivity|].
  cbn [Nav.retries Nav.sleeps repeat].
  change (Nav.next_backoff 10) with 10. rewrite IH. reflexivity.
Qed.

Lemma retries_sleeps (k : nat) :
  Nav.sleeps (Nav.retries k 1) = Nav.backoff_table k
  /\ Forall (fun d => 1 <= d <= 10) (Nav.backoff_table k).
Proof.
  assert (Htab : Nav.sleeps (Nav.retries k 1) = Nav.backoff_table k).
  { destruct k as [|[|[|[|j]]]]; try reflexivity.
    unfold Nav.backoff_table.
    replace (S (S (S (S j))) - 4)%nat with j by lia.
    change (Nav.sleeps (Nav.retries (S (S (S (S j)))) 1))
      with (1 :: (9 # 5) :: (81 # 25) :: (729 # 125)
              :: Nav.sleeps (Nav.retries j 10)).
    rewrite sleeps_at_cap. cbn [firstn app].
    f_equal. f_equal. f_equal. f_equal.
    clear. induction j as [|j IH]; [reflexivity|].
    cbn [repeat firstn]. rewrite <- IH. reflexivity. }
  split; [exact Htab|].
  unfold Nav.backoff_table. apply Forall_forall. intros d Hd.
  assert (Hin : In d ([1; 9 # 5; 81 # 25; 729 # 125] ++ repeat 10 (k - 4))).
  { rewrite <- (firstn_skipn k). apply in_or_app. left. exact Hd. }
  clear Hd. apply in_app_or in Hin. destruct Hin as [Hd | Hd].
  - simpl in Hd. destruct Hd as [<- | [<- | [<- | [<- | []]]]];
      unfold Qle; simpl; lia.
  - apply repeat_spec in Hd. subst d. unfold Qle; simpl; lia.
Qed.

Lemma nav_sleeps_app (a b : list Nav.Event) :
  Nav.sleeps (a ++ b) = Nav.sleeps a ++ Nav.sleeps b.
Proof.
  induction a as [|e a IH]; simpl; [reflexivity|].
  destruct e; simpl; rewrite IH; reflexivity.
Qed.

Section Waits.

Context {W : Type} {host : Nav.Host W}.

(** X18.  The waits of [open_target] between the loads are 1, 1.8, 3.24 and
    5.832 seconds and then 10 seconds each, as many as there were failed
    loads: none is shorter than a second or longer than ten. *)
Theorem backoff_waits (fuel : nat) (w : W) :
  exists k,
    (k <= fuel)%nat
    /\ Nav.sleeps (events (Nav.open_target fuel w)) = Nav.backoff_table k
    /\ Forall (fun d => 1 <= d <= 10)
         (Nav.sleeps (events (Nav.open_target fuel w))).
Proof.
  assert (H1 : 0 <= 1) by lra.
  destruct (open_target_from_shape fuel w H1)
    as (k & reached & _ & He & Hk & _).
  unfold Nav.open_target. rewrite He, nav_sleeps_app.
  assert (Ht : Nav.sleeps (if reached then [Nav.Goto true] else []) = []).
  { destruct reached; reflexivity. }
  rewrite Ht, app_nil_r. destruct (retries_sleeps k) as [Htab Hall].
  exists k. rewrite Htab. split; [exact Hk|]. split; [reflexivity | exact Hall].
Qed.

End Waits.

End NavFacts.

(** ** autoMowan.py: the brick workshop *)

Module FactoryFacts.
Section WithHost.

Variable interval : Z.
Context {W : Type} {host : Factory.Host W}.

Lemma click_rounds_shape (n : nat) (acc : Z) (w : W) :
  exists j,
    (j <= n)%nat
    /\ result (Factory.click_rounds interval n acc w) = Ok (acc + Z.of_nat j)%Z
    /\ Factory.clicks (events (Factory.click_rounds interval n acc w))
       = repeat true j ++ (if (j <? n)%nat then [false] else [])
    /\ Factory.pauses (events (Factory.click_rounds interval n acc w))
       = repeat interval j.
Proof.
  revert acc w. induction n as [|n IH]; intros acc w.
  - exists 0%nat. cbn. rewrite Z.add_0_r. repeat split. lia.
  - cbn [Factory.click_rounds].
    rewrite (bind_ok _ _ _ (try_call_eq Factory.Event Factory.factory_click w)).
    set (w1 := snd (Factory.factory_click w)).
    destruct (fst (Factory.factory_click w)) as [[]|].
    + rewrite bind_emit, bind_log, bind_emit, bind_act.
      destruct (IH (acc + 1)%Z (Factory.wait_for_timeout interval w1))
        as (j & Hj & Hr & Hc & Hp).
      rewrite !result_mk, !events_mk. cbn [app].
      exists (S j). split; [lia|]. split; [|split].
      * rewrite Hr. f_equal. lia.
      * cbn [Factory.clicks repeat app]. rewrite Hc.
        change (S j <? S n)%nat with (j <? n)%nat. reflexivity.
      * cbn [Factory.pauses repeat]. rewrite Hp. reflexivity.
    + rewrite bind_emit, bind_log. exists 0%nat.
      rewrite !result_mk, !events_mk. cbn. rewrite Z.add_0_r.
      repeat split. lia.
Qed.

(** X19.  [click_brick_factory] never raises.  It clicks until the first click
    that fails or until [clicks] clicks went through, returns the number
    of clicks that went through, and pauses once after each of them: a
    failed click is the last one and is followed by no pause. *)
Theorem brick_clicks_stop_at_failure (clicks : Z) (w : W) :
  exists s,
    result (Factory.click_brick_factory interval clicks w) = Ok (Z.of_nat s)
    /\ (s <= Z.to_nat clicks)%nat
    /\ Factory.clicks (events (Factory.click_brick_factory interval clicks w))
       = repeat true s ++ (if (s <? Z.to_nat clicks)%nat then [false] else [])
    /\ Factory.pauses (events (Factory.click_brick_factory interval clicks w))
       = repeat interval s.
Proof.
  unfold Factory.click_brick_factory.
  destruct (click_rounds_shape (Z.to_nat clicks) 0 w) as (j & Hj & Hr & Hc & Hp).
  pose proof (triple_eta (Factory.click_rounds interval (Z.to_nat clicks) 0 w))
    as Heta.
  rewrite Hr in Heta. rewrite (bind_ok _ _ _ Heta), bind_log.
  rewrite !result_mk, !events_mk. unfold ret at 1. unfold events at 2 4.
  cbn [snd]. rewrite !app_nil_r.
  exists j. repeat split; assumption.
Qed.

Lemma factory_sleep_one (w : W) :
  Factory.sleep 1 w = (Ok tt, Factory.time_sleep 1 w, [Factory.Slept 1]).
Proof. reflexivity. Qed.

Lemma poll_ready_shape (fuel : nat) (deadline : Q) (w : W) :
  exists k r wf,
    Factory.poll_ready fuel deadline w
    = (Ok r, wf,
       Factory.idle_polls k
       ++ (match r with Some true => [Factory.Polled true] | _ => [] end))
    /\ (k <= fuel)%nat
    /\ (r = None -> k = fuel).
Proof.
  revert w. induction fuel as [|fuel IH]; intros w.
  - exists 0%nat, None, w. repeat split; auto.
  - cbn [Factory.poll_ready].
    unfold bind at 1. unfold call_ok at 1.
    destruct (Factory.time_time w) as [t w1].
    destruct (negb (Qle_bool deadline t)).
    + rewrite (bind_ok _ _ _ (try_call_eq Factory.Event Factory.factory_evaluate w1)).
      set (w2 := snd (Factory.factory_evaluate w1)).
      assert (Hidle :
        exists k r wf,
          (Factory.sleep 1 ;;; Factory.poll_ready fuel deadline) w2
          = (Ok r, wf,
             Factory.Slept 1
             :: Factory.idle_polls k
                ++ (match r with Some true => [Factory.Polled true] | _ => [] end))
          /\ (k <= fuel)%nat /\ (r = None -> k = fuel)).
      { rewrite (bind_ok _ _ _ (factory_sleep_one w2)).
        destruct (IH (Factory.time_sleep 1 w2)) as (k & r & wf & He & Hk & Hn).
        rewrite He. exists k, r, wf. repeat split; auto. }
      destruct Hidle as (k & r & wf & He & Hk & Hn).
      destruct (fst (Factory.factory_evaluate w1)) as [[|]|]; rewrite bind_emit.
      * exists 0%nat, (Some true), w2.
        split; [reflexivity|]. split; [lia | discriminate].
      * rewrite He. exists (S k), r, wf.
        split; [reflexivity|]. split; [lia|]. intros Hx. rewrite (Hn Hx).
        reflexivity.
      * rewrite He. exists (S k), r, wf.
        split; [reflexivity|]. split; [lia|]. intros Hx. rewrite (Hn Hx).
        reflexivity.
    + rewrite bind_log. exists 0%nat, (Some false), w1.
      split; [reflexivity|]. split; [lia | discriminate].
Qed.

(** X20.  [wait_for_brick_factory_ready] raises only when waiting for the element
    fails with something else than a timeout.  Otherwise its events are
    polls that found the workshop locked, each followed by a sleep of one
    second, and it answers [True] exactly when a last poll found the
    workshop unlocked; a wait that timed out answers [False] with no poll
    at all. *)
Theorem factory_ready_after_true_poll (fuel : nat) (timeout_sec : Z) (w : W) :
  match fst (Factory.factory_wait_for (timeout_sec * 1000) w) with
  | Factory.Failed =>
      result (Factory.wait_for_brick_factory_ready fuel timeout_sec w) = Raised
  | Factory.TimedOut =>
      result (Factory.wait_for_brick_factory_ready fuel timeout_sec w)
      = Ok (Some false)
      /\ events (Factory.wait_for_brick_factory_ready fuel timeout_sec w) = []
  | Factory.Attached =>
      exists k r,
        result (Factory.wait_for_brick_factory_ready fuel timeout_sec w) = Ok r
        /\ events (Factory.wait_for_brick_factory_ready fuel timeout_sec w)
           = Factory.idle_polls k
             ++ (match r with Some true => [Factory.Polled true] | _ => [] end)
        /\ (k <= fuel)%nat
        /\ (r = None -> k = fuel)
  end.
Proof.
  unfold Factory.wait_for_brick_factory_ready, bind, call_ok.
  destruct (Factory.factory_wait_for (timeout_sec * 1000) w) as [[| |] w1];
    cbn [fst].
  - destruct (Factory.time_time w1) as [t w2].
    destruct (poll_ready_shape fuel (t + inject_Z timeout_sec) w2)
      as (k & r & wf & He & Hk & Hn).
    rewrite He. exists k, r. repeat split; auto.
  - split; reflexivity.
  - reflexivity.
Qed.

Section Clock.

Variable clock : W -> Q.
Hypothesis Hclock : Factory.clock_runs clock.

Lemma poll_ready_ends (k : nat) (deadline : Q) (w : W) :
  deadline <= clock w + inject_Z (Z.of_nat k) ->
  exists b wf ef,
    Factory.poll_ready (S k) deadline w = (Ok (Some b), wf, ef).
Proof.
  destruct Hclock as (Htime & Heval & Hsleep).
  revert w. induction k as [|k IH]; intros w Hd.
  - cbn [Factory.poll_ready].
    unfold bind at 1. unfold call_ok at 1.
    destruct (Htime w) as [Ht _].
    destruct (Factory.time_time w) as [t w1]. cbn [fst] in Ht. subst t.
    assert (Hle : Qle_bool deadline (clock w) = true).
    { apply Qle_bool_iff. change (inject_Z (Z.of_nat 0)) with 0 in Hd. lra. }
    rewrite Hle. cbn [negb]. rewrite bind_log.
    eexists; eexists; eexists; reflexivity.
  - remember (S k) as n eqn:Hn. cbn [Factory.poll_ready].
    unfold bind at 1. unfold call_ok at 1.
    destruct (Htime w) as [Ht Hmono].
    destruct (Factory.time_time w) as [t w1]. cbn [fst snd] in Ht, Hmono. subst t.
    destruct (negb (Qle_bool deadline (clock w))).
    + rewrite (bind_ok _ _ _ (try_call_eq Factory.Event Factory.factory_evaluate w1)).
      pose proof (Heval w1) as He.
      set (w2 := snd (Factory.factory_evaluate w1)) in *.
      assert (Hnext : exists b wf ef,
                 Factory.poll_ready n deadline (Factory.time_sleep 1 w2)
                 = (Ok (Some b), wf, ef)).
      { subst n. apply IH. pose proof (Hsleep w2 1) as Hs.
        rewrite Nat2Z.inj_succ, <- Z.add_1_r, inject_Z_plus in Hd.
        change (inject_Z 1) with 1 in Hd. lra. }
      destruct Hnext as (b & wf & ef & Hb).
      destruct (fst (Factory.factory_evaluate w1)) as [[|]|]; rewrite bind_emit;
        rewrite ?(bind_ok _ _ _ (factory_sleep_one w2)), ?Hb;
        eexists; eexists; eexists; reflexivity.
    + rewrite bind_log. eexists; eexists; eexists; reflexivity.
Qed.

(** X21.  With a clock that runs, and a timeout that is not negative, the poll of
    the workshop ends within [timeout_sec + 1] rounds: the function
    answers, or raises because waiting for the element failed. *)
Theorem factory_wait_ends (timeout_sec : Z) (w : W) :
  (0 <= timeout_sec)%Z ->
  match fst (Factory.factory_wait_for (timeout_sec * 1000) w) with
  | Factory.Failed =>
      result (Factory.wait_for_brick_factory_ready
                (S (Z.to_nat timeout_sec)) timeout_sec w) = Raised
  | _ =>
      exists b,
        result (Factory.wait_for_brick_factory_ready
                  (S (Z.to_nat timeout_sec)) timeout_sec w) = Ok (Some b)
  end.
Proof.
  intros H0. unfold Factory.wait_for_brick_factory_ready, bind, call_ok.
  destruct (Factory.factory_wait_for (timeout_sec * 1000) w) as [[| |] w1];
    cbn [fst].
  - destruct Hclock as (Htime & _).
    destruct (Htime w1) as [Ht Hmono].
    destruct (Factory.time_time w1) as [t w2]. cbn [fst snd] in Ht, Hmono. subst t.
    destruct (@poll_ready_ends (Z.to_nat timeout_sec)
                (clock w1 + inject_Z timeout_sec) w2) as (b & wf & ef & Hb).
    { rewrite Z2Nat.id by exact H0. lra. }
    rewrite Hb. exists b. reflexivity.
  - exists false. reflexivity.
  - reflexivity.
Qed.

End Clock.

End WithHost.
End FactoryFacts.

(** ** autoMowan.py: the cleaning button *)

Module ButtonFacts.
Section WithHost.

Context {W : Type} {host : Button.Host W}.

(** X22.  On a page where the button reads as [count], [visible], [disabled] and
    [aria], [click_clean_button] returns; it clicks once when the button is
    there, visible and carries no [disabled] attribute and no
    [aria-disabled="true"], and does not click otherwise.  A click that
    fails is not an error. *)
Theorem clean_button_clicked_iff_enabled (w : W) (count : Z) (visible : bool)
        (disabled aria : option text) :
  Button.reads w count visible disabled aria ->
  result (Button.click_clean_button w) = Ok tt
  /\ List.length (events (Button.click_clean_button w))
     = (if Button.enabled count visible disabled aria then 1 else 0)%nat.
Proof.
  intros (Hc & Hv & Hd & Ha).
  unfold Button.click_clean_button, Button.enabled, bind, try_, call, emit, log, ret.
  rewrite Hc. cbv beta iota.
  destruct (count =? 0)%Z; [split; reflexivity|].
  rewrite Hv. cbv beta iota. destruct visible; [|split; reflexivity].
  cbn [negb]. cbv beta iota. rewrite Hd. cbv beta iota. rewrite Ha.
  cbv beta iota.
  destruct (Button.is_none disabled); [|split; reflexivity].
  destruct (Button.is_true_text aria); [split; reflexivity|].
  cbn [negb andb]. cbv beta iota.
  destruct (Button.btn_scroll_into_view w) as [r1 w1].
  destruct (Button.btn_click w1) as [[[]|] w2]; split; reflexivity.
Qed.

(** X23.  Whatever the page does, [click_clean_button] clicks at most once, and
    it raises only when counting the button raises. *)
Theorem clean_button_at_most_one_click (w : W) :
  (List.length (events (Button.click_clean_button w)) <= 1)%nat
  /\ (result (Button.click_clean_button w) = Raised
      <-> fst (Button.btn_count w) = Raised).
Proof.
  unfold Button.click_clean_button, bind, try_, call, emit, log, ret.
  destruct (Button.btn_count w) as [[n|] w0]; cbn [fst]; cbv beta iota;
    [|split; [apply Nat.le_0_l | split; reflexivity]].
  assert (Hno : forall x : Res unit, x = Ok tt -> (x = Raised <-> Ok n = Raised)).
  { intros x ->. split; discriminate. }
  destruct (n =? 0)%Z; [split; [apply Nat.le_0_l | apply Hno; reflexivity]|].
  destruct (Button.btn_is_visible w0) as [[[|]|] w1]; cbn [negb]; cbv beta iota;
    try (split; [apply Nat.le_0_l | apply Hno; reflexivity]).
  destruct (Button.btn_get_attribute "disabled" w1) as [[d|] w2]; cbv beta iota;
    try (split; [apply Nat.le_0_l | apply Hno; reflexivity]).
  destruct (Button.btn_get_attribute "aria-disabled" w2) as [[a|] w3];
    cbv beta iota;
    try (split; [apply Nat.le_0_l | apply Hno; reflexivity]).
  destruct (Button.is_none d && negb (Button.is_true_text a)); cbv beta iota;
    try (split; [apply Nat.le_0_l | apply Hno; reflexivity]).
  destruct (Button.btn_scroll_into_view w3) as [r1 w4].
  destruct (Button.btn_click w4) as [[[]|] w5];
    (split; [apply Nat.le_refl | apply Hno; reflexivity]).
Qed.

End WithHost.
End ButtonFacts.

(** ** autoPlant.py: seeds and planting *)

Module PlantingFacts.
Section WithHost.

Context {W : Type} {host : Planting.Host W}.

Lemma first_unlocked_eq (w : W) (cnt : text -> Z) (texts : list text) :
  Planting.seeds_read w cnt ->
  Planting.first_unlocked texts w
  = (Ok (List.find (fun t => (cnt t >? 0)%Z) texts), w, []).
Proof.
  intros Hread. induction texts as [|t rest IH]; [reflexivity|].
  cbn [Planting.first_unlocked List.find].
  assert (Hcall : call (E := Planting.Event) (Planting.seed_count t) w
                  = (Ok (cnt t), w, [])).
  { unfold call. rewrite (Hread t). reflexivity. }
  rewrite (bind_ok _ _ _ Hcall).
  destruct (cnt t >? 0)%Z; [reflexivity|]. rewrite IH. reflexivity.
Qed.

(** X24.  On a shelf that reads as [cnt], [pick_seed_locator] returns without an
    event.  A seed it picks has an unlocked card; a fallback seed is picked
    only when no preferred seed has one; and no seed is picked only when
    none of the four has one. *)
Theorem seed_preferred_first (w : W) (cnt : text -> Z) :
  Planting.seeds_read w cnt ->
  exists r,
    Planting.pick_seed_locator w = (Ok r, w, [])
    /\ match r with
       | Some (Planting.Preferred, t) =>
           In t Planting.SEED_PREFERRED_TEXTS /\ (0 < cnt t)%Z
       | Some (Planting.Fallback, t) =>
           In t Planting.SEED_FALLBACK_TEXTS /\ (0 < cnt t)%Z
           /\ Forall (fun p => (cnt p <= 0)%Z) Planting.SEED_PREFERRED_TEXTS
       | None =>
           Forall (fun p => (cnt p <= 0)%Z)
             (Planting.SEED_PREFERRED_TEXTS ++ Planting.SEED_FALLBACK_TEXTS)
       end.
Proof.
  intros Hread. unfold Planting.pick_seed_locator.
  assert (Hnone : forall texts,
             List.find (fun t => (cnt t >? 0)%Z) texts = None ->
             Forall (fun p => (cnt p <= 0)%Z) texts).
  { intros texts Hf. apply Forall_forall. intros p Hp.
    pose proof (find_none _ _ Hf p Hp) as Hx. cbv beta in Hx.
    rewrite Z.gtb_ltb in Hx. apply Z.ltb_ge in Hx. exact Hx. }
  rewrite (bind_ok _ _ _ (first_unlocked_eq Planting.SEED_PREFERRED_TEXTS Hread)).
  destruct (List.find (fun t => (cnt t >? 0)%Z) Planting.SEED_PREFERRED_TEXTS)
    as [t|] eqn:Hp.
  - eexists. split; [reflexivity|]. apply find_some in Hp.
    destruct Hp as [Hin Hgt]. split; [exact Hin | apply Z.gtb_lt; exact Hgt].
  - rewrite (bind_ok _ _ _ (first_unlocked_eq Planting.SEED_FALLBACK_TEXTS Hread)).
    destruct (List.find (fun t => (cnt t >? 0)%Z) Planting.SEED_FALLBACK_TEXTS)
      as [t|] eqn:Hf.
    + eexists. split; [reflexivity|]. apply find_some in Hf.
      destruct Hf as [Hin Hgt].
      split; [exact Hin|]. split; [apply Z.gtb_lt; exact Hgt | auto].
    + eexists. split; [reflexivity|]. apply Forall_app. split; auto.
Qed.

Lemma plot_clicks_app (a b : list Planting.Event) :
  Planting.plot_clicks (a ++ b) = Planting.plot_clicks a ++ Planting.plot_clicks b.
Proof.
  induction a as [|e a IH]; simpl; [reflexivity|].
  destruct e; simpl; rewrite IH; reflexivity.
Qed.

Lemma seed_clicks_app (a b : list Planting.Event) :
  Planting.seed_clicks (a ++ b) = Planting.seed_clicks a ++ Planting.seed_clicks b.
Proof.
  induction a as [|e a IH]; simpl; [reflexivity|].
  destruct e; simpl; rewrite IH; reflexivity.
Qed.

Lemma subseq_length {A} (l1 l2 : list A) :
  Planting.subseq l1 l2 -> (List.length l1 <= List.length l2)%nat.
Proof. induction 1; simpl; lia. Qed.

Lemma is_planted_eq (sel : text) (w : W) :
  exists b wf, Planting.is_planted_selector sel w = (Ok b, wf, []).
Proof.
  unfold Planting.is_planted_selector.
  rewrite (bind_ok _ _ _ (try_call_eq Planting.Event (Planting.plot_is_planted sel) w)).
  destruct (fst (Planting.plot_is_planted sel w)) as [b|];
    eexists; eexists; reflexivity.
Qed.

Lemma planting_wait_eq (ms : Z) (w : W) :
  Planting.page_wait_for_timeout ms w
  = (Ok tt, Planting.wait_for_timeout ms w, [Planting.Waited ms]).
Proof. reflexivity. Qed.

(** The loop over the empty plots never raises; it returns the number it
    started from plus the number of plot clicks that went through; it
    clicks no seed; and the plots it clicks at are plots of the list, each
    at most once and in the order of the list. *)
Lemma plant_each_shape (keys : list text) (acc : Z) (w : W) :
  exists wf ev,
    Planting.plant_each keys acc w
    = (Ok (acc + Z.of_nat (Planting.planted ev))%Z, wf, ev)
    /\ Planting.seed_clicks ev = []
    /\ Planting.subseq (List.map fst (Planting.plot_clicks ev)) keys.
Proof.
  revert acc w. induction keys as [|sel keys IH]; intros acc w.
  - exists w, []. cbn. rewrite Z.add_0_r. repeat split. constructor.
  - cbn [Planting.plant_each].
    destruct (is_planted_eq sel w) as (b & w1 & Hb).
    rewrite (bind_ok _ _ _ Hb). destruct b.
    + rewrite bind_log.
      destruct (IH acc w1) as (wf & ev & He & Hs & Hsub).
      rewrite He. exists wf, ev. split; [reflexivity|]. split; [exact Hs|].
      apply Planting.subseq_skip. exact Hsub.
    + rewrite (bind_ok _ _ _
                 (try_call_eq Planting.Event (Planting.plot_click sel) w1)).
      set (w2 := snd (Planting.plot_click sel w1)).
      destruct (fst (Planting.plot_click sel w1)) as [[]|].
      * rewrite bind_emit, (bind_ok _ _ _ (planting_wait_eq 150 w2)), bind_log.
        rewrite (bind_ok _ _ _ (planting_wait_eq 150 _)).
        destruct (IH (acc + 1)%Z
                    (Planting.wait_for_timeout 150
                       (Planting.wait_for_timeout 150 w2)))
          as (wf & ev & He & Hs & Hsub).
        rewrite He. rewrite !result_mk, !world_mk, !events_mk. cbn [app].
        exists wf, (Planting.ClickPlot sel true :: Planting.Waited 150
                      :: Planting.Waited 150 :: ev).
        split; [|split].
        -- f_equal. f_equal. f_equal. unfold Planting.planted. cbn. lia.
        -- cbn. exact Hs.
        -- cbn. apply Planting.subseq_take. exact Hsub.
      * rewrite bind_emit, bind_log, (bind_ok _ _ _ (planting_wait_eq 150 w2)).
        destruct (IH acc (Planting.wait_for_timeout 150 w2))
          as (wf & ev & He & Hs & Hsub).
        rewrite He. rewrite !result_mk, !world_mk, !events_mk. cbn [app].
        exists wf, (Planting.ClickPlot sel false :: Planting.Waited 150 :: ev).
        split; [|split].
        -- reflexivity.
        -- cbn. exact Hs.
        -- cbn. apply Planting.subseq_take. exact Hsub.
Qed.

Local Abbreviation silent := (all_events (fun _ : Planting.Event => False)).

Lemma silent_nil {A} (m : M W Planting.Event A) (w : W) :
  silent m -> events (m w) = [].
Proof.
  intros H. specialize (H w). destruct (events (m w)) as [|e l]; [reflexivity|].
  inversion H as [|? ? Hf _]. destruct Hf.
Qed.

Lemma plot_key_selector_silent (i : nat) : silent (Planting.plot_key_selector i).
Proof. unfold Planting.plot_key_selector. repeat all_events_step. Qed.

Lemma collect_keys_silent (i n : nat) (acc : list text) :
  silent (Planting.collect_keys i n acc).
Proof.
  revert i acc. induction n as [|n IH]; intros i acc; cbn [Planting.collect_keys].
  - apply all_ret.
  - apply all_bind; [apply plot_key_selector_silent | intros sel; apply IH].
Qed.

Lemma first_unlocked_silent (texts : list text) :
  silent (Planting.first_unlocked texts).
Proof.
  induction texts as [|t rest IH]; cbn [Planting.first_unlocked].
  - apply all_ret.
  - apply all_bind; [apply all_call | intros n].
    destruct (n >? 0)%Z; [apply all_ret | exact IH].
Qed.

Lemma pick_seed_silent : silent Planting.pick_seed_locator.
Proof.
  unfold Planting.pick_seed_locator.
  apply all_bind; [apply first_unlocked_silent | intros [t|]];
    [apply all_ret|].
  apply all_bind; [apply first_unlocked_silent | intros [t|]]; apply all_ret.
Qed.

Lemma collect_keys_length (n i : nat) (acc keys : list text) (w wf : W)
      (ev : list Planting.Event) :
  Planting.collect_keys i n acc w = (Ok keys, wf, ev) ->
  List.length keys = (List.length acc + n)%nat.
Proof.
  revert i acc w wf ev.
  induction n as [|n IH]; intros i acc w wf ev; cbn [Planting.collect_keys].
  - intros H. injection H as <- _ _. lia.
  - destruct (Planting.plot_key_selector i w) as [[[sel|] w1] e1] eqn:Hk.
    + rewrite (bind_ok _ _ _ Hk). intros H.
      pose proof (triple_eta (Planting.collect_keys (S i) n (acc ++ [sel]) w1))
        as Heta.
      injection H as Hr _ _. rewrite Hr in Heta.
      apply IH in Heta. rewrite Heta, length_app. simpl. lia.
    + rewrite (bind_raised _ _ _ Hk). discriminate.
Qed.

Lemma call_ok_eq {A} (op : W -> A * W) (w : W) :
  call_ok (E := Planting.Event) op w = (Ok (fst (op w)), snd (op w), []).
Proof. unfold call_ok. destruct (op w). reflexivity. Qed.

Lemma planted_app (a b : list Planting.Event) :
  Planting.planted (a ++ b) = (Planting.planted a + Planting.planted b)%nat.
Proof.
  unfold Planting.planted. rewrite plot_clicks_app, filter_app, length_app.
  reflexivity.
Qed.

Lemma planting_shape (w : W) :
  exists res wf ev,
    Planting.plant_on_all_empty_slots w = (res, wf, ev)
    /\ (forall v, res = Ok v -> v = Z.of_nat (Planting.planted ev))
    /\ (Planting.plot_clicks ev <> [] -> Planting.seed_clicks ev = [true])
    /\ (List.length (Planting.seed_clicks ev) <= 1)%nat
    /\ (forall c, fst (Planting.empty_count w) = Ok c ->
          (List.length (Planting.plot_clicks ev) <= Z.to_nat c)%nat).
Proof.
  unfold Planting.plant_on_all_empty_slots.
  destruct (fst (Planting.empty_count w)) as [c|] eqn:Hc.
  2: { rewrite (bind_raised _ _ _ (call_raised Planting.Event _ w Hc)).
       eexists; eexists; eexists. split; [reflexivity|].
       cbn. repeat split; try discriminate; try congruence; intros; lia. }
  rewrite (bind_ok _ _ _ (call_eq Planting.Event _ w Hc)).
  set (w0 := snd (Planting.empty_count w)).
  destruct (c <=? 0)%Z.
  { rewrite bind_log. eexists; eexists; eexists. split; [reflexivity|].
    cbn. repeat split; intros; try congruence; lia. }
  destruct (Planting.collect_keys 0 (Z.to_nat c) [] w0) as [[[keys|] w1] e1] eqn:Hk.
  2: { rewrite (bind_raised _ _ _ Hk).
       pose proof (silent_nil w0 (collect_keys_silent 0 (Z.to_nat c) [])) as He.
       rewrite Hk in He. cbn in He. subst e1.
       eexists; eexists; eexists. split; [reflexivity|].
       cbn. repeat split; try discriminate; try congruence; intros; lia. }
  pose proof (silent_nil w0 (collect_keys_silent 0 (Z.to_nat c) [])) as He1.
  rewrite Hk in He1. cbn in He1. subst e1.
  pose proof (collect_keys_length _ _ _ _ Hk) as Hlen. cbn in Hlen.
  rewrite (bind_ok _ _ _ Hk).
  destruct (Planting.pick_seed_locator w1) as [[[seed|] w2] e2] eqn:Hp.
  2: { rewrite (bind_raised _ _ _ Hp).
       pose proof (silent_nil w1 pick_seed_silent) as He.
       rewrite Hp in He. cbn in He. subst e2.
       eexists; eexists; eexists. split; [reflexivity|].
       cbn. repeat split; try discriminate; try congruence; intros; lia. }
  pose proof (silent_nil w1 pick_seed_silent) as He2.
  rewrite Hp in He2. cbn in He2. subst e2.
  rewrite (bind_ok _ _ _ Hp).
  destruct seed as [[which t]|].
  2: { rewrite bind_log. eexists; eexists; eexists. split; [reflexivity|].
       cbn. repeat split; intros; try congruence; lia. }
  rewrite (bind_ok _ _ _ (call_ok_eq _ w2)).
  set (w3 := snd (Planting.wait_for_seeds_root w2)).
  assert (Hgo :
    exists res wf ev,
      (_ <- try_ (call (Planting.seed_scroll_into_view t)) ;;
       c0 <- try_ (call (Planting.seed_click t)) ;;
       match c0 with
       | Raised =>
           emit (Planting.ClickSeed false) ;;;
           log "[plant] seed click failed" ;;; ret 0%Z
       | Ok _ =>
           emit (Planting.ClickSeed true) ;;;
           log "[plant] planting mode" ;;;
           planted_ok <- Planting.plant_each keys 0 ;;
           call Planting.wait_for_load_state ;;;
           Planting.page_wait_for_timeout 300 ;;;
           ret planted_ok
       end)%monad w3 = (res, wf, ev)
      /\ (forall v, res = Ok v -> v = Z.of_nat (Planting.planted ev))
      /\ (Planting.plot_clicks ev <> [] -> Planting.seed_clicks ev = [true])
      /\ (List.length (Planting.seed_clicks ev) <= 1)%nat
      /\ (List.length (Planting.plot_clicks ev) <= List.length keys)%nat).
  { rewrite (bind_ok _ _ _ (try_call_eq Planting.Event _ w3)).
    set (w4 := snd (Planting.seed_scroll_into_view t w3)).
    rewrite (bind_ok _ _ _ (try_call_eq Planting.Event _ w4)).
    set (w5 := snd (Planting.seed_click t w4)).
    destruct (fst (Planting.seed_click t w4)) as [[]|].
    2: { rewrite bind_emit, bind_log.
         eexists; eexists; eexists. split; [reflexivity|].
         cbn. repeat split; intros; try congruence; lia. }
    rewrite bind_emit, bind_log.
    destruct (plant_each_shape keys 0 w5) as (w6 & ev & He & Hs & Hsub).
    rewrite (bind_ok _ _ _ He).
    apply subseq_length in Hsub. rewrite length_map in Hsub.
    destruct (fst (Planting.wait_for_load_state w6)) as [[]|] eqn:Hl.
    - rewrite (bind_ok _ _ _ (call_eq Planting.Event _ w6 Hl)).
      rewrite (bind_ok _ _ _ (planting_wait_eq 300 _)).
      rewrite !result_mk, !world_mk, !events_mk. cbn [app].
      eexists; eexists; eexists. split; [reflexivity|].
      unfold ret. rewrite !result_mk, !events_mk.
      cbn [Planting.seed_clicks Planting.plot_clicks Planting.planted].
      rewrite plot_clicks_app, seed_clicks_app, Hs. cbn.
      rewrite ?app_nil_r. split; [|split; [|split]].
      + intros v Hv. injection Hv as <-.
        unfold Planting.planted. cbn. rewrite plot_clicks_app. cbn.
        rewrite app_nil_r. reflexivity.
      + reflexivity.
      + cbn. lia.
      + exact Hsub.
    - rewrite (bind_raised _ _ _ (call_raised Planting.Event _ w6 Hl)).
      rewrite !result_mk, !world_mk, !events_mk. cbn [app].
      eexists; eexists; eexists. split; [reflexivity|].
      cbn [Planting.seed_clicks Planting.plot_clicks].
      rewrite plot_clicks_app, seed_clicks_app, Hs. cbn.
      rewrite ?app_nil_r. split; [|split; [|split]].
      + discriminate.
      + reflexivity.
      + cbn. lia.
      + exact Hsub. }
  destruct Hgo as (res & wf & ev & Hgo & H1 & H2 & H3 & H4).
  destruct (fst (Planting.wait_for_seeds_root w2)).
  - rewrite Hgo. rewrite !result_mk, !world_mk, !events_mk. cbn [app].
    exists res, wf, ev. split; [reflexivity|].
    split; [exact H1|]. split; [exact H2|]. split; [exact H3|].
    intros c' Hc'. injection Hc' as <-. lia.
  - rewrite Hgo. rewrite !result_mk, !world_mk, !events_mk. cbn [app].
    exists res, wf, ev. split; [reflexivity|].
    split; [exact H1|]. split; [exact H2|]. split; [exact H3|].
    intros c' Hc'. injection Hc' as <-. lia.
  - eexists; eexists; eexists. split; [reflexivity|].
    cbn. repeat split; try discriminate; try congruence; intros; lia.
Qed.

(** X25.  Whatever the page does, the number that
    [plant_on_all_empty_slots] returns is the number of plot clicks that
    went through; a plot is clicked only after the one seed click of the
    run went through; the seed is clicked at most once; and there are at
    most as many plot clicks as the page counted empty plots. *)
Theorem planting_counts_plot_clicks (w : W) :
  let r := Planting.plant_on_all_empty_slots w in
  (forall v, result r = Ok v -> v = Z.of_nat (Planting.planted (events r)))
  /\ (Planting.plot_clicks (events r) <> [] ->
      Planting.seed_clicks (events r) = [true])
  /\ (List.length (Planting.seed_clicks (events r)) <= 1)%nat
  /\ (forall c, fst (Planting.empty_count w) = Ok c ->
        (List.length (Planting.plot_clicks (events r)) <= Z.to_nat c)%nat).
Proof.
  cbv zeta. destruct (planting_shape w) as (res & wf & ev & -> & H).
  rewrite result_mk, events_mk. exact H.
Qed.

End WithHost.
End PlantingFacts.

Module LoopsFacts.
Section WithHost.

Variable py_int : text -> Res Z.
Context {W : Type} {host : Plant.Host W} {sleeper : Loops.Sleeper W}.

Lemma try_lift_eq {A} (m : M W Plant.Event A) (w : W) :
  try_ (Loops.lift m) w
  = (Ok (result (m w)), world (m w), List.map Loops.Page (events (m w))).
Proof. unfold try_, Loops.lift. destruct (m w) as [[r w1] e]. reflexivity. Qed.

Lemma sleeps_app (a b : list Loops.Event) :
  Loops.sleeps (a ++ b) = Loops.sleeps a ++ Loops.sleeps b.
Proof.
  induction a as [|e a IH]; simpl; [reflexivity|].
  destruct e; simpl; rewrite IH; reflexivity.
Qed.

Lemma sleeps_page (e : list Plant.Event) :
  Loops.sleeps (List.map Loops.Page e) = [].
Proof. induction e as [|x e IH]; simpl; [reflexivity | exact IH]. Qed.

Lemma loops_sleep_eq (d : Z) (w : W) :
  Loops.sleep_accepted d w = true ->
  Loops.sleep d w = (Ok tt, Loops.time_sleep d w, [Loops.Slept d]).
Proof. intros H. unfold Loops.sleep. rewrite H. reflexivity. Qed.

Lemma loops_sleep_refused (d : Z) (w : W) :
  Loops.sleep_accepted d w = false -> Loops.sleep d w = (Raised, w, []).
Proof. intros H. unfold Loops.sleep. rewrite H. reflexivity. Qed.

(** A sleep of no more than 9 * 10^9 seconds is accepted, and an accepted
    one is of no more than 9223372036 seconds. *)
Lemma loops_sleep_fits (d : Z) (w : W) :
  (0 <= d <= Mowan.SLEEP_SAFE_SEC)%Z -> Loops.sleep_accepted d w = true.
Proof.
  intros [H0 H1]. unfold Loops.sleep_accepted.
  pose proof (Loops.sleep_limit_safe w) as Hl.
  assert (Hs : (Mowan.SLEEP_SAFE_SEC <= Loops.SLEEP_MAX_SEC)%Z)
    by (vm_compute; discriminate).
  rewrite !andb_true_iff, !Z.leb_le. lia.
Qed.

Lemma loops_sleep_accepted_range (d : Z) (w : W) :
  Loops.sleep_accepted d w = true -> (0 <= d <= Loops.SLEEP_MAX_SEC)%Z.
Proof.
  unfold Loops.sleep_accepted. rewrite !andb_true_iff, !Z.leb_le. lia.
Qed.

(** The wait of a round: what [run_once] returned, or 60 when it raised. *)
Lemma round_wait_at_least_10 (w : W) :
  (10 <= Loops.round_wait py_int w)%Z.
Proof.
  unfold Loops.round_wait.
  destruct (result (Plant.run_once py_int w)) as [v|] eqn:Hr; [|lia].
  exact (PlantFacts.run_once_ok_at_least_10 py_int w Hr).
Qed.

Lemma loop_smart_round_eq (w : W) :
  Loops.loop_smart_round py_int w =
  let d := Loops.round_wait py_int w in
  let w1 := world (Plant.run_once py_int w) in
  let ev := List.map Loops.Page (events (Plant.run_once py_int w)) in
  if Loops.sleep_accepted d w1
  then (Ok tt, Loops.time_sleep d w1, ev ++ [Loops.Slept d])
  else (Raised, w1, ev).
Proof.
  unfold Loops.loop_smart_round, Loops.round_wait.
  rewrite (bind_ok _ _ _ (try_lift_eq (Plant.run_once py_int) w)).
  cbv zeta.
  set (d := match result (Plant.run_once py_int w) with
            | Ok v => v
            | Raised => 60%Z
            end) in *.
  assert (Hd : (match result (Plant.run_once py_int w) with
                | Ok v => ret v
                | Raised => log "[loop] run_once raised" ;;; ret 60%Z
                end) (world (Plant.run_once py_int w))
               = (Ok d, world (Plant.run_once py_int w), @nil Loops.Event)).
  { subst d. destruct (result (Plant.run_once py_int w)); reflexivity. }
  rewrite (bind_ok _ _ _ Hd).
  destruct (Loops.sleep_accepted d (world (Plant.run_once py_int w))) eqn:Hacc.
  - rewrite (loops_sleep_eq _ _ Hacc).
    rewrite !result_mk, !world_mk, !events_mk. reflexivity.
  - rewrite (loops_sleep_refused _ _ Hacc).
    rewrite !result_mk, !world_mk, !events_mk, !app_nil_r. reflexivity.
Qed.

Lemma loop_smart_sleeps (n : nat) (w : W) :
  Forall (fun d => (10 <= d <= Loops.SLEEP_MAX_SEC)%Z)
    (Loops.sleeps (events (Loops.loop_smart py_int n w)))
  /\ ((result (Loops.loop_smart py_int n w) = Ok tt
       /\ List.length (Loops.sleeps (events (Loops.loop_smart py_int n w))) = n)
      \/ (result (Loops.loop_smart py_int n w) = Raised
          /\ (List.length (Loops.sleeps (events (Loops.loop_smart py_int n w)))
              < n)%nat)).
Proof.
  revert w. induction n as [|n IH]; intros w; cbn [Loops.loop_smart].
  - split; [constructor | left; split; reflexivity].
  - pose proof (loop_smart_round_eq w) as He. cbv zeta in He.
    pose proof (round_wait_at_least_10 w) as H10.
    destruct (Loops.sleep_accepted (Loops.round_wait py_int w)
                (world (Plant.run_once py_int w))) eqn:Hacc.
    + apply loops_sleep_accepted_range in Hacc.
      rewrite (bind_ok _ _ _ He). rewrite result_mk, events_mk.
      match goal with
      | |- context [Loops.loop_smart py_int n ?w1] =>
          destruct (IH w1) as (Hf & Hr)
      end.
      rewrite !sleeps_app, sleeps_page. cbn [app Loops.sleeps List.length].
      split; [constructor; [lia | exact Hf]|].
      destruct Hr as [[Hr Hl] | [Hr Hl]];
        [left | right]; (split; [exact Hr | lia]).
    + rewrite (bind_raised _ _ _ He). rewrite result_mk, events_mk, sleeps_page.
      split; [constructor | right; split; [reflexivity | cbn; lia]].
Qed.

(** X26.  A round of [loop_smart] waits for what [run_once] returned, or
    for 60 seconds when it raised, and that is at least 10 seconds.  When
    the sleep of that length is accepted the round sleeps it, once, and
    returns; when it is not, the sleep, and with it the loop, raises.  A
    wait of no more than 9 * 10^9 seconds is accepted, and one of more than
    9223372036 seconds is not.  So in any number of rounds every sleep
    lasts between 10 and 9223372036 seconds, and the loop has made a sleep
    in each round exactly when it has not raised. *)
Theorem loop_smart_paced (n : nat) (w : W) :
  (forall w' : W,
     let d := Loops.round_wait py_int w' in
     let w1 := world (Plant.run_once py_int w') in
     let ev := List.map Loops.Page (events (Plant.run_once py_int w')) in
     (10 <= d)%Z
     /\ Loops.loop_smart_round py_int w' =
        (if Loops.sleep_accepted d w1
         then (Ok tt, Loops.time_sleep d w1, ev ++ [Loops.Slept d])
         else (Raised, w1, ev))
     /\ ((d <= 9000000000)%Z -> Loops.sleep_accepted d w1 = true)
     /\ ((9223372036 < d)%Z -> Loops.sleep_accepted d w1 = false))
  /\ Forall (fun d => (10 <= d <= 9223372036)%Z)
       (Loops.sleeps (events (Loops.loop_smart py_int n w)))
  /\ (List.length (Loops.sleeps (events (Loops.loop_smart py_int n w))) <= n)%nat
  /\ (result (Loops.loop_smart py_int n w) = Ok tt
      <-> List.length (Loops.sleeps (events (Loops.loop_smart py_int n w))) = n).
Proof.
  split.
  { intros w' d w1 ev. pose proof (round_wait_at_least_10 w') as H10.
    fold d in H10. split; [exact H10|].
    split; [apply loop_smart_round_eq|]. split.
    - intros Hd. apply loops_sleep_fits.
      change Mowan.SLEEP_SAFE_SEC with 9000000000%Z. lia.
    - intros Hd. destruct (Loops.sleep_accepted d w1) eqn:Hacc; [|reflexivity].
      apply loops_sleep_accepted_range in Hacc.
      change Loops.SLEEP_MAX_SEC with 9223372036%Z in Hacc. lia. }
  destruct (loop_smart_sleeps n w) as (Hf & Hr).
  split; [exact Hf|].
  destruct Hr as [[Hr Hl] | [Hr Hl]].
  - split; [lia|]. split; [intros _; exact Hl | intros _; exact Hr].
  - split; [lia|]. split; [rewrite Hr; discriminate | lia].
Qed.

Lemma loop_fixed_round_eq (d : Z) (w : W) :
  (0 <= d <= Mowan.SLEEP_SAFE_SEC)%Z ->
  exists wf ev,
    Loops.loop_fixed_round py_int d w = (Ok tt, wf, ev)
    /\ Loops.sleeps ev = [d].
Proof.
  intros Hd. unfold Loops.loop_fixed_round.
  rewrite (bind_ok _ _ _ (try_lift_eq (Plant.run_once py_int) w)).
  assert (Hm : forall r : Res Z,
             match r with
             | Ok _ => ret tt
             | Raised => log "[loop-fixed] raised"
             end (world (Plant.run_once py_int w))
             = (Ok tt, world (Plant.run_once py_int w),
                @nil Loops.Event)).
  { intros [v|]; reflexivity. }
  rewrite (bind_ok _ _ _ (Hm _)).
  rewrite loops_sleep_eq by (apply loops_sleep_fits; exact Hd).
  rewrite !result_mk, !world_mk, !events_mk.
  eexists; eexists. split; [reflexivity|].
  rewrite sleeps_app, sleeps_page. reflexivity.
Qed.

(** X27.  Whether or not the runs raise, no round of [loop_fixed]
    raises, and the sleeps of [n] rounds are [n] sleeps of 180 seconds. *)
Theorem loop_fixed_paced (n : nat) (w : W) :
  result (Loops.loop_fixed py_int n w) = Ok tt
  /\ Loops.sleeps (events (Loops.loop_fixed py_int n w)) = List.repeat 180%Z n.
Proof.
  unfold Loops.loop_fixed, Loops.FIXED_INTERVAL_SEC.
  change (Z.max 5 180) with 180%Z.
  revert w. induction n as [|n IH]; intros w; cbn [Loops.loop_fixed_rounds].
  - split; reflexivity.
  - destruct (@loop_fixed_round_eq 180 w
                ltac:(unfold Mowan.SLEEP_SAFE_SEC; lia))
      as (w1 & ev & He & Hs).
    rewrite (bind_ok _ _ _ He). rewrite result_mk, events_mk.
    destruct (IH w1) as (Hr & Hl).
    rewrite sleeps_app, Hs, Hl. split; [exact Hr | reflexivity].
Qed.

End WithHost.
End LoopsFacts.

(** ** autoMowan.py: the clicking loop of a session *)

Module WatchFacts.
Section WithHost.

Variable E : Type.
Context {W : Type} {host : Watch.Host W}.
Variables click_clean_button click_drops open_target : M W E unit.

Hypothesis Hclean : returns click_clean_button.
Hypothesis Hdrops : returns click_drops.
Hypothesis Hopen : returns open_target.

Local Abbreviation round_body :=
  (Watch.round_body click_clean_button click_drops open_target).
Local Abbreviation run_rounds :=
  (Watch.run_rounds click_clean_button click_drops open_target).
Local Abbreviation run_loop :=
  (Watch.run_loop click_clean_button click_drops open_target).

Lemma lift_ok (m : M W E unit) (w : W) :
  returns m ->
  Watch.lift m w
  = (Ok tt, world (m w), List.map Watch.Inner (events (m w))).
Proof.
  intros H. destruct (H w) as [[] Ha].
  unfold Watch.lift, result, world, events in *.
  destruct (m w) as [[r w1] e]. cbn [fst snd] in *. subst r. reflexivity.
Qed.

Lemma waits_app (a b : list (Watch.Event E)) :
  Watch.waits (a ++ b) = Watch.waits a ++ Watch.waits b.
Proof.
  induction a as [|e a IH]; simpl; [reflexivity|].
  destruct e; simpl; rewrite IH; reflexivity.
Qed.

Lemma waits_inner (e : list E) : Watch.waits (List.map Watch.Inner e) = [].
Proof. induction e as [|x e IH]; simpl; [reflexivity | exact IH]. Qed.

Lemma watch_call_ok_eq {A} (op : W -> A * W) (w : W) :
  call_ok (E := Watch.Event E) op w = (Ok (fst (op w)), snd (op w), []).
Proof. unfold call_ok. destruct (op w). reflexivity. Qed.

(** One round of the body returns and pauses once, for 3 seconds; on a
    clock that runs, and that the executors do not set back, it takes 3
    seconds at least. *)
Lemma round_body_eq (w : W) :
  exists wf ev,
    round_body w = (Ok tt, wf, ev)
    /\ Watch.waits ev = [Watch.CHECK_INTERVAL_MS]
    /\ (forall clock,
          Watch.clock_runs clock ->
          Watch.keeps_clock clock click_clean_button ->
          Watch.keeps_clock clock click_drops ->
          Watch.keeps_clock clock open_target ->
          clock w + 3 <= clock wf).
Proof.
  unfold Watch.round_body.
  rewrite (bind_ok _ _ _ (lift_ok w Hclean)).
  set (w1 := world (click_clean_button w)).
  rewrite (bind_ok _ _ _ (lift_ok w1 Hdrops)).
  set (w2 := world (click_drops w1)).
  rewrite bind_emit, bind_act.
  set (w3 := Watch.wait_for_timeout Watch.CHECK_INTERVAL_MS w2).
  rewrite (bind_ok _ _ _ (watch_call_ok_eq Watch.url_on_target w3)).
  set (w4 := snd (Watch.url_on_target w3)).
  assert (Hclock : forall clock,
             Watch.clock_runs clock ->
             Watch.keeps_clock clock click_clean_button ->
             Watch.keeps_clock clock click_drops ->
             clock w + 3 <= clock w4).
  { intros clock (_ & Hurl & Hwait) K1 K2.
    pose proof (K1 w) as A1. pose proof (K2 w1) as A2.
    pose proof (Hwait w2 Watch.CHECK_INTERVAL_MS) as A3.
    pose proof (Hurl w3) as A4.
    fold w1 in A1. fold w2 in A2. fold w3 in A3. fold w4 in A4.
    assert (A5 : inject_Z Watch.CHECK_INTERVAL_MS / 1000 == 3) by reflexivity.
    rewrite A5 in A3. lra. }
  destruct (fst (Watch.url_on_target w3)).
  - unfold ret. rewrite !result_mk, !world_mk, !events_mk.
    eexists; eexists. split; [reflexivity|]. split.
    + rewrite ?waits_app, ?waits_inner. cbn [app Watch.waits].
      rewrite ?waits_app, ?waits_inner. reflexivity.
    + intros clock Hc K1 K2 _. exact (Hclock clock Hc K1 K2).
  - rewrite bind_log, (lift_ok w4 Hopen).
    rewrite !result_mk, !world_mk, !events_mk.
    eexists; eexists. split; [reflexivity|]. split.
    + rewrite ?waits_app, ?waits_inner. cbn [app Watch.waits].
      rewrite ?waits_app, ?waits_inner. reflexivity.
    + intros clock Hc K1 K2 K3.
      pose proof (Hclock clock Hc K1 K2) as A. pose proof (K3 w4) as B. lra.
Qed.

Lemma run_rounds_unlimited (fuel : nat) (start : Q) (limit : option Z) (w : W) :
  limit = None \/ limit = Some 0%Z ->
  result (run_rounds fuel start limit w) = Ok false
  /\ Watch.waits (events (run_rounds fuel start limit w))
     = List.repeat Watch.CHECK_INTERVAL_MS fuel.
Proof.
  intros Hl. revert w. induction fuel as [|fuel IH]; intros w.
  - split; reflexivity.
  - cbn [Watch.run_rounds].
    destruct (round_body_eq w) as (w1 & ev & He & Hw & _).
    rewrite (bind_ok _ _ _ He). rewrite result_mk, events_mk.
    assert (Hk : match limit with
                 | Some m =>
                     if (m =? 0)%Z then run_rounds fuel start limit
                     else
                       t <- call_ok Watch.time_time ;;
                       if Qle_bool (inject_Z m) (t - start) then
                         log "[run_loop] reach session runtime limit, exiting loop" ;;;
                         ret true
                       else run_rounds fuel start limit
                 | None => run_rounds fuel start limit
                 end = run_rounds fuel start limit).
    { destruct Hl as [-> | ->]; reflexivity. }
    rewrite Hk. destruct (IH w1) as [Hr Hs].
    rewrite waits_app, Hw, Hs. split; [exact Hr | reflexivity].
Qed.

(** X28.  With no runtime limit, or with the limit 0, [run_loop] is never
    left: as long as the three executors return, after any number of rounds
    the loop is still going, having paused 3 seconds in each round. *)
Theorem run_loop_without_limit (fuel : nat) (limit : option Z) (w : W) :
  limit = None \/ limit = Some 0%Z ->
  result (run_loop fuel limit w) = Ok false
  /\ Watch.waits (events (run_loop fuel limit w))
     = List.repeat Watch.CHECK_INTERVAL_MS fuel.
Proof.
  intros Hl. unfold Watch.run_loop.
  rewrite (bind_ok _ _ _ (watch_call_ok_eq Watch.time_time w)).
  rewrite result_mk, events_mk. cbn [app].
  apply run_rounds_unlimited. exact Hl.
Qed.

Section Clock.

Variable clock : W -> Q.
Hypothesis Hclock : Watch.clock_runs clock.
Hypothesis Kclean : Watch.keeps_clock clock click_clean_button.
Hypothesis Kdrops : Watch.keeps_clock clock click_drops.
Hypothesis Kopen : Watch.keeps_clock clock open_target.

Lemma run_rounds_end (m : Z) (start : Q) (n : nat) (w : W) :
  m <> 0%Z ->
  inject_Z m <= clock w - start + 3 * inject_Z (Z.of_nat (S n)) ->
  exists k,
    (1 <= k <= S n)%nat
    /\ result (run_rounds (S n) start (Some m) w) = Ok true
    /\ Watch.waits (events (run_rounds (S n) start (Some m) w))
       = List.repeat Watch.CHECK_INTERVAL_MS k.
Proof.
  intros Hm. apply Z.eqb_neq in Hm.
  revert w. induction n as [|n IH]; intros w Hd.
  - cbn [Watch.run_rounds]. rewrite Hm.
    destruct (round_body_eq w) as (w1 & ev & He & Hw & Hc).
    specialize (Hc clock Hclock Kclean Kdrops Kopen).
    rewrite (bind_ok _ _ _ He). rewrite result_mk, events_mk.
    rewrite (bind_ok _ _ _ (watch_call_ok_eq Watch.time_time w1)).
    destruct Hclock as (Htime & _). destruct (Htime w1) as [Ht _].
    rewrite Ht.
    assert (Hle : Qle_bool (inject_Z m) (clock w1 - start) = true).
    { apply Qle_bool_iff. change (inject_Z (Z.of_nat 1)) with 1 in Hd. lra. }
    rewrite Hle. exists 1%nat. split; [lia|].
    rewrite !result_mk, !events_mk. split; [reflexivity|].
    rewrite waits_app, Hw. reflexivity.
  - remember (S n) as n1 eqn:Hn1. cbn [Watch.run_rounds]. rewrite Hm.
    destruct (round_body_eq w) as (w1 & ev & He & Hw & Hc).
    specialize (Hc clock Hclock Kclean Kdrops Kopen).
    rewrite (bind_ok _ _ _ He). rewrite result_mk, events_mk.
    rewrite (bind_ok _ _ _ (watch_call_ok_eq Watch.time_time w1)).
    pose proof Hclock as (Htime & _). destruct (Htime w1) as [Ht Hmono].
    rewrite Ht.
    destruct (Qle_bool (inject_Z m) (clock w1 - start)).
    + exists 1%nat. split; [lia|].
      rewrite !result_mk, !events_mk. split; [reflexivity|].
      rewrite waits_app, Hw. reflexivity.
    + subst n1.
      destruct (IH (snd (Watch.time_time w1))) as (k & Hk & Hr & Hs).
      { rewrite Nat2Z.inj_succ, <- Z.add_1_r, inject_Z_plus in Hd.
        change (inject_Z 1) with 1 in Hd. lra. }
      exists (S k). split; [lia|].
      rewrite !result_mk, !events_mk. split; [exact Hr|].
      rewrite !waits_app, Hw. cbn [app]. rewrite Hs. reflexivity.
Qed.

(** X29.  With a runtime limit other than 0, on a clock that runs and that
    the executors do not set back, [run_loop] is left by its [break] after
    at least one round and at most [limit / 3 + 1] rounds, each with its
    pause of 3 seconds. *)
Theorem run_loop_ends (m : Z) (w : W) :
  m <> 0%Z ->
  exists k,
    (1 <= k <= S (Z.to_nat (m / 3)))%nat
    /\ result (run_loop (S (Z.to_nat (m / 3))) (Some m) w) = Ok true
    /\ Watch.waits (events (run_loop (S (Z.to_nat (m / 3))) (Some m) w))
       = List.repeat Watch.CHECK_INTERVAL_MS k.
Proof.
  intros Hm. unfold Watch.run_loop.
  rewrite (bind_ok _ _ _ (watch_call_ok_eq Watch.time_time w)).
  rewrite result_mk, events_mk. cbn [app].
  destruct Hclock as (Htime & _). destruct (Htime w) as [Ht Hmono].
  rewrite Ht. apply run_rounds_end; [exact Hm|].
  assert (Hb : (m <= 3 * Z.of_nat (S (Z.to_nat (m / 3))))%Z).
  { pose proof (Z.mod_pos_bound m 3 ltac:(lia)) as Hmod.
    pose proof (Z.div_mod m 3 ltac:(lia)) as Hdiv. lia. }
  assert (Hq : inject_Z m <= 3 * inject_Z (Z.of_nat (S (Z.to_nat (m / 3))))).
  { change 3 with (inject_Z 3). rewrite <- inject_Z_mult.
    rewrite <- Zle_Qle. exact Hb. }
  lra.
Qed.

End Clock.

End WithHost.
End WatchFacts.

(** ** The further properties on the simulated pages *)

Lemma scheduler_sleeps_at_least_1_witness :
  (1 <= Mowan.STATUS_RECHECK_INTERVAL_SEC Mowan.default_config)%Z
  /\ (1 <= Mowan.BRICK_RECHECK_INTERVAL_SEC Mowan.default_config)%Z
  /\ SchedSpec.sleeps_at_least_1
       (events (Mowan.scheduler_rounds ascii_digit_value Mowan.default_config 2
                  SimMowan.state0 SimMowan.quiet_page)).
Proof.
  assert (H1 : (1 <= Mowan.STATUS_RECHECK_INTERVAL_SEC Mowan.default_config)%Z)
    by (simpl; lia).
  assert (H2 : (1 <= Mowan.BRICK_RECHECK_INTERVAL_SEC Mowan.default_config)%Z)
    by (simpl; lia).
  split; [exact H1|]. split; [exact H2|].
  exact (@MowanFacts.scheduler_sleeps_at_least_1 ascii_digit_value
           Mowan.default_config _ _ 2%nat SimMowan.state0 SimMowan.quiet_page
           H1 H2).
Defined.

Lemma sim_sessions_work : SchedMore.sessions_work (host := SimMowan.sim_host).
Proof.
  split; [intros w; reflexivity|]. split; [intros w; reflexivity|].
  split; [intros w; reflexivity|].
  split; intros w; eexists; reflexivity.
Qed.

Lemma fetch_wait_at_least_floor_witness :
  (forall w : SimMowan.World, fst (Mowan.open_page_session w) = Ok tt)
  /\ (forall w : SimMowan.World, fst (Mowan.browser_close w) = Ok tt)
  /\ (exists s w2,
        (Mowan.MIN_WAIT_AFTER_CHECK_SEC <= s)%Z
        /\ Mowan.fetch_countdown_wait ascii_digit_value Mowan.default_config
             "initial cleaning countdown" SimMowan.quiet_page
           = (if Mowan.eta_in_range (fst (Mowan.datetime_now w2)) s
              then Ok s else Raised,
              snd (Mowan.datetime_now w2), [Mowan.Probe Mowan.Clean]))
  /\ (exists s w2,
        (Mowan.MIN_WAIT_AFTER_CHECK_SEC <= s)%Z
        /\ Mowan.fetch_brick_countdown_wait ascii_digit_value
             Mowan.default_config "initial cleaning countdown"
             SimMowan.quiet_page
           = (if Mowan.eta_in_range (fst (Mowan.datetime_now w2)) s
              then Ok s else Raised,
              snd (Mowan.datetime_now w2), [Mowan.Probe Mowan.Brick])).
Proof.
  assert (H1 : forall w : SimMowan.World,
             fst (Mowan.open_page_session w) = Ok tt) by (intros w; reflexivity).
  assert (H2 : forall w : SimMowan.World,
             fst (Mowan.browser_close w) = Ok tt) by (intros w; reflexivity).
  split; [exact H1|]. split; [exact H2|].
  exact (@MowanMore.fetch_wait_at_least_floor ascii_digit_value
           Mowan.default_config _ _ "initial cleaning countdown"
           SimMowan.quiet_page H1 H2).
Defined.

(** The probes of the simulated page return the countdowns it shows. *)
Example fetch_examples :
  result (Mowan.fetch_countdown_wait ascii_digit_value Mowan.default_config
            "initial cleaning countdown" SimMowan.quiet_page) = Ok 600%Z
  /\ result (Mowan.fetch_brick_countdown_wait ascii_digit_value
               Mowan.default_config "initial brick countdown"
               SimMowan.quiet_page) = Ok 18000%Z.
Proof. split; vm_compute; reflexivity. Qed.

Lemma run_due_own_due_witness :
  SchedSpec.session_page ascii_digit_value Mowan.Clean SimMowan.quiet_page
  = (Ok (Some 600%Z, Some 18000%Z),
     world (SchedSpec.session_page ascii_digit_value Mowan.Clean
              SimMowan.quiet_page),
     [Mowan.Session Mowan.Clean])
  /\ result (SchedSpec.session ascii_digit_value Mowan.default_config
               Mowan.Clean SimMowan.quiet_page) = Ok (600%Z, Some 18000%Z)
  /\ exists st' w',
       Mowan.run_due ascii_digit_value Mowan.default_config Mowan.Clean
         SimMowan.state0 SimMowan.quiet_page
       = (Ok st', w', [Mowan.Session Mowan.Clean])
       /\ Mowan.due_at Mowan.Clean st' =
          fst (Mowan.time_time
                 (world (SchedSpec.session ascii_digit_value
                           Mowan.default_config Mowan.Clean
                           SimMowan.quiet_page)))
          + inject_Z (Z.max 600 Mowan.MIN_WAIT_AFTER_CHECK_SEC).
Proof.
  split; [exact quiet_session_page|]. split; [exact quiet_session|].
  exact (@MowanMore.run_due_own_due ascii_digit_value Mowan.default_config
           _ _ Mowan.Clean SimMowan.state0 SimMowan.quiet_page _ _ _ _ _
           quiet_session_page quiet_session).
Defined.

Lemma late_probe :
  SchedMore.recheck_probe ascii_digit_value Mowan.default_config Mowan.Clean
    (Mowan.time_sleep 3600 (snd (Mowan.time_time SimMowan.quiet_page)))
  = (Ok 600%Z,
     world (SchedMore.recheck_probe ascii_digit_value Mowan.default_config
              Mowan.Clean
              (Mowan.time_sleep 3600
                 (snd (Mowan.time_time SimMowan.quiet_page)))),
     [Mowan.Probe Mowan.Clean]).
Proof. vm_compute. reflexivity. Qed.

Lemma recheck_updates_active_only_witness :
  0 <= 3600
  /\ (Mowan.recheck_interval_of Mowan.default_config
        (Mowan.pick Scenes.late_state) <= Mowan.SLEEP_SAFE_SEC)%Z
  /\ 3600 < Mowan.due_at Mowan.Clean Scenes.late_state
            - fst (Mowan.time_time SimMowan.quiet_page)
  /\ exists st',
       result (Mowan.scheduler_body ascii_digit_value Mowan.default_config
                 Scenes.late_state SimMowan.quiet_page) = Ok st'
       /\ events (Mowan.scheduler_body ascii_digit_value Mowan.default_config
                    Scenes.late_state SimMowan.quiet_page)
          = [Mowan.Slept 3600; Mowan.Probe Mowan.Clean]
       /\ Mowan.due_at Mowan.Brick st' = 30000.
Proof.
  assert (H1 : 0 <= inject_Z (Mowan.recheck_interval_of Mowan.default_config
                                (Mowan.pick Scenes.late_state))).
  { vm_compute. discriminate. }
  assert (Hm : (Mowan.recheck_interval_of Mowan.default_config
                  (Mowan.pick Scenes.late_state) <= Mowan.SLEEP_SAFE_SEC)%Z).
  { vm_compute. discriminate. }
  assert (H2 : inject_Z (Mowan.recheck_interval_of Mowan.default_config
                           (Mowan.pick Scenes.late_state))
               < Mowan.due_at (Mowan.pick Scenes.late_state) Scenes.late_state
                 - fst (Mowan.time_time SimMowan.quiet_page)).
  { reflexivity. }
  split; [exact H1|]. split; [exact Hm|]. split; [exact H2|].
  destruct (@MowanMore.recheck_updates_active_only ascii_digit_value
              Mowan.default_config _ _ Scenes.late_state SimMowan.quiet_page
              _ _ _ H1 Hm H2 late_probe) as (st' & Hb & _ & Hs).
  exists st'. rewrite Hb. split; [reflexivity|]. split; [reflexivity|].
  exact Hs.
Defined.

Lemma negative_recheck_raises_witness :
  (Mowan.recheck_interval_of Scenes.hasty_config
     (Mowan.pick SimMowan.state0) < 0)%Z
  /\ 0 < Mowan.due_at (Mowan.pick SimMowan.state0) SimMowan.state0
         - fst (Mowan.time_time SimMowan.quiet_page)
  /\ Mowan.scheduler_body ascii_digit_value Scenes.hasty_config
       SimMowan.state0 SimMowan.quiet_page
     = (Raised, snd (Mowan.time_time SimMowan.quiet_page), []).
Proof.
  assert (H1 : (Mowan.recheck_interval_of Scenes.hasty_config
                  (Mowan.pick SimMowan.state0) < 0)%Z) by reflexivity.
  assert (H2 : 0 < Mowan.due_at (Mowan.pick SimMowan.state0) SimMowan.state0
                   - fst (Mowan.time_time SimMowan.quiet_page)) by reflexivity.
  split; [exact H1|]. split; [exact H2|].
  exact (@MowanMore.negative_recheck_raises ascii_digit_value
           Scenes.hasty_config _ _ SimMowan.state0 SimMowan.quiet_page H1 H2).
Defined.

(** A recheck interval of 10^10 seconds is no length of a sleep: the round
    raises. *)
Example long_recheck_raises :
  let cfg := {| Mowan.STATUS_RECHECK_INTERVAL_SEC := 10 ^ 10;
                Mowan.DEFAULT_NEXT_INTERVAL_SEC := 2 * 3600;
                Mowan.BRICK_DEFAULT_INTERVAL_SEC := 24 * 3600;
                Mowan.BRICK_RECHECK_INTERVAL_SEC := 6 * 3600 |} in
  let st := {| Mowan.next_clean_at := 10 ^ 11;
               Mowan.next_brick_at := 10 ^ 12 |} in
  result (Mowan.scheduler_body ascii_digit_value cfg st SimMowan.quiet_page)
  = Raised.
Proof. vm_compute. reflexivity. Qed.

Lemma steady_sessions_work :
  SchedMore.sessions_work (host := Scenes.steady_host).
Proof.
  split; [intros w; reflexivity|]. split; [intros w; reflexivity|].
  split; [intros w; reflexivity|].
  split; intros w; eexists; reflexivity.
Qed.

Lemma steady_waits_are_dates :
  SchedMore.waits_are_dates ascii_digit_value Mowan.default_config
    (host := Scenes.steady_host).
Proof.
  intros sel seconds fallback w [w0 Hr] Hf.
  assert (Hs : seconds = Some 600%Z).
  { vm_compute in Hr. injection Hr as <-. reflexivity. }
  subst seconds. vm_compute. reflexivity.
Qed.

Lemma scheduler_keeps_running_witness :
  SchedMore.sessions_work (host := Scenes.steady_host)
  /\ SchedMore.waits_are_dates ascii_digit_value Mowan.default_config
       (host := Scenes.steady_host)
  /\ (0 <= Mowan.STATUS_RECHECK_INTERVAL_SEC Mowan.default_config
      <= Mowan.SLEEP_SAFE_SEC)%Z
  /\ (0 <= Mowan.BRICK_RECHECK_INTERVAL_SEC Mowan.default_config
      <= Mowan.SLEEP_SAFE_SEC)%Z
  /\ exists st',
       result (Mowan.scheduler_rounds ascii_digit_value Mowan.default_config 5
                 SimMowan.state0 {| Scenes.steady_clock := 1000 |}) = Ok st'.
Proof.
  assert (H1 : (0 <= Mowan.STATUS_RECHECK_INTERVAL_SEC Mowan.default_config
                <= Mowan.SLEEP_SAFE_SEC)%Z)
    by (vm_compute; split; discriminate).
  assert (H2 : (0 <= Mowan.BRICK_RECHECK_INTERVAL_SEC Mowan.default_config
                <= Mowan.SLEEP_SAFE_SEC)%Z)
    by (vm_compute; split; discriminate).
  split; [exact steady_sessions_work|].
  split; [exact steady_waits_are_dates|].
  split; [exact H1|]. split; [exact H2|].
  exact (@MowanMore.scheduler_keeps_running ascii_digit_value
           Mowan.default_config _ _ steady_sessions_work
           steady_waits_are_dates 5%nat SimMowan.state0
           {| Scenes.steady_clock := 1000 |} H1 H2).
Defined.

Lemma ascii_digits_decimal (c : N) (d : Z) :
  ascii_digit_value c = Some d -> (0 <= d <= 9)%Z.
Proof.
  unfold ascii_digit_value.
  destruct ((48 <=? c)%N && (c <=? 57)%N) eqn:Hd; [|discriminate].
  apply andb_true_iff in Hd. destruct Hd as [H1 H2].
  apply N.leb_le in H1, H2. intros H. injection H as <-. lia.
Qed.

Lemma parse_never_negative_witness :
  (forall c d, ascii_digit_value c = Some d -> (0 <= d <= 9)%Z)
  /\ Parser.parse_countdown_text ascii_digit_value (Some example_strict)
     = Ok (Some 3723%Z)
  /\ (0 <= 3723)%Z.
Proof.
  split; [exact ascii_digits_decimal|]. split; [exact parse_example_strict|].
  exact (@ParserMore.parse_never_negative ascii_digit_value
           ascii_digits_decimal (Some example_strict) 3723%Z
           parse_example_strict).
Defined.

Lemma parse_strict_bounded_witness :
  ParserSpec.has_strict ascii_digit_value example_strict
  /\ exists v,
       Parser.parse_countdown_text ascii_digit_value (Some example_strict)
       = Ok (Some v) /\ (0 <= v <= 362439)%Z.
Proof.
  assert (H : ParserSpec.has_strict ascii_digit_value example_strict).
  { do 5 eexists. exact example_strict_occurs. }
  split; [exact H|].
  exact (@ParserMore.parse_strict_bounded ascii_digit_value
           ascii_digits_decimal example_strict
           ascii_space_no_digit ascii_colon_no_digit H).
Defined.

Lemma parse_ignores_outer_space_witness :
  Forall (fun c => is_space c = true) [32; 9]%N
  /\ Forall (fun c => is_space c = true) [10]%N
  /\ Parser.parse_countdown_text ascii_digit_value
       (Some ([32; 9]%N ++ lit "01:02:03" ++ [10]%N))
     = Parser.parse_countdown_text ascii_digit_value (Some (lit "01:02:03")).
Proof.
  assert (H1 : Forall (fun c => is_space c = true) [32; 9]%N)
    by (repeat constructor).
  assert (H2 : Forall (fun c => is_space c = true) [10]%N)
    by (repeat constructor).
  split; [exact H1|]. split; [exact H2|].
  exact (@ParserMore.parse_ignores_outer_space ascii_digit_value
           ascii_space_no_digit [32; 9]%N (lit "01:02:03") [10]%N H1 H2).
Defined.

Lemma one_no_quote : PlantMore.no_quote (PlantSpec.or_empty (Some (lit "1"))).
Proof. intros [H|[]]. discriminate H. Qed.

Lemma selector_names_one_plot_witness :
  result (Plant.plot_key_selector 0 PlantMore.twin_farm)
  = result (Plant.plot_key_selector 1 PlantMore.twin_farm)
  /\ PlantSpec.or_empty (Some (lit "1")) = PlantSpec.or_empty (Some (lit "1"))
  /\ PlantSpec.or_empty (Some (lit "1")) = PlantSpec.or_empty (Some (lit "1")).
Proof.
  assert (H : result (Plant.plot_key_selector 0 PlantMore.twin_farm)
              = result (Plant.plot_key_selector 1 PlantMore.twin_farm))
    by reflexivity.
  split; [exact H|].
  exact (@PlantMoreFacts.selector_names_one_plot _ _ 0%nat 1%nat
           PlantMore.twin_farm PlantMore.twin_farm
           (Some (lit "1")) (Some (lit "1")) (Some (lit "1")) (Some (lit "1"))
           eq_refl eq_refl eq_refl eq_refl
           one_no_quote one_no_quote one_no_quote one_no_quote H).
Defined.

Lemma run_once_waits_at_least_10_witness :
  Plant.run_once_page ascii_int SimPlant.farm0
  = (Ok (2, 0, 2000)%Z,
     world (Plant.run_once_page ascii_int SimPlant.farm0),
     events (Plant.run_once_page ascii_int SimPlant.farm0))
  /\ exists wait,
       result (Plant.run_once ascii_int SimPlant.farm0) = Ok wait
       /\ (10 <= wait)%Z.
Proof.
  split; [exact farm0_page|].
  refine (proj2 (@PlantMoreFacts.run_once_waits_at_least_10 ascii_int _ _
                   SimPlant.farm0 _ _ _ _ _ farm0_page) 1000500%Z _ _).
  - vm_compute. reflexivity.
  - vm_compute. reflexivity.
Defined.

Lemma cookie_is_trimmed_witness :
  Cookie.ensure_cookie_value "MOWAN_COOKIE" Scenes.env_padded
  = Cookie.Value (lit "abc")
  /\ lit "abc" <> [] /\ Cookie.trimmed (lit "abc").
Proof.
  assert (H : Cookie.ensure_cookie_value "MOWAN_COOKIE" Scenes.env_padded
              = Cookie.Value (lit "abc")) by reflexivity.
  split; [exact H|].
  exact (@CookieFacts.cookie_is_trimmed "MOWAN_COOKIE" Scenes.env_padded
           (lit "abc") H).
Defined.

Lemma blank_primary_hides_shared_witness :
  String.eqb "MOWAN_COOKIE" "SIQI_COOKIE" = false
  /\ Cookie.getenv Scenes.env_blank "MOWAN_COOKIE" = Some (lit " ")
  /\ lit " " <> []
  /\ Forall (fun c => is_space c = true) (lit " ")
  /\ Cookie.ensure_cookie_value "MOWAN_COOKIE"
       (Cookie.setenv "SIQI_COOKIE" (lit "shared") Scenes.env_blank)
     = Cookie.Value (lit "from-file").
Proof.
  assert (H1 : String.eqb "MOWAN_COOKIE" "SIQI_COOKIE" = false) by reflexivity.
  assert (H2 : Cookie.getenv Scenes.env_blank "MOWAN_COOKIE" = Some (lit " "))
    by reflexivity.
  assert (H3 : lit " " <> []) by discriminate.
  assert (H4 : Forall (fun c => is_space c = true) (lit " "))
    by (repeat constructor).
  split; [exact H1|]. split; [exact H2|]. split; [exact H3|].
  split; [exact H4|].
  rewrite (@CookieFacts.blank_primary_hides_shared "MOWAN_COOKIE"
             Scenes.env_blank (lit " ") (lit "shared") H1 H2 H3 H4).
  reflexivity.
Defined.

Lemma sim_clock_runs : Factory.clock_runs Factory.sim_clock.
Proof.
  split; [|split].
  - intros w. split; [reflexivity | apply Qle_refl].
  - intros w. apply Qle_refl.
  - intros w d. apply Qle_refl.
Qed.

Lemma factory_wait_ends_witness :
  Factory.clock_runs Factory.sim_clock
  /\ (0 <= 3)%Z
  /\ exists b,
       result (Factory.wait_for_brick_factory_ready 4 3 Scenes.workshop0)
       = Ok (Some b).
Proof.
  assert (H : (0 <= 3)%Z) by lia.
  split; [exact sim_clock_runs|]. split; [exact H|].
  exact (@FactoryFacts.factory_wait_ends _ _ Factory.sim_clock sim_clock_runs
           3%Z Scenes.workshop0 H).
Defined.

Lemma button_on_reads :
  Button.reads Scenes.button_on 1 true None (Some (lit "false")).
Proof. repeat split. Qed.

Lemma clean_button_clicked_iff_enabled_witness :
  Button.reads Scenes.button_on 1 true None (Some (lit "false"))
  /\ result (Button.click_clean_button Scenes.button_on) = Ok tt
  /\ List.length (events (Button.click_clean_button Scenes.button_on)) = 1%nat.
Proof.
  split; [exact button_on_reads|].
  exact (@ButtonFacts.clean_button_clicked_iff_enabled _ _ Scenes.button_on
           1%Z true None (Some (lit "false")) button_on_reads).
Defined.

Lemma carrots_read :
  Planting.seeds_read Planting.carrots_only
    (Planting.unlocked Planting.carrots_only).
Proof. intros t. reflexivity. Qed.

Lemma seed_preferred_first_witness :
  Planting.seeds_read Planting.carrots_only
    (Planting.unlocked Planting.carrots_only)
  /\ exists r,
       Planting.pick_seed_locator Planting.carrots_only
       = (Ok r, Planting.carrots_only, [])
       /\ match r with
          | Some (Planting.Preferred, t) =>
              In t Planting.SEED_PREFERRED_TEXTS
              /\ (0 < Planting.unlocked Planting.carrots_only t)%Z
          | Some (Planting.Fallback, t) =>
              In t Planting.SEED_FALLBACK_TEXTS
              /\ (0 < Planting.unlocked Planting.carrots_only t)%Z
              /\ Forall (fun p => (Planting.unlocked Planting.carrots_only p <= 0)%Z)
                   Planting.SEED_PREFERRED_TEXTS
          | None =>
              Forall (fun p => (Planting.unlocked Planting.carrots_only p <= 0)%Z)
                (Planting.SEED_PREFERRED_TEXTS ++ Planting.SEED_FALLBACK_TEXTS)
          end.
Proof.
  split; [exact carrots_read|].
  exact (@PlantingFacts.seed_preferred_first _ _ Planting.carrots_only
           (Planting.unlocked Planting.carrots_only) carrots_read).
Defined.

(** On that shelf the carrot is picked, as the fallback. *)
Example seed_fallback_example :
  result (Planting.pick_seed_locator Planting.carrots_only)
  = Ok (Some (Planting.Fallback, [33821; 21340]%N)).
Proof. reflexivity. Qed.

Lemma idle_returns : returns Watch.idle.
Proof. intros w. exists tt. reflexivity. Qed.

Lemma idle_keeps_clock : Watch.keeps_clock Watch.sim_clock Watch.idle.
Proof. intros w. apply Qle_refl. Qed.

Lemma sim_watch_clock_runs : Watch.clock_runs Watch.sim_clock.
Proof.
  split; [|split].
  - intros w. split; [reflexivity | apply Qle_refl].
  - intros w. apply Qle_refl.
  - intros w ms. apply Qle_refl.
Qed.

Lemma run_loop_without_limit_witness :
  (Some 0%Z = None \/ Some 0%Z = Some 0%Z)
  /\ result (Watch.run_loop Watch.idle Watch.idle Watch.idle 3 (Some 0%Z)
              {| Watch.sim_clock := 0 |}) = Ok false
  /\ Watch.waits
       (events (Watch.run_loop Watch.idle Watch.idle Watch.idle 3 (Some 0%Z)
                  {| Watch.sim_clock := 0 |}))
     = List.repeat Watch.CHECK_INTERVAL_MS 3.
Proof.
  assert (H : Some 0%Z = None \/ Some 0%Z = Some 0%Z) by (right; reflexivity).
  split; [exact H|].
  exact (@WatchFacts.run_loop_without_limit _ _ _ Watch.idle Watch.idle
           Watch.idle idle_returns idle_returns idle_returns 3%nat (Some 0%Z)
           {| Watch.sim_clock := 0 |} H).
Defined.

Lemma run_loop_ends_witness :
  600%Z <> 0%Z
  /\ exists k,
       (1 <= k <= S (Z.to_nat (600 / 3)))%nat
       /\ result (Watch.run_loop Watch.idle Watch.idle Watch.idle
                    (S (Z.to_nat (600 / 3))) (Some 600%Z)
                    {| Watch.sim_clock := 0 |}) = Ok true
       /\ Watch.waits
            (events (Watch.run_loop Watch.idle Watch.idle Watch.idle
                       (S (Z.to_nat (600 / 3))) (Some 600%Z)
                       {| Watch.sim_clock := 0 |}))
          = List.repeat Watch.CHECK_INTERVAL_MS k.
Proof.
  assert (H : 600%Z <> 0%Z) by discriminate.
  split; [exact H|].
  exact (@WatchFacts.run_loop_ends _ _ _ Watch.idle Watch.idle Watch.idle
           idle_returns idle_returns idle_returns Watch.sim_clock
           sim_watch_clock_runs idle_keeps_clock idle_keeps_clock
           idle_keeps_clock 600%Z {| Watch.sim_clock := 0 |} H).
Defined.

(** With the limit of 4 seconds the loop is left after two rounds. *)
Example run_loop_two_rounds :
  result (Watch.run_loop Watch.idle Watch.idle Watch.idle 5 (Some 4%Z)
            {| Watch.sim_clock := 0 |}) = Ok true
  /\ Watch.waits
       (events (Watch.run_loop Watch.idle Watch.idle Watch.idle 5 (Some 4%Z)
                  {| Watch.sim_clock := 0 |})) = [3000; 3000]%Z.
Proof. vm_compute. split; reflexivity. Qed.

(** Two rounds of [loop_smart] on the farm: a wait of 1004 seconds for the
    harvest at 2000, then, with nothing more to ripen, the fallback. *)
Example loop_smart_two_rounds :
  result (Loops.loop_smart ascii_int 2 SimPlant.farm0) = Ok tt
  /\ Loops.sleeps (events (Loops.loop_smart ascii_int 2 SimPlant.farm0))
     = [1004; 300]%Z.
Proof. vm_compute. split; reflexivity. Qed.

(** A harvest time of 17620000000000 gives a wait of 17618238000005
    seconds, which is no length of a sleep: the loop raises. *)
Example loop_smart_far_harvest :
  result (Plant.run_once ascii_int Scenes.late_farm) = Ok 17618238000005%Z
  /\ result (Loops.loop_smart ascii_int 1 Scenes.late_farm) = Raised
  /\ Loops.sleeps (events (Loops.loop_smart ascii_int 1 Scenes.late_farm)) = [].
Proof. vm_compute. repeat split. Qed.
